(** * MaxScale core: connection router, monitor, journal and replication
      stream processor

    A shallow embedding of

    - [server/modules/routing/readconnroute/readconnroute.cc]
      (module [Router]),
    - [server/core/monitor.cc] (modules [Monitor] and [Journal]),
    - [replicator/src/replicator.cc] (module [Replicator]),

    followed by the properties established about them.  Pointers into a
    list owned by the service or by the monitor are modelled as positions
    in that list; unsigned machine words are [Z] with the truncation
    written out; [int] counters are [Z] (signed overflow is undefined in
    C++, the model is exact as long as the counters stay in range). *)

From Stdlib Require Import ZArith Lia Bool List Ascii String DecimalString.
From stdpp Require Import base option list gmap.

Local Open Scope Z_scope.

(** ** Server status bits *)

Module Status.

(** Modelled from the spec: the role-flag set of a backend
    ({RUNNING, MASTER, SLAVE, JOINED, NDB, MAINT, DRAINING, ...}).  The
    header [maxscale/server.hh] that assigns the bits is not part of the
    sources; each flag is one distinct bit of the status word, laid out as
    in that header. *)
Definition SERVER_RUNNING : Z := Z.shiftl 1 0.
Definition SERVER_MAINT : Z := Z.shiftl 1 1.
Definition SERVER_AUTH_ERROR : Z := Z.shiftl 1 2.
Definition SERVER_MASTER : Z := Z.shiftl 1 3.
Definition SERVER_SLAVE : Z := Z.shiftl 1 4.
Definition SERVER_BEING_DRAINED : Z := Z.shiftl 1 5.
Definition SERVER_DISK_SPACE_EXHAUSTED : Z := Z.shiftl 1 6.
Definition SERVER_WAS_MASTER : Z := Z.shiftl 1 18.
Definition SERVER_JOINED : Z := Z.shiftl 1 19.
Definition SERVER_NDB : Z := Z.shiftl 1 20.

(** Truncation to an unsigned machine word. *)
Definition u32 (x : Z) : Z := x mod 2 ^ 32.
Definition u64 (x : Z) : Z := x mod 2 ^ 64.

Definition word32 (x : Z) : Prop := 0 <= x < 2 ^ 32.
Definition word64 (x : Z) : Prop := 0 <= x < 2 ^ 64.

(** Modelled from the spec: the status predicates of [maxscale/server.h]
    (not part of the sources).  [server_is_master] follows the comment on
    [get_root_master]: running, not in maintenance, master bit set. *)
Definition status_is_running (status : Z) : bool :=
  negb (Z.land status SERVER_RUNNING =? 0).

Definition status_is_in_maint (status : Z) : bool :=
  negb (Z.land status SERVER_MAINT =? 0).

Definition status_is_down (status : Z) : bool :=
  Z.land status SERVER_RUNNING =? 0.

Definition status_is_master (status : Z) : bool :=
  Z.land status (Z.lor (Z.lor SERVER_RUNNING SERVER_MASTER) SERVER_MAINT)
  =? Z.lor SERVER_RUNNING SERVER_MASTER.

End Status.

(** ** readconnroute.cc *)

Module Router.
Import Status.

(** The backend as the router sees it: [SERVER::status],
    [SERVER::is_active] and [SERVER::stats.n_connections]. *)
Record SERVER := {
  status : Z;
  is_active : bool;
  n_connections : Z
}.

(** One element of the service's [dbref] list. *)
Record SERVER_REF := {
  server : SERVER;
  weight : Z;
  connections : Z;
  active : bool
}.

(** A [SERVER_REF*] is the position of the element in [dbref]. *)
Definition ref_ptr := (nat * SERVER_REF)%type.

Record ROUTER_INSTANCE := {
  dbref : list SERVER_REF;
  bitmask_and_bitvalue : Z;
  n_sessions : Z
}.

(** [bitmask] and [bitvalue] are 32-bit fields of the session. *)
Record ROUTER_CLIENT_SES := {
  backend : nat;
  bitmask : Z;
  bitvalue : Z
}.

Definition server_is_running (s : SERVER) : bool := status_is_running (status s).
Definition server_is_in_maint (s : SERVER) : bool := status_is_in_maint (status s).
Definition server_is_master (s : SERVER) : bool := status_is_master (status s).

(** Modelled from the spec: the macro [SERVER_REF_IS_ACTIVE] of
    [maxscale/service.h] (not part of the sources): the reference is
    active and its server has not been destroyed. *)
Definition SERVER_REF_IS_ACTIVE (ref : SERVER_REF) : bool :=
  active ref && is_active (server ref).

(** *** configureInstance *)

Definition to_lower (c : ascii) : ascii :=
  let n := nat_of_ascii c in
  if ((65 <=? n) && (n <=? 90))%nat then ascii_of_nat (n + 32) else c.

Fixpoint lowercase (s : string) : string :=
  match s with
  | EmptyString => EmptyString
  | String c s' => String (to_lower c) (lowercase s')
  end.

(** [!strcasecmp(a, b)] *)
Definition strcaseeq (a b : string) : bool :=
  String.eqb (lowercase a) (lowercase b).

Record filter_acc := {
  acc_bitmask : Z;
  acc_bitvalue : Z;
  acc_ok : bool
}.

(** One iteration of the loop over the tokens of [router_options]. *)
Definition configure_option (a : filter_acc) (opt : string) : filter_acc :=
  if strcaseeq opt "master" then
    {| acc_bitmask := Z.lor (acc_bitmask a) (Z.lor SERVER_MASTER SERVER_SLAVE);
       acc_bitvalue := Z.lor (acc_bitvalue a) SERVER_MASTER;
       acc_ok := acc_ok a |}
  else if strcaseeq opt "slave" then
    {| acc_bitmask := Z.lor (acc_bitmask a) (Z.lor SERVER_MASTER SERVER_SLAVE);
       acc_bitvalue := Z.lor (acc_bitvalue a) SERVER_SLAVE;
       acc_ok := acc_ok a |}
  else if strcaseeq opt "running" then
    {| acc_bitmask := Z.lor (acc_bitmask a) SERVER_RUNNING;
       acc_bitvalue := Z.lor (acc_bitvalue a) SERVER_RUNNING;
       acc_ok := acc_ok a |}
  else if strcaseeq opt "synced" then
    {| acc_bitmask := Z.lor (acc_bitmask a) SERVER_JOINED;
       acc_bitvalue := Z.lor (acc_bitvalue a) SERVER_JOINED;
       acc_ok := acc_ok a |}
  else if strcaseeq opt "ndb" then
    {| acc_bitmask := Z.lor (acc_bitmask a) SERVER_NDB;
       acc_bitvalue := Z.lor (acc_bitvalue a) SERVER_NDB;
       acc_ok := acc_ok a |}
  else
    {| acc_bitmask := acc_bitmask a;
       acc_bitvalue := acc_bitvalue a;
       acc_ok := false |}.

(** The role filter after the loop, with the RUNNING default. *)
Definition role_filter (router_options : list string) : filter_acc :=
  let a := fold_left configure_option router_options
             {| acc_bitmask := 0; acc_bitvalue := 0; acc_ok := true |} in
  if (acc_bitmask a =? 0) && (acc_bitvalue a =? 0) then
    {| acc_bitmask := Z.lor (acc_bitmask a) SERVER_RUNNING;
       acc_bitvalue := Z.lor (acc_bitvalue a) SERVER_RUNNING;
       acc_ok := acc_ok a |}
  else a.

(** [configureInstance]: the tokens of [router_options] come from
    [mxs::strtok]; the result is the return value and the instance with
    the packed word stored when every token was recognised. *)
Definition configureInstance (inst : ROUTER_INSTANCE) (router_options : list string)
  : bool * ROUTER_INSTANCE :=
  let a := role_filter router_options in
  if acc_ok a then
    let mask := u64 (Z.lor (acc_bitmask a) (Z.shiftl (acc_bitvalue a) 32)) in
    (true, {| dbref := dbref inst;
              bitmask_and_bitvalue := mask;
              n_sessions := n_sessions inst |})
  else (false, inst).

(** *** get_root_master *)

Fixpoint indexed {A} (i : nat) (l : list A) : list (nat * A) :=
  match l with
  | [] => []
  | x :: l' => (i, x) :: indexed (S i) l'
  end.

Definition root_master_step (master_host : option ref_ptr) (p : ref_ptr)
  : option ref_ptr :=
  let ref := snd p in
  if active ref && server_is_master (server ref) then
    match master_host with
    | None => Some p
    | Some mh => if weight mh.2 <? weight ref then Some p else master_host
    end
  else master_host.

Definition get_root_master (servers : list SERVER_REF) : option ref_ptr :=
  fold_left root_master_step (indexed 0 servers) None.

(** *** newSession *)

(** [((ref->connections + 1) * 1000) / ref->weight], C integer division. *)
Definition load_ratio (ref : SERVER_REF) : Z :=
  Z.quot ((connections ref + 1) * 1000) (weight ref).

(** The chain of [if]s that updates [candidate] for a server that passed
    the status checks. *)
Definition pick (candidate : option ref_ptr) (p : ref_ptr) : option ref_ptr :=
  match candidate with
  | None => Some p
  | Some c =>
      let ref := snd p in
      let cand := snd c in
      if (weight ref =? 0) || (weight cand =? 0) then
        (if negb (weight ref =? 0) then Some p else candidate)
      else if load_ratio ref <? load_ratio cand then Some p
      else if (load_ratio ref =? load_ratio cand)
              && (n_connections (server ref) <? n_connections (server cand))
      then Some p
      else candidate
  end.

(** The status check at the top of the loop body. *)
Definition status_check (bitmask bitvalue : Z) (ref : SERVER_REF) : bool :=
  server_is_running (server ref)
  && negb (Z.land (Z.land (status (server ref)) bitmask) bitvalue =? 0).

Definition same_ptr (p : ref_ptr) (q : option ref_ptr) : bool :=
  match q with
  | Some m => Nat.eqb (fst p) (fst m)
  | None => false
  end.

(** The loop over [inst->service->dbref]; [continue] recurses with the
    candidate unchanged, [break] returns. *)
Fixpoint select_loop (bitmask bitvalue : Z) (master_host : option ref_ptr)
    (refs : list ref_ptr) (candidate : option ref_ptr) : option ref_ptr :=
  match refs with
  | [] => candidate
  | p :: rest =>
      let ref := snd p in
      if negb (SERVER_REF_IS_ACTIVE ref) || server_is_in_maint (server ref) then
        select_loop bitmask bitvalue master_host rest candidate
      else if status_check bitmask bitvalue ref then
        match master_host with
        | Some _ =>
            if same_ptr p master_host
               && (Z.land bitvalue (Z.lor SERVER_SLAVE SERVER_MASTER) =? SERVER_SLAVE)
            then select_loop bitmask bitvalue master_host rest candidate
            else if same_ptr p master_host && (bitvalue =? SERVER_MASTER)
            then master_host
            else select_loop bitmask bitvalue master_host rest (pick candidate p)
        | None =>
            if bitvalue =? SERVER_MASTER then None
            else select_loop bitmask bitvalue master_host rest (pick candidate p)
        end
      else select_loop bitmask bitvalue master_host rest candidate
  end.

(** What the environment decides during [newSession]: whether
    [MXS_CALLOC] and [dcb_connect] succeed. *)
Record session_env := {
  calloc_ok : bool;
  dcb_connect_ok : bool
}.

(** [atomic_add(&ref->connections, n)] on the element at position [i]. *)
Definition add_connections (i : nat) (n : Z) (refs : list SERVER_REF)
  : list SERVER_REF :=
  match refs !! i with
  | Some ref =>
      <[ i := {| server := server ref;
                 weight := weight ref;
                 connections := connections ref + n;
                 active := active ref |} ]> refs
  | None => refs
  end.

(** [client_rses->bitmask = mask] and [client_rses->bitvalue = mask >> 32]
    for the packed word [mask] of the instance. *)
Definition session_bitmask (inst : ROUTER_INSTANCE) : Z :=
  u32 (bitmask_and_bitvalue inst).

Definition session_bitvalue (inst : ROUTER_INSTANCE) : Z :=
  u32 (Z.shiftr (bitmask_and_bitvalue inst) 32).

(** [newSession]: the session (or NULL) and the instance afterwards. *)
Definition newSession (env : session_env) (inst : ROUTER_INSTANCE)
  : option ROUTER_CLIENT_SES * ROUTER_INSTANCE :=
  if negb (calloc_ok env) then (None, inst)
  else
    let bm := session_bitmask inst in
    let bv := session_bitvalue inst in
    let master_host := get_root_master (dbref inst) in
    let candidate :=
      select_loop bm bv master_host (indexed 0 (dbref inst)) None in
    let chosen :=
      match candidate with
      | Some c => Some (c, bv)
      | None =>
          match master_host with
          | Some m =>
              Some (m, if negb (Z.land bv SERVER_SLAVE =? 0)
                       then Z.lor bv SERVER_MASTER else bv)
          | None => None
          end
      end in
    match chosen with
    | None => (None, inst)
    | Some (c, bv') =>
        if negb (dcb_connect_ok env) then (None, inst)
        else
          (Some {| backend := fst c; bitmask := bm; bitvalue := bv' |},
           {| dbref := add_connections (fst c) 1 (dbref inst);
              bitmask_and_bitvalue := bitmask_and_bitvalue inst;
              n_sessions := n_sessions inst + 1 |})
    end.

(** [freeSession] *)
Definition freeSession (inst : ROUTER_INSTANCE) (ses : ROUTER_CLIENT_SES)
  : ROUTER_INSTANCE :=
  {| dbref := add_connections (backend ses) (-1) (dbref inst);
     bitmask_and_bitvalue := bitmask_and_bitvalue inst;
     n_sessions := n_sessions inst |}.

(** *** The candidates of the selection, as the specification describes them *)

(** Step 2 and the slave special case of step 3: an active server out of
    maintenance that passes the status check and is not the root master of
    a session that asks for slaves only. *)
Definition eligible (bitmask bitvalue : Z) (master_host : option ref_ptr)
    (p : ref_ptr) : bool :=
  SERVER_REF_IS_ACTIVE (snd p)
  && negb (server_is_in_maint (server (snd p)))
  && status_check bitmask bitvalue (snd p)
  && negb (same_ptr p master_host
           && (Z.land bitvalue (Z.lor SERVER_SLAVE SERVER_MASTER) =? SERVER_SLAVE)).

(** The candidates that remain after the special cases: for
    [value == MASTER] the root master alone (none without a root master),
    otherwise every eligible server, in list order. *)
Definition remaining (bitmask bitvalue : Z) (master_host : option ref_ptr)
    (refs : list ref_ptr) : list ref_ptr :=
  if bitvalue =? SERVER_MASTER then
    match master_host with
    | Some _ =>
        List.filter (fun p => eligible bitmask bitvalue master_host p
                              && same_ptr p master_host) refs
    | None => []
    end
  else List.filter (eligible bitmask bitvalue master_host) refs.

Definition candidates (inst : ROUTER_INSTANCE) : list ref_ptr :=
  remaining (session_bitmask inst) (session_bitvalue inst)
    (get_root_master (dbref inst)) (indexed 0 (dbref inst)).

(** The loop of [newSession] on an instance. *)
Definition selected (inst : ROUTER_INSTANCE) : option ref_ptr :=
  select_loop (session_bitmask inst) (session_bitvalue inst)
    (get_root_master (dbref inst)) (indexed 0 (dbref inst)) None.


(** The service of the weighted least-connections scenario: two running
    slaves, S1 with weight 2 and 10 connections, S2 with weight 1 and
    [conn2] connections, and the filter of [router_options=slave]. *)
Definition slave_server : SERVER :=
  {| status := Z.lor SERVER_RUNNING SERVER_SLAVE; is_active := true;
     n_connections := 0 |}.

Definition two_slaves (conn2 : Z) : ROUTER_INSTANCE :=
  snd (configureInstance
         {| dbref := [ {| server := slave_server; weight := 2;
                          connections := 10; active := true |};
                       {| server := slave_server; weight := 1;
                          connections := conn2; active := true |} ];
            bitmask_and_bitvalue := 0; n_sessions := 0 |}
         ["slave"%string]).

Definition env_ok : session_env := {| calloc_ok := true; dcb_connect_ok := true |}.

(** A relay server (running, master and slave at once) and an instance
    configured with [router_options=slave]. *)
Definition relay_ref : SERVER_REF :=
  {| server := {| status := Z.lor (Z.lor SERVER_RUNNING SERVER_MASTER) SERVER_SLAVE;
                  is_active := true; n_connections := 0 |};
     weight := 1; connections := 0; active := true |}.

Definition empty_instance : ROUTER_INSTANCE :=
  {| dbref := []; bitmask_and_bitvalue := 0; n_sessions := 0 |}.

Definition slave_instance : ROUTER_INSTANCE :=
  snd (configureInstance empty_instance ["slave"%string]).

(** Two running servers of weight 0 behind the default filter; the first
    has served 5 sessions, the second none. *)
Definition zero_weight_pair : ROUTER_INSTANCE :=
  snd (configureInstance
         {| dbref := [ {| server := {| status := SERVER_RUNNING; is_active := true;
                                       n_connections := 5 |};
                          weight := 0; connections := 0; active := true |};
                       {| server := {| status := SERVER_RUNNING; is_active := true;
                                       n_connections := 0 |};
                          weight := 0; connections := 0; active := true |} ];
            bitmask_and_bitvalue := 0; n_sessions := 0 |}
         []).

(** *** connection_is_valid, log_closed_session and routeQuery *)

(** [connection_is_valid]; the session's [backend] is an element of
    [dbref]. *)
Definition connection_is_valid (inst : ROUTER_INSTANCE) (ses : ROUTER_CLIENT_SES)
  : bool :=
  match dbref inst !! backend ses with
  | Some ref =>
      if server_is_running (server ref)
         && negb (Z.land (Z.land (status (server ref)) (bitmask ses)) (bitvalue ses)
                  =? 0)
      then
        if (bitvalue ses =? SERVER_MASTER) && active ref then
          same_ptr (backend ses, ref) (get_root_master (dbref inst))
        else true
      else false
  | None => false
  end.

(** The session fields that [routeQuery] and [closeSession] look at
    beside the selection: [backend_dcb] is [None] for a NULL pointer. *)
Record route_session := {
  rses : ROUTER_CLIENT_SES;
  rses_closed : bool;
  backend_dcb : option nat
}.

Definition server_is_down (s : SERVER) : bool := status_is_down (status s).

(** [log_closed_session]: the text put into [msg], with the server name
    still to be substituted for [%s].  [valid] is [None] when the caller's
    variable was never assigned; the result is [None] when the text
    depends on such a value. *)
Definition log_closed_session (is_closed : bool) (ref : SERVER_REF)
    (valid : option bool) : option string :=
  if is_closed then Some "Session is closed."%string
  else if server_is_down (server ref) then Some "Server '%s' is down."%string
  else if server_is_in_maint (server ref)
  then Some "Server '%s' is in maintenance."%string
  else
    match valid with
    | Some v =>
        if negb v
        then Some "Server '%s' no longer qualifies as a target server."%string
        else Some ""%string
    | None => None
    end.

Inductive route_result :=
  | Routed (dcb : nat)
  | Dropped (msg : option string).

(** The path of [routeQuery] up to the [switch]: either the packet goes to
    the backend DCB or it is freed, 0 is returned and the reason is
    logged.  The statistics counters are not part of the model. *)
Definition routeQuery (inst : ROUTER_INSTANCE) (rs : route_session) : route_result :=
  let log is_closed valid :=
    match dbref inst !! backend (rses rs) with
    | Some ref => log_closed_session is_closed ref valid
    | None => None
    end in
  if rses_closed rs then Dropped (log true None)
  else
    match backend_dcb rs with
    | None => Dropped (log false None)
    | Some dcb =>
        let valid := negb (connection_is_valid inst (rses rs)) in
        if valid then Dropped (log false (Some valid))
        else Routed dcb
    end.

(** [closeSession] on the session fields; the result also tells which DCB
    is closed. *)
Definition closeSession (rs : route_session) : route_session * option nat :=
  if rses_closed rs then (rs, None)
  else ({| rses := rses rs; rses_closed := true; backend_dcb := None |},
        backend_dcb rs).

(** The options [configureInstance] knows, compared as [strcasecmp] does. *)
Definition supported_option (opt : string) : bool :=
  existsb (strcaseeq opt)
    ["master"; "slave"; "running"; "synced"; "ndb"]%string.

(** A service whose only server is a running master, and the instance of
    a router configured with [router_options=slave] on it. *)
Definition master_server : SERVER :=
  {| status := Z.lor SERVER_RUNNING SERVER_MASTER; is_active := true;
     n_connections := 0 |}.

Definition sole_master (opts : list string) : ROUTER_INSTANCE :=
  snd (configureInstance
         {| dbref := [ {| server := master_server; weight := 1;
                          connections := 0; active := true |} ];
            bitmask_and_bitvalue := 0; n_sessions := 0 |}
         opts).

(** A server an election can choose: the condition of [get_root_master]. *)
Definition electable (p : ref_ptr) : bool :=
  active (snd p) && server_is_master (server (snd p)).

(** What the loop returns is the candidate it started with or a server of
    the list that passed the checks of the loop; in the master case the
    server is returned through [master_host]. *)
Definition passed (bm bv : Z) (mh : option ref_ptr) (l : list ref_ptr)
    (c : ref_ptr) : Prop :=
  exists p, In p l
    /\ (p = c \/ (mh = Some c /\ fst p = fst c))
    /\ SERVER_REF_IS_ACTIVE p.2 = true
    /\ server_is_in_maint (server p.2) = false
    /\ status_check bm bv p.2 = true.

(** The election looks at [active], the server and the weight only. *)
Definition same_election (a b : SERVER_REF) : Prop :=
  active a = active b /\ server a = server b /\ weight a = weight b.

End Router.

(** ** monitor.cc: monitored servers, events and the tick *)

Module Monitor.
Import Status.

Inductive monitor_state_t := MONITOR_STATE_RUNNING | MONITOR_STATE_STOPPED.

(** [MXS_MONITORED_SERVER::status_request] *)
Inductive status_request_t :=
  NO_CHANGE | MAINT_OFF | MAINT_ON | BEING_DRAINED_OFF | BEING_DRAINED_ON.

(** [Monitor::check_status_flag] *)
Inductive status_flag_t := STATUS_FLAG_NOCHECK | STATUS_FLAG_CHECK.

Inductive mxs_monitor_event_t :=
  | UNDEFINED_EVENT
  | MASTER_DOWN_EVENT | MASTER_UP_EVENT
  | SLAVE_DOWN_EVENT | SLAVE_UP_EVENT
  | SERVER_DOWN_EVENT | SERVER_UP_EVENT
  | SYNCED_DOWN_EVENT | SYNCED_UP_EVENT
  | NDB_DOWN_EVENT | NDB_UP_EVENT
  | LOST_MASTER_EVENT | LOST_SLAVE_EVENT | LOST_SYNCED_EVENT | LOST_NDB_EVENT
  | NEW_MASTER_EVENT | NEW_SLAVE_EVENT | NEW_SYNCED_EVENT | NEW_NDB_EVENT.

(** The local enum of [mon_get_event_type]. *)
Inductive general_event_type :=
  DOWN_EVENT | UP_EVENT | LOSS_EVENT | NEW_EVENT | UNSUPPORTED_EVENT.

(** A monitored server together with the fields of its [SERVER] that the
    monitor reads and writes: [name] is [server->name()] (the bytes before
    the terminating NUL), [status] is [server->status], [last_event] is
    [server->last_event]. *)
Record MXS_MONITORED_SERVER := {
  name : list Z;
  status : Z;
  last_event : mxs_monitor_event_t;
  mon_prev_status : Z;
  pending_status : Z;
  mon_err_count : Z;
  status_request : status_request_t
}.

Definition with_status (v : Z) (s : MXS_MONITORED_SERVER) :=
  {| name := name s; status := v; last_event := last_event s;
     mon_prev_status := mon_prev_status s; pending_status := pending_status s;
     mon_err_count := mon_err_count s; status_request := status_request s |}.

Definition with_last_event (v : mxs_monitor_event_t) (s : MXS_MONITORED_SERVER) :=
  {| name := name s; status := status s; last_event := v;
     mon_prev_status := mon_prev_status s; pending_status := pending_status s;
     mon_err_count := mon_err_count s; status_request := status_request s |}.

Definition with_mon_prev_status (v : Z) (s : MXS_MONITORED_SERVER) :=
  {| name := name s; status := status s; last_event := last_event s;
     mon_prev_status := v; pending_status := pending_status s;
     mon_err_count := mon_err_count s; status_request := status_request s |}.

Definition with_pending_status (v : Z) (s : MXS_MONITORED_SERVER) :=
  {| name := name s; status := status s; last_event := last_event s;
     mon_prev_status := mon_prev_status s; pending_status := v;
     mon_err_count := mon_err_count s; status_request := status_request s |}.

Definition with_mon_err_count (v : Z) (s : MXS_MONITORED_SERVER) :=
  {| name := name s; status := status s; last_event := last_event s;
     mon_prev_status := mon_prev_status s; pending_status := pending_status s;
     mon_err_count := v; status_request := status_request s |}.

Definition with_status_request (v : status_request_t) (s : MXS_MONITORED_SERVER) :=
  {| name := name s; status := status s; last_event := last_event s;
     mon_prev_status := mon_prev_status s; pending_status := pending_status s;
     mon_err_count := mon_err_count s; status_request := v |}.

(** Modelled from the spec: [SERVER::set_status] and [SERVER::clear_status]
    of [server.cc] (not part of the sources) set and clear the given bits
    of the role-flag word, as their use for the MAINT and DRAINING bits in
    [monitor_check_maintenance_requests] requires. *)
Definition set_status (bit : Z) (s : MXS_MONITORED_SERVER) :=
  with_status (Z.lor (status s) bit) s.

Definition clear_status (bit : Z) (s : MXS_MONITORED_SERVER) :=
  with_status (Z.land (status s) (Z.lnot bit)) s.

(** Modelled from the spec: the status predicates of [SERVER]
    ([maxscale/server.hh], not part of the sources). *)
Definition is_in_maint (s : MXS_MONITORED_SERVER) : bool := status_is_in_maint (status s).
Definition is_down (s : MXS_MONITORED_SERVER) : bool := status_is_down (status s).
Definition is_usable (s : MXS_MONITORED_SERVER) : bool :=
  Z.land (status s) (Z.lor SERVER_RUNNING SERVER_MAINT) =? SERVER_RUNNING.
Definition is_in_cluster (s : MXS_MONITORED_SERVER) : bool :=
  negb (Z.land (status s)
          (Z.lor (Z.lor (Z.lor SERVER_MASTER SERVER_SLAVE) SERVER_JOINED) SERVER_NDB) =? 0).

Definition server_type_bits : Z :=
  Z.lor (Z.lor (Z.lor SERVER_MASTER SERVER_SLAVE) SERVER_JOINED) SERVER_NDB.

Definition all_server_bits : Z :=
  Z.lor (Z.lor (Z.lor (Z.lor (Z.lor SERVER_RUNNING SERVER_MAINT) SERVER_MASTER)
                  SERVER_SLAVE) SERVER_JOINED) SERVER_NDB.

Definition monitor_set_pending_status (bit : Z) (s : MXS_MONITORED_SERVER) :=
  with_pending_status (Z.lor (pending_status s) bit) s.

Definition monitor_clear_pending_status (bit : Z) (s : MXS_MONITORED_SERVER) :=
  with_pending_status (Z.land (pending_status s) (u64 (Z.lnot bit))) s.

Definition has_bit (x bit : Z) : bool := negb (Z.land x bit =? 0).

(** *** mon_get_event_type *)

(** The first half of [mon_get_event_type]: the general event type from
    the masked previous and present status (assertions compiled out). *)
Definition event_category (prev present : Z) : general_event_type :=
  if Z.land prev SERVER_RUNNING =? 0 then
    (if negb (Z.land present SERVER_RUNNING =? 0) then UP_EVENT
     else UNSUPPORTED_EVENT)
  else if Z.land present SERVER_RUNNING =? 0 then DOWN_EVENT
  else
    let prev_bits := Z.land prev (Z.lor SERVER_MASTER SERVER_SLAVE) in
    let present_bits := Z.land present (Z.lor SERVER_MASTER SERVER_SLAVE) in
    if ((prev_bits =? 0) || (present_bits =? 0) || (prev_bits =? present_bits))
       && negb (Z.land prev server_type_bits =? 0)
    then LOSS_EVENT
    else NEW_EVENT.

(** The [switch] of [mon_get_event_type]. *)
Definition event_of_category (event_type : general_event_type) (prev present : Z)
  : mxs_monitor_event_t :=
  match event_type with
  | UP_EVENT =>
      if has_bit present SERVER_MASTER then MASTER_UP_EVENT
      else if has_bit present SERVER_SLAVE then SLAVE_UP_EVENT
      else if has_bit present SERVER_JOINED then SYNCED_UP_EVENT
      else if has_bit present SERVER_NDB then NDB_UP_EVENT
      else SERVER_UP_EVENT
  | DOWN_EVENT =>
      if has_bit prev SERVER_MASTER then MASTER_DOWN_EVENT
      else if has_bit prev SERVER_SLAVE then SLAVE_DOWN_EVENT
      else if has_bit prev SERVER_JOINED then SYNCED_DOWN_EVENT
      else if has_bit prev SERVER_NDB then NDB_DOWN_EVENT
      else SERVER_DOWN_EVENT
  | LOSS_EVENT =>
      if has_bit prev SERVER_MASTER then LOST_MASTER_EVENT
      else if has_bit prev SERVER_SLAVE then LOST_SLAVE_EVENT
      else if has_bit prev SERVER_JOINED then LOST_SYNCED_EVENT
      else if has_bit prev SERVER_NDB then LOST_NDB_EVENT
      else UNDEFINED_EVENT
  | NEW_EVENT =>
      if has_bit present SERVER_MASTER then NEW_MASTER_EVENT
      else if has_bit present SERVER_SLAVE then NEW_SLAVE_EVENT
      else if has_bit present SERVER_JOINED then NEW_SYNCED_EVENT
      else if has_bit present SERVER_NDB then NEW_NDB_EVENT
      else UNDEFINED_EVENT
  | UNSUPPORTED_EVENT => UNDEFINED_EVENT
  end.

Definition mon_get_event_type (node : MXS_MONITORED_SERVER) : mxs_monitor_event_t :=
  let prev := Z.land (mon_prev_status node) all_server_bits in
  let present := Z.land (status node) all_server_bits in
  if prev =? present then UNDEFINED_EVENT
  else event_of_category (event_category prev present) prev present.

(** *** mon_status_changed *)

Definition mon_status_changed (mon_srv : MXS_MONITORED_SERVER) : bool :=
  if negb (mon_prev_status mon_srv =? 2 ^ 64 - 1) then
    let old_status := Z.land (mon_prev_status mon_srv) all_server_bits in
    let new_status := Z.land (status mon_srv) all_server_bits in
    negb (old_status =? new_status)
    && (Z.land (Z.lor old_status new_status) SERVER_MAINT =? 0)
    && (Z.land (Z.lor old_status new_status) SERVER_RUNNING =? SERVER_RUNNING)
  else false.

Definition mon_print_fail_status (mon_srv : MXS_MONITORED_SERVER) : bool :=
  is_down mon_srv && (mon_err_count mon_srv =? 0).

(** *** The monitor *)

Record Monitor := {
  m_servers : list MXS_MONITORED_SERVER;
  m_state : monitor_state_t;
  check_status_flag : status_flag_t;
  m_ticks : Z;
  (** [m_master], a pointer into [m_servers] *)
  m_master : option nat;
  m_journal_hash : list Z;
  (** contents of [<datadir>/<name>/monitor.dat], if the file exists *)
  journal_file : option (list Z)
}.

Definition with_servers (v : list MXS_MONITORED_SERVER) (m : Monitor) :=
  {| m_servers := v; m_state := m_state m;
     check_status_flag := check_status_flag m; m_ticks := m_ticks m;
     m_master := m_master m; m_journal_hash := m_journal_hash m;
     journal_file := journal_file m |}.

Definition with_check_status_flag (v : status_flag_t) (m : Monitor) :=
  {| m_servers := m_servers m; m_state := m_state m;
     check_status_flag := v; m_ticks := m_ticks m;
     m_master := m_master m; m_journal_hash := m_journal_hash m;
     journal_file := journal_file m |}.

Definition with_ticks (v : Z) (m : Monitor) :=
  {| m_servers := m_servers m; m_state := m_state m;
     check_status_flag := check_status_flag m; m_ticks := v;
     m_master := m_master m; m_journal_hash := m_journal_hash m;
     journal_file := journal_file m |}.

Definition with_master (v : option nat) (m : Monitor) :=
  {| m_servers := m_servers m; m_state := m_state m;
     check_status_flag := check_status_flag m; m_ticks := m_ticks m;
     m_master := v; m_journal_hash := m_journal_hash m;
     journal_file := journal_file m |}.

Definition with_journal (hash : list Z) (file : option (list Z)) (m : Monitor) :=
  {| m_servers := m_servers m; m_state := m_state m;
     check_status_flag := check_status_flag m; m_ticks := m_ticks m;
     m_master := m_master m; m_journal_hash := hash;
     journal_file := file |}.

(** *** The journal *)

Definition MMB_SCHEMA_VERSION : Z := 2.
Definition MMB_LEN_BYTES : Z := 4.
Definition MMB_LEN_SCHEMA_VERSION : Z := 1.
Definition MMB_LEN_CRC32 : Z := 4.
Definition MMB_LEN_VALUE_TYPE : Z := 1.
Definition MMB_LEN_SERVER_STATUS : Z := 8.
Definition SVT_SERVER : Z := 1.
Definition SVT_MASTER : Z := 2.

(** Modelled from the spec: [mxs_set_byte4], [maxscale::set_byteN],
    [mxs_get_byte4] and [maxscale::get_byteN] of [maxscale/utils.h] (not
    part of the sources) store and load an unsigned integer in
    little-endian byte order. *)
Fixpoint set_byteN (value : Z) (bytes : nat) : list Z :=
  match bytes with
  | O => []
  | S n => value mod 256 :: set_byteN (value / 256) n
  end.

Fixpoint get_byteN (ptr : list Z) (bytes : nat) {struct bytes} : Z :=
  match bytes, ptr with
  | S n, b :: ptr' => b + 256 * get_byteN ptr' n
  | _, _ => 0
  end.

(** Modelled from the spec: the CRC32 of the payload is computed by
    zlib's [crc32] (not part of the sources): reflected polynomial
    [0xEDB88320], initial value and final complement [0xFFFFFFFF];
    [crc32(0L, NULL, 0)] is 0. *)
Definition crc32_bit (crc : Z) : Z :=
  if Z.testbit crc 0 then Z.lxor (Z.shiftr crc 1) 3988292384
  else Z.shiftr crc 1.

Definition crc32_byte (crc b : Z) : Z :=
  Nat.iter 8 crc32_bit (Z.lxor crc b).

Definition crc32 (crc : Z) (buf : list Z) : Z :=
  Z.lxor (fold_left crc32_byte buf (Z.lxor crc 4294967295)) 4294967295.

Definition strlen (nm : list Z) : Z := Z.of_nat (length nm).

(** The record written for one server by the loop of [store_data]. *)
Definition server_record (db : MXS_MONITORED_SERVER) : list Z :=
  [SVT_SERVER] ++ name db ++ [0]
  ++ set_byteN (status db) (Z.to_nat MMB_LEN_SERVER_STATUS).

Definition master_record (servers : list MXS_MONITORED_SERVER)
    (master : option nat) : list Z :=
  match master ≫= (servers !!.) with
  | Some db => [SVT_MASTER] ++ name db ++ [0]
  | None => []
  end.

(** [store_data]: the buffer of [size + MMB_LEN_BYTES] bytes. *)
Definition store_data (servers : list MXS_MONITORED_SERVER) (master : option nat)
    (size : Z) : list Z :=
  let written :=
    set_byteN size 4 ++ [MMB_SCHEMA_VERSION]
    ++ flat_map server_record servers ++ master_record servers master in
  let crc :=
    u32 (crc32 0 (take (Z.to_nat (size - MMB_LEN_CRC32))
                    (drop (Z.to_nat MMB_LEN_BYTES) written))) in
  written ++ set_byteN crc 4.

(** The size computed at the start of [store_server_journal]
    (a [uint32_t]). *)
Definition journal_size (servers : list MXS_MONITORED_SERVER) (master : option nat) : Z :=
  let size0 := MMB_LEN_SCHEMA_VERSION + MMB_LEN_CRC32 in
  let size1 :=
    fold_left (fun size db =>
                 u32 (size + (MMB_LEN_VALUE_TYPE + strlen (name db) + 1
                              + MMB_LEN_SERVER_STATUS)))
      servers size0 in
  match master ≫= (servers !!.) with
  | Some db => u32 (size1 + (MMB_LEN_VALUE_TYPE + strlen (name db) + 1))
  | None => size1
  end.

(** What the environment decides in one journal write: the digest function
    and whether creating, writing and renaming the temporary file work. *)
Record journal_env := {
  SHA1 : list Z -> list Z;
  journal_io_ok : bool
}.

Definition store_server_journal (e : journal_env) (monitor : Monitor) : Monitor :=
  let size := journal_size (m_servers monitor) (m_master monitor) in
  let data := store_data (m_servers monitor) (m_master monitor) size in
  let hash := SHA1 e (take (Z.to_nat size) data) in
  if bool_decide (m_journal_hash monitor = hash) then monitor
  else if journal_io_ok e then with_journal hash (Some data) monitor
  else monitor.

(** The C string that starts at [data]: the bytes before the first NUL. *)
Fixpoint c_str (data : list Z) : list Z :=
  match data with
  | [] => []
  | b :: rest => if b =? 0 then [] else b :: c_str rest
  end.

(** [has_null_terminator(data, end)] on the bytes between the two pointers. *)
Definition has_null_terminator (region : list Z) : bool :=
  existsb (fun b => b =? 0) region.

(** The loop shared by [process_server] and [process_master]: act on the
    first server of [m_servers] with the given name, then [break]. *)
Fixpoint update_first (nm : list Z)
    (f : MXS_MONITORED_SERVER -> MXS_MONITORED_SERVER)
    (servers : list MXS_MONITORED_SERVER) : list MXS_MONITORED_SERVER :=
  match servers with
  | [] => []
  | db :: rest =>
      if bool_decide (name db = nm) then f db :: rest
      else db :: update_first nm f rest
  end.

Fixpoint find_first (nm : list Z) (i : nat) (servers : list MXS_MONITORED_SERVER)
  : option nat :=
  match servers with
  | [] => None
  | db :: rest =>
      if bool_decide (name db = nm) then Some i else find_first nm (S i) rest
  end.

(** The three assignments of [process_server]. *)
Definition restore_status (st : Z) (db : MXS_MONITORED_SERVER) :=
  monitor_set_pending_status st (set_status st (with_mon_prev_status st db)).

(** [process_server]: [data] holds the bytes from the pointer to the end
    of the buffer; the result is the updated servers and the bytes from
    the returned pointer on, or [None] when the status word is read from
    outside the buffer. *)
Definition process_server (servers : list MXS_MONITORED_SERVER) (data : list Z)
  : option (list MXS_MONITORED_SERVER * list Z) :=
  let nm := c_str data in
  let sptr := drop (S (length nm)) data in
  let next := drop (Z.to_nat MMB_LEN_SERVER_STATUS) sptr in
  match find_first nm 0 servers with
  | Some _ =>
      if (length sptr <? Z.to_nat MMB_LEN_SERVER_STATUS)%nat then None
      else
        let st := get_byteN sptr (Z.to_nat MMB_LEN_SERVER_STATUS) in
        Some (update_first nm (restore_status st) servers, next)
  | None => Some (servers, next)
  end.

(** [process_master]: [master] is [None] for a NULL out-pointer. *)
Definition process_master (servers : list MXS_MONITORED_SERVER)
    (master : option (option nat)) (data : list Z)
  : option (option nat) * list Z :=
  let nm := c_str data in
  let master' :=
    match master with
    | Some cur =>
        match find_first nm 0 servers with
        | Some i => Some (Some i)
        | None => Some cur
        end
    | None => None
    end in
  (master', drop (S (length nm)) data).

Definition check_crc32 (data : list Z) (crc_ptr : list Z) : bool :=
  let crc := get_byteN crc_ptr 4 in
  u32 (crc32 0 data) =? crc.

(** [process_data_file]: [data] holds the bytes from [ptr] to the end of
    the buffer, the last four of which lie behind [crc_ptr].  Every
    iteration consumes at least two bytes, so [length data] iterations are
    enough; the result is [None] when a read leaves the buffer. *)
Fixpoint process_data_file (fuel : nat) (servers : list MXS_MONITORED_SERVER)
    (master : option (option nat)) (data : list Z)
  : option (list MXS_MONITORED_SERVER * option (option nat) * bool) :=
  if (Z.to_nat MMB_LEN_CRC32 <? length data)%nat then
    match fuel, data with
    | S fuel', type :: data1 =>
        if negb (has_null_terminator
                   (take (length data - Z.to_nat MMB_LEN_CRC32) data))
        then Some (servers, master, false)
        else if type =? SVT_SERVER then
          match process_server servers data1 with
          | Some (servers', rest) => process_data_file fuel' servers' master rest
          | None => None
          end
        else if type =? SVT_MASTER then
          let '(master', rest) := process_master servers master data1 in
          process_data_file fuel' servers master' rest
        else Some (servers, master, false)
    | _, _ => None
    end
  else Some (servers, master, true).

(** [load_server_journal]: the servers and the master slot afterwards and
    whether the journal was accepted ("Loaded server states"); [None] when
    the code reads outside its buffer.  The length word is read in host
    byte order, little-endian as written. *)
Definition load_server_journal (monitor : Monitor) (master : option (option nat))
  : option (list MXS_MONITORED_SERVER * option (option nat) * bool) :=
  let unchanged := Some (m_servers monitor, master, false) in
  match journal_file monitor with
  | None => unchanged
  | Some file =>
      if (length file <? Z.to_nat MMB_LEN_BYTES)%nat then unchanged
      else
        let size := Z.to_nat (get_byteN file (Z.to_nat MMB_LEN_BYTES)) in
        let data := take size (drop (Z.to_nat MMB_LEN_BYTES) file) in
        if (length data <? size)%nat then unchanged
        else
          match data with
          | [] => None
          | version :: records =>
              if version =? MMB_SCHEMA_VERSION then
                if (size <? Z.to_nat MMB_LEN_CRC32)%nat then None
                else if check_crc32 (take (size - Z.to_nat MMB_LEN_CRC32) data)
                          (drop (size - Z.to_nat MMB_LEN_CRC32) data)
                then process_data_file (length records) (m_servers monitor)
                       master records
                else unchanged
              else unchanged
          end
  end.

(** *** The tick *)

(** The [switch] of [monitor_check_maintenance_requests] for one server,
    after the request slot has been swapped to [NO_CHANGE]. *)
Definition apply_status_request (ptr : MXS_MONITORED_SERVER) : MXS_MONITORED_SERVER :=
  let admin_msg := status_request ptr in
  let ptr' := with_status_request NO_CHANGE ptr in
  match admin_msg with
  | MAINT_ON => set_status SERVER_MAINT ptr'
  | MAINT_OFF => clear_status SERVER_MAINT ptr'
  | BEING_DRAINED_ON => set_status SERVER_BEING_DRAINED ptr'
  | BEING_DRAINED_OFF => clear_status SERVER_BEING_DRAINED ptr'
  | NO_CHANGE => ptr'
  end.

Definition monitor_check_maintenance_requests (monitor : Monitor) : Monitor :=
  let flags_changed := check_status_flag monitor in
  let monitor' := with_check_status_flag STATUS_FLAG_NOCHECK monitor in
  match flags_changed with
  | STATUS_FLAG_NOCHECK => monitor'
  | STATUS_FLAG_CHECK =>
      with_servers (map apply_status_request (m_servers monitor')) monitor'
  end.

(** What one probe of a server yields: the result of [ping_or_connect],
    whether the failure was [ER_ACCESS_DENIED_ERROR], and the effect on the
    pending status of the module's [update_server_status] together with
    the disk space check. *)
Record probe := {
  connection_ok : bool;
  access_denied : bool;
  discover : Z -> Z
}.

(** The body of the loop of [MonitorWorkerSimple::tick] for one server. *)
Definition tick_server (p : probe) (pMs : MXS_MONITORED_SERVER) : MXS_MONITORED_SERVER :=
  if is_in_maint pMs then pMs
  else
    let s1 := with_pending_status (status pMs) (with_mon_prev_status (status pMs) pMs) in
    let s2 :=
      if connection_ok p then
        let s := monitor_set_pending_status SERVER_RUNNING
                   (monitor_clear_pending_status SERVER_AUTH_ERROR s1) in
        with_pending_status (discover p (pending_status s)) s
      else
        let s := monitor_clear_pending_status (u64 (Z.lnot SERVER_WAS_MASTER)) s1 in
        if access_denied p then monitor_set_pending_status SERVER_AUTH_ERROR s
        else monitor_clear_pending_status SERVER_AUTH_ERROR s in
    if is_down s2 then with_mon_err_count (mon_err_count s2 + 1) s2
    else with_mon_err_count 0 s2.

Definition tick (probes : nat -> probe) (monitor : Monitor) : Monitor :=
  with_servers (imap (fun i pMs => tick_server (probes i) pMs) (m_servers monitor))
    monitor.

Definition flush_server_status (monitor : Monitor) : Monitor :=
  with_servers
    (map (fun pMs => if negb (is_in_maint pMs)
                     then with_status (pending_status pMs) pMs else pMs)
       (m_servers monitor))
    monitor.

(** [Monitor::detect_handle_state_changes], as far as it changes the
    monitor: the last event of every server whose status changed. *)
Definition detect_handle_state_changes (monitor : Monitor) : Monitor :=
  with_servers
    (map (fun ptr => if mon_status_changed ptr
                     then with_last_event (mon_get_event_type ptr) ptr else ptr)
       (m_servers monitor))
    monitor.

(** [mon_hangup_failed_servers]: the servers whose client connections are
    hung up; the monitor itself is not changed. *)
Definition mon_hangup_failed_servers (monitor : Monitor) : list nat :=
  map fst
    (filter (fun p => mon_status_changed p.2 && (negb (is_usable p.2) || negb (is_in_cluster p.2)) = true)
       (imap (fun i ptr => (i, ptr)) (m_servers monitor))).

Record tick_env := {
  probes : nat -> probe;
  journal : journal_env
}.

(** The statements of [MonitorWorker::run_one_tick] that change the
    monitor, in program order. *)
Definition run_one_tick_steps (e : tick_env) : list (Monitor -> Monitor) :=
  [ monitor_check_maintenance_requests;
    tick (probes e);
    (fun m => with_ticks (u64 (m_ticks m + 1)) m);
    flush_server_status;
    detect_handle_state_changes;
    store_server_journal (journal e) ].

(** The monitor after each of the first [n] statements. *)
Fixpoint run_steps (steps : list (Monitor -> Monitor)) (m : Monitor) : list Monitor :=
  match steps with
  | [] => []
  | f :: rest => f m :: run_steps rest (f m)
  end.

Definition run_one_tick_trace (e : tick_env) (m : Monitor) : list Monitor :=
  run_steps (run_one_tick_steps e) m.

Definition run_one_tick (e : tick_env) (m : Monitor) : Monitor :=
  fold_left (fun s f => f s) (run_one_tick_steps e) m.

(** The statements of a tick after the admin requests: probe, count,
    publish, detect, journal. *)
Definition after_requests (e : tick_env) (m : Monitor) : Monitor :=
  store_server_journal (journal e)
    (detect_handle_state_changes
       (flush_server_status
          (with_ticks (u64 (m_ticks (tick (probes e) m) + 1)) (tick (probes e) m)))).

(** *** Monitor::set_server_status and Monitor::clear_server_status *)

Local Open Scope string_scope.

Definition ERR_CANNOT_MODIFY : string :=
  "The server is monitored, so only the maintenance status can be " ++
  "set/cleared manually. Status was not modified.".

Definition WRN_REQUEST_OVERWRITTEN : string :=
  "Previous maintenance request was not yet read by the monitor and was overwritten.".

Definition ERR_NOT_MONITORED_SET : string :=
  "Monitor %s requested to set status of server %s that it does not monitor.".

Definition ERR_NOT_MONITORED_CLEAR : string :=
  "Monitor %s requested to clear status of server %s that it does not monitor.".

Local Close Scope string_scope.

Inductive log_entry :=
  | MXS_ERROR (msg : string)
  | MXS_WARNING (msg : string).

(** The outcome of an admin call: the return value, what [*errmsg_out]
    holds afterwards, the messages logged, and the monitor. *)
Record admin_result := {
  written : bool;
  errmsg : option string;
  logged : list log_entry;
  monitor_after : Monitor
}.

(** [mon_get_monitored_server]: the [SERVER*] of a monitored server is its
    position in [m_servers]; any other position is a server the monitor
    does not monitor. *)
Definition mon_get_monitored_server (mon : Monitor) (search_server : nat)
  : option MXS_MONITORED_SERVER :=
  m_servers mon !! search_server.

(** The part shared by [set_server_status] and [clear_server_status]:
    [request_maint] and [request_drain] are the requests written to the
    slot, [direct] is the update applied when the monitor is stopped.
    [bit] is an [int]; [errmsg_out] is [None] for a NULL pointer. *)
Definition change_server_status
    (request_maint request_drain : status_request_t)
    (direct : Z -> MXS_MONITORED_SERVER -> MXS_MONITORED_SERVER)
    (not_monitored : string)
    (mon : Monitor) (srv : nat) (bit : Z) (errmsg_out : option string)
  : admin_result :=
  match mon_get_monitored_server mon srv with
  | None =>
      {| written := false; errmsg := errmsg_out;
         logged := [MXS_ERROR not_monitored]; monitor_after := mon |}
  | Some msrv =>
      match m_state mon with
      | MONITOR_STATE_RUNNING =>
          if negb (Z.land bit (Z.lnot (Z.lor SERVER_MAINT SERVER_BEING_DRAINED)) =? 0)
          then
            {| written := false;
               errmsg := match errmsg_out with
                         | Some _ => Some ERR_CANNOT_MODIFY
                         | None => None
                         end;
               logged := [MXS_ERROR ERR_CANNOT_MODIFY];
               monitor_after := mon |}
          else
            let request :=
              if negb (Z.land bit SERVER_MAINT =? 0) then request_maint
              else request_drain in
            let previous_request := status_request msrv in
            {| written := true;
               errmsg := errmsg_out;
               logged := match previous_request with
                         | NO_CHANGE => []
                         | _ => [MXS_WARNING WRN_REQUEST_OVERWRITTEN]
                         end;
               monitor_after :=
                 with_check_status_flag STATUS_FLAG_CHECK
                   (with_servers
                      (<[ srv := with_status_request request msrv ]> (m_servers mon))
                      mon) |}
      | MONITOR_STATE_STOPPED =>
          {| written := true;
             errmsg := errmsg_out;
             logged := [];
             monitor_after :=
               with_servers (<[ srv := direct (u64 bit) msrv ]> (m_servers mon)) mon |}
      end
  end.

Definition set_server_status (mon : Monitor) (srv : nat) (bit : Z)
    (errmsg_out : option string) : admin_result :=
  change_server_status MAINT_ON BEING_DRAINED_ON set_status
    ERR_NOT_MONITORED_SET mon srv bit errmsg_out.

Definition clear_server_status (mon : Monitor) (srv : nat) (bit : Z)
    (errmsg_out : option string) : admin_result :=
  change_server_status MAINT_OFF BEING_DRAINED_OFF clear_status
    ERR_NOT_MONITORED_CLEAR mon srv bit errmsg_out.

(** *** MonitorWorker::call_run_one_tick *)

(** The worker around a monitor: the time of the last tick and the
    configured interval, in milliseconds. *)
Record MonitorWorker := {
  m_monitor : Monitor;
  m_loop_called : Z;
  interval : Z
}.

Definition base_interval_ms : Z := 100.

(** [MonitorWorker::immediate_tick_required] *)
Definition immediate_tick_required (w : MonitorWorker) : bool := false.

(** Whether [call_run_one_tick] runs a tick at time [now]. *)
Definition tick_due (now : Z) (w : MonitorWorker) : bool :=
  (interval w <? now - m_loop_called w)
  || match check_status_flag (m_monitor w) with
     | STATUS_FLAG_CHECK => true
     | STATUS_FLAG_NOCHECK => false
     end
  || immediate_tick_required w.

(** [call_run_one_tick] with [action == EXECUTE]: [now] is the time at the
    call, [now_after] the time read after the tick, if one runs; the result
    is the worker and the delay of the next call. *)
Definition call_run_one_tick (e : tick_env) (now now_after : Z) (w : MonitorWorker)
  : MonitorWorker * Z :=
  let '(w', now') :=
    if tick_due now w then
      ({| m_monitor := run_one_tick e (m_monitor w);
          m_loop_called := now; interval := interval w |}, now_after)
    else (w, now) in
  let ms_to_next_call := interval w' - (now' - m_loop_called w') in
  let delay :=
    if (ms_to_next_call <=? 0) || (base_interval_ms <=? ms_to_next_call)
    then base_interval_ms else ms_to_next_call in
  (w', delay).

(** *** Concrete monitors used below *)

Definition fresh_server (nm : list Z) : MXS_MONITORED_SERVER :=
  {| name := nm; status := 0; last_event := UNDEFINED_EVENT;
     mon_prev_status := 0; pending_status := 0; mon_err_count := 0;
     status_request := NO_CHANGE |}.

(** A slave that the last tick found promoted to master. *)
Definition promoted_slave : MXS_MONITORED_SERVER :=
  with_status (Z.lor SERVER_RUNNING SERVER_MASTER)
    (with_mon_prev_status (Z.lor SERVER_RUNNING SERVER_SLAVE) (fresh_server [97])).

(** A running monitor of one server that has not been probed yet, and an
    environment in which the probe succeeds and discovers nothing more. *)
Definition one_server_monitor : Monitor :=
  {| m_servers := [fresh_server [97]]; m_state := MONITOR_STATE_RUNNING;
     check_status_flag := STATUS_FLAG_NOCHECK; m_ticks := 0;
     m_master := None; m_journal_hash := []; journal_file := None |}.

Definition reachable_env : tick_env :=
  {| probes := fun _ => {| connection_ok := true; access_denied := false;
                           discover := fun st => st |};
     journal := {| SHA1 := fun data => data; journal_io_ok := true |} |}.

(** The same monitor with an unread MAINT_ON request on its server. *)
Definition pending_request_monitor : Monitor :=
  with_check_status_flag STATUS_FLAG_CHECK
    (with_servers [with_status_request MAINT_ON (fresh_server [97])]
       one_server_monitor).

(** The error text as the specification quotes it. *)
Definition quoted_error : string :=
  "the server is monitored, so only the maintenance status can be set/cleared manually".

(** [bit] has a bit set that is neither the maintenance nor the
    being-drained bit. *)
Definition has_other_bit (bit : Z) : Prop :=
  exists i, 0 <= i /\ Z.testbit bit i = true
            /\ Z.testbit (Z.lor SERVER_MAINT SERVER_BEING_DRAINED) i = false.

(** The event named after the first of MASTER, SLAVE, JOINED, NDB that is
    set in [flags]. *)
Definition flavored (flags : Z) (master slave synced ndb none : mxs_monitor_event_t)
  : mxs_monitor_event_t :=
  if has_bit flags SERVER_MASTER then master
  else if has_bit flags SERVER_SLAVE then slave
  else if has_bit flags SERVER_JOINED then synced
  else if has_bit flags SERVER_NDB then ndb
  else none.

(** *** Journal states *)

(** The bytes between the length word and the CRC. *)
Definition journal_payload (servers : list MXS_MONITORED_SERVER)
    (master : option nat) : list Z :=
  [MMB_SCHEMA_VERSION] ++ flat_map server_record servers
  ++ master_record servers master.


(** The effect on the reader's servers of the server records written for
    [written], one record after the other. *)
Definition restore_all (written servers : list MXS_MONITORED_SERVER)
  : list MXS_MONITORED_SERVER :=
  fold_left (fun rs w => update_first (name w) (restore_status (status w)) rs)
    written servers.

(** The journal written for a monitor. *)
Definition journal_of (monitor : Monitor) : list Z :=
  store_data (m_servers monitor) (m_master monitor)
    (journal_size (m_servers monitor) (m_master monitor)).

(** A monitor of a master "a" and a slave "b", and the same monitor after
    a restart: no flags, no master, the journal of the former on disk. *)
Definition master_and_slave : Monitor :=
  {| m_servers :=
       [ with_status (Z.lor SERVER_RUNNING SERVER_MASTER) (fresh_server [97]);
         with_status (Z.lor SERVER_RUNNING SERVER_SLAVE) (fresh_server [98]) ];
     m_state := MONITOR_STATE_RUNNING;
     check_status_flag := STATUS_FLAG_NOCHECK; m_ticks := 5;
     m_master := Some 0%nat; m_journal_hash := []; journal_file := None |}.

Definition restarted : Monitor :=
  {| m_servers := [fresh_server [97]; fresh_server [98]];
     m_state := MONITOR_STATE_STOPPED;
     check_status_flag := STATUS_FLAG_NOCHECK; m_ticks := 0;
     m_master := None; m_journal_hash := [];
     journal_file := Some (journal_of master_and_slave) |}.

(** The published status words of a monitor. *)
Definition published (m : Monitor) : list Z := map status (m_servers m).

End Monitor.

(** ** replicator.cc *)

Module Replicator.

Local Open Scope string_scope.

(** A replication event as far as [process_one_event] looks at it: the
    event type and, for the types it handles, the fields it reads. *)
Inductive MARIADB_RPL_EVENT :=
  | GTID_EVENT (domain_id server_id sequence_nr : Z)
  | XID_EVENT
  | TABLE_MAP_EVENT (table_id : Z)
  | QUERY_EVENT
  | WRITE_ROWS_EVENT_V1 (table_id : Z)
  | UPDATE_ROWS_EVENT_V1 (table_id : Z)
  | DELETE_ROWS_EVENT_V1 (table_id : Z)
  | OTHER_EVENT (event_type : Z).

(** Modelled from the spec: the [Table] of [table.hh] (not part of the
    sources): row events are enqueued for in-order processing by the
    table, and [process] flushes the pending row work. *)
Record Table := {
  map_event : MARIADB_RPL_EVENT;
  queue : list MARIADB_RPL_EVENT
}.

Definition enqueue (event : MARIADB_RPL_EVENT) (t : Table) : Table :=
  {| map_event := map_event t; queue := queue t ++ [event] |}.

Definition process (t : Table) : Table :=
  {| map_event := map_event t; queue := [] |}.

(** The connection [m_sql]: the statements it was prepared with and the
    server id of its replication channel. *)
Record SQL := {
  queries : list string;
  replicating_as : Z
}.

Record Config := {
  servers : list string;
  cnf_server_id : Z
}.

Record Imp := {
  m_cnf : Config;
  (** [None] is the empty [unique_ptr] *)
  m_sql : option SQL;
  m_running : bool;
  m_error : string;
  m_gtid : string;
  m_current_gtid : string;
  (** a [None] value is an entry holding a null [unique_ptr<Table>] *)
  m_tables : gmap Z (option Table)
}.

Definition with_sql (v : option SQL) (s : Imp) :=
  {| m_cnf := m_cnf s; m_sql := v; m_running := m_running s;
     m_error := m_error s; m_gtid := m_gtid s;
     m_current_gtid := m_current_gtid s; m_tables := m_tables s |}.

Definition with_error (v : string) (s : Imp) :=
  {| m_cnf := m_cnf s; m_sql := m_sql s; m_running := m_running s;
     m_error := v; m_gtid := m_gtid s;
     m_current_gtid := m_current_gtid s; m_tables := m_tables s |}.

Definition with_gtid (v : string) (s : Imp) :=
  {| m_cnf := m_cnf s; m_sql := m_sql s; m_running := m_running s;
     m_error := m_error s; m_gtid := v;
     m_current_gtid := m_current_gtid s; m_tables := m_tables s |}.

Definition with_current_gtid (v : string) (s : Imp) :=
  {| m_cnf := m_cnf s; m_sql := m_sql s; m_running := m_running s;
     m_error := m_error s; m_gtid := m_gtid s;
     m_current_gtid := v; m_tables := m_tables s |}.

Definition with_tables (v : gmap Z (option Table)) (s : Imp) :=
  {| m_cnf := m_cnf s; m_sql := m_sql s; m_running := m_running s;
     m_error := m_error s; m_gtid := m_gtid s;
     m_current_gtid := m_current_gtid s; m_tables := v |}.

(** The state after the constructor's member initialisers. *)
Definition Imp_init (cnf : Config) : Imp :=
  {| m_cnf := cnf; m_sql := None; m_running := true; m_error := "";
     m_gtid := ""; m_current_gtid := ""; m_tables := ∅ |}.

(** What the source server decides during [connect]: the error of
    [SQL::connect] (empty on success) and the errors, if any, of
    [query] and [replicate]. *)
Record connect_env := {
  connect_err : string;
  query_err : option string;
  replicate_err : option string
}.

Definition decimal (n : Z) : string :=
  DecimalString.NilZero.string_of_uint (N.to_uint (Z.to_N n)).

Definition to_gtid_string (domain_id server_id sequence_nr : Z) : string :=
  decimal domain_id ++ "-" ++ decimal server_id ++ "-" ++ decimal sequence_nr.

(** [connect]: the return value and the state afterwards. *)
Definition connect (e : connect_env) (s : Imp) : bool * Imp :=
  match m_sql s with
  | Some _ => (true, s)
  | None =>
      let gtid_start_pos := "SET @slave_connect_state='" ++ m_gtid s ++ "'" in
      if negb (String.eqb (connect_err e) "") then
        (false, with_sql None (with_error (connect_err e) s))
      else
        let prepared :=
          [ "SET @master_binlog_checksum = @@global.binlog_checksum";
            "SET @mariadb_slave_capability=4";
            gtid_start_pos;
            "SET @slave_gtid_strict_mode=1";
            "SET @slave_gtid_ignore_duplicates=1";
            "SET NAMES latin1" ] in
        match query_err e with
        | Some err =>
            (false, with_sql None
                      (with_error ("Failed to prepare connection: " ++ err) s))
        | None =>
            match replicate_err e with
            | Some err =>
                (false, with_sql None
                          (with_error ("Failed to open replication channel: " ++ err) s))
            | None =>
                (true, with_sql (Some {| queries := prepared;
                                         replicating_as := cnf_server_id (m_cnf s) |}) s)
            end
        end
  end.

(** The result of running code that may dereference a null pointer. *)
Inductive outcome :=
  | Done (s : Imp)
  | NullDereference.

Section Events.

(** [Table::open] of [table.hh] (not part of the sources): the table built
    from a table map event, or a null pointer. *)
Variable Table_open : Config -> MARIADB_RPL_EVENT -> option Table.

Definition process_one_event (event : MARIADB_RPL_EVENT) (s : Imp) : outcome :=
  match event with
  | GTID_EVENT domain_id server_id sequence_nr =>
      Done (with_current_gtid (to_gtid_string domain_id server_id sequence_nr) s)
  | XID_EVENT => Done (with_gtid (m_current_gtid s) s)
  | TABLE_MAP_EVENT table_id =>
      Done (with_tables (<[ table_id := Table_open (m_cnf s) event ]> (m_tables s)) s)
  | QUERY_EVENT =>
      if decide (map_Forall (fun _ t => is_Some t) (m_tables s))
      then Done (with_tables (fmap (M := option) process <$> m_tables s) s)
      else NullDereference
  | WRITE_ROWS_EVENT_V1 table_id =>
      (* operator[] creates an entry holding a null pointer for a new key *)
      match m_tables s !! table_id with
      | Some (Some t) =>
          Done (with_tables (<[ table_id := Some (enqueue event t) ]> (m_tables s)) s)
      | Some None | None => NullDereference
      end
  | UPDATE_ROWS_EVENT_V1 _ | DELETE_ROWS_EVENT_V1 _ => Done s
  | OTHER_EVENT _ => Done s
  end.

(** One iteration of the loop of [process_events]; [fetched] is the result
    of [fetch_event], consulted only when the connection is up. *)
Definition process_events_step (e : connect_env)
    (fetched : option MARIADB_RPL_EVENT) (s : Imp) : outcome :=
  if m_running s then
    let '(connected, s1) := connect e s in
    if negb connected then Done s1
    else
      match fetched with
      | Some event => process_one_event event s1
      | None => Done (with_sql None s1)
      end
  else Done s.

(** The events of a stream processed one after the other. *)
Fixpoint process_stream (events : list MARIADB_RPL_EVENT) (s : Imp) : outcome :=
  match events with
  | [] => Done s
  | event :: rest =>
      match process_one_event event s with
      | Done s' => process_stream rest s'
      | NullDereference => NullDereference
      end
  end.

End Events.

(** *** A processor in the middle of a transaction *)

Definition open_always (cnf : Config) (event : MARIADB_RPL_EVENT) : option Table :=
  Some {| map_event := event; queue := [] |}.

Definition example_cnf : Config :=
  {| servers := ["10.0.0.1:3306"]; cnf_server_id := 1234 |}.

(** Committed cursor 1-101-42, transaction 1-101-43 begun, one row event
    queued on table 7. *)
Definition mid_transaction : Imp :=
  {| m_cnf := example_cnf;
     m_sql := Some {| queries := []; replicating_as := 1234 |};
     m_running := true; m_error := "";
     m_gtid := "1-101-42"; m_current_gtid := "1-101-43";
     m_tables := {[ 7 := Some {| map_event := TABLE_MAP_EVENT 7;
                                 queue := [WRITE_ROWS_EVENT_V1 7] |} ]} |}.

Definition source_up : connect_env :=
  {| connect_err := ""; query_err := None; replicate_err := None |}.

(** The state after the iteration in which the fetch fails and the
    iteration after it, in which the connection is made again and
    [fetched] is received. *)
Definition after_reconnect (fetched : option MARIADB_RPL_EVENT) (s : Imp) : outcome :=
  match process_events_step open_always source_up None s with
  | Done s1 => process_events_step open_always source_up fetched s1
  | NullDereference => NullDereference
  end.

End Replicator.

(** * Properties *)

(** ** Machine words *)

Module Words.
Import Status.

Lemma lor_bounded n a b :
  0 <= n -> 0 <= a < 2 ^ n -> 0 <= b < 2 ^ n -> 0 <= Z.lor a b < 2 ^ n.
Proof.
  intros Hn [Ha Ha'] [Hb Hb'].
  assert (Hpos : 0 < 2 ^ n) by (apply Z.pow_pos_nonneg; lia).
  assert (Hnn : 0 <= Z.lor a b) by (apply Z.lor_nonneg; auto).
  split; [assumption |].
  destruct (Z.eq_dec (Z.lor a b) 0) as [Heq | Hne]; [lia |].
  apply Z.log2_lt_pow2; [lia |].
  rewrite Z.log2_lor by assumption.
  assert (Hlog : forall x, 0 <= x < 2 ^ n -> x = 0 \/ Z.log2 x < n).
  { intros x [Hx Hx']. destruct (Z.eq_dec x 0); [auto | right].
    apply Z.log2_lt_pow2; lia. }
  assert (Hla : a = 0 \/ Z.log2 a < n) by (apply Hlog; lia).
  assert (Hlb : b = 0 \/ Z.log2 b < n) by (apply Hlog; lia).
  pose proof (Z.log2_nonneg a). pose proof (Z.log2_nonneg b).
  destruct Hla as [-> | Hla], Hlb as [-> | Hlb];
    try (exfalso; apply Hne; reflexivity);
    change (Z.log2 0) with 0 in *; lia.
Qed.

Lemma testbit_high a n i : 0 <= a < 2 ^ n -> n <= i -> Z.testbit a i = false.
Proof.
  intros [Ha Ha'] Hi.
  destruct (Z.eq_dec a 0) as [-> | Hne]; [apply Z.bits_0 |].
  apply Z.bits_above_log2; [lia |].
  assert (Z.log2 a < n) by (apply Z.log2_lt_pow2; lia). lia.
Qed.

Lemma unpack_low bm bv :
  0 <= bm < 2 ^ 32 -> 0 <= bv < 2 ^ 32 ->
  u32 (u64 (Z.lor bm (Z.shiftl bv 32))) = bm.
Proof.
  intros Hbm Hbv. unfold u32, u64. apply Z.bits_inj'. intros i Hi.
  destruct (Z_lt_le_dec i 32) as [Hlt | Hge].
  - rewrite Z.mod_pow2_bits_low by lia.
    rewrite Z.mod_pow2_bits_low by lia.
    rewrite Z.lor_spec, Z.shiftl_spec_low by lia.
    apply orb_false_r.
  - rewrite Z.mod_pow2_bits_high by lia.
    symmetry. eapply testbit_high; eauto.
Qed.

Lemma unpack_high bm bv :
  0 <= bm < 2 ^ 32 -> 0 <= bv < 2 ^ 32 ->
  u32 (Z.shiftr (u64 (Z.lor bm (Z.shiftl bv 32))) 32) = bv.
Proof.
  intros Hbm Hbv. unfold u32, u64. apply Z.bits_inj'. intros i Hi.
  destruct (Z_lt_le_dec i 32) as [Hlt | Hge].
  - rewrite Z.mod_pow2_bits_low by lia.
    rewrite Z.shiftr_spec by lia.
    rewrite Z.mod_pow2_bits_low by lia.
    rewrite Z.lor_spec, Z.shiftl_spec by lia.
    rewrite (testbit_high bm 32) by lia.
    simpl. f_equal. lia.
  - rewrite Z.mod_pow2_bits_high by lia.
    symmetry. eapply testbit_high; eauto.
Qed.

Lemma land_bit0 x : Z.land x 1 = 0 \/ Z.land x 1 = 1.
Proof.
  assert (E : Z.land x 1 = x mod 2).
  { change (Z.land x 1) with (Z.land x (Z.ones 1)).
    rewrite Z.land_ones by lia. reflexivity. }
  rewrite E. pose proof (Z.mod_pos_bound x 2 eq_refl). lia.
Qed.

End Words.

(** ** The connection router *)

Module RouterProofs.
Import Status Router Words.

Lemma configure_option_word32 a opt :
  word32 (acc_bitmask a) -> word32 (acc_bitvalue a) ->
  word32 (acc_bitmask (configure_option a opt))
  /\ word32 (acc_bitvalue (configure_option a opt)).
Proof.
  intros Hm Hv. unfold configure_option.
  repeat match goal with
         | |- context [if ?c then _ else _] => destruct c
         end; simpl; split; auto;
    apply lor_bounded; auto; try lia; vm_compute; split; congruence.
Qed.

Lemma fold_configure_word32 opts a :
  word32 (acc_bitmask a) -> word32 (acc_bitvalue a) ->
  word32 (acc_bitmask (fold_left configure_option opts a))
  /\ word32 (acc_bitvalue (fold_left configure_option opts a)).
Proof.
  revert a. induction opts as [| opt opts IH]; intros a Hm Hv; simpl; auto.
  destruct (configure_option_word32 a opt Hm Hv). apply IH; assumption.
Qed.

Lemma role_filter_word32 opts :
  word32 (acc_bitmask (role_filter opts)) /\ word32 (acc_bitvalue (role_filter opts)).
Proof.
  unfold role_filter.
  assert (H0 : word32 0) by (split; [discriminate | reflexivity]).
  destruct (fold_configure_word32 opts
              {| acc_bitmask := 0; acc_bitvalue := 0; acc_ok := true |} H0 H0)
    as [Hm Hv].
  match goal with |- context [if ?c then _ else _] => destruct c end;
    simpl; auto.
  assert (H1 : word32 SERVER_RUNNING) by (split; [discriminate | reflexivity]).
  split; apply lor_bounded; auto; discriminate.
Qed.

(** The session reads back the mask and the value that
    [configureInstance] packed into one word. *)
Lemma configured_session inst opts inst' :
  configureInstance inst opts = (true, inst') ->
  session_bitmask inst' = acc_bitmask (role_filter opts)
  /\ session_bitvalue inst' = acc_bitvalue (role_filter opts)
  /\ dbref inst' = dbref inst.
Proof.
  unfold configureInstance. destruct (acc_ok (role_filter opts)); [| discriminate].
  intros [= <-]. unfold session_bitmask, session_bitvalue. simpl.
  destruct (role_filter_word32 opts) as [Hm Hv].
  rewrite unpack_low, unpack_high by assumption. auto.
Qed.

Lemma running_bit st :
  status_is_running st = true <-> Z.land st SERVER_RUNNING = SERVER_RUNNING.
Proof.
  unfold status_is_running. change SERVER_RUNNING with 1.
  destruct (land_bit0 st) as [E | E]; rewrite E; simpl; split; congruence.
Qed.

(** C1 (as stated, refuted): with [router_options=slave] the filter is
    mask = MASTER|SLAVE, value = SLAVE.  A running relay server carries
    both role bits: the status check of [newSession] accepts it although
    [(flags & mask) == (mask & value)] is false. *)
Lemma status_check_not_mask_equality :
  configureInstance empty_instance ["slave"%string] = (true, slave_instance)
  /\ SERVER_REF_IS_ACTIVE relay_ref = true
  /\ server_is_in_maint (server relay_ref) = false
  /\ status_check (session_bitmask slave_instance)
       (session_bitvalue slave_instance) relay_ref = true
  /\ Z.land (status (server relay_ref)) (acc_bitmask (role_filter ["slave"%string]))
     <> Z.land (acc_bitmask (role_filter ["slave"%string]))
          (acc_bitvalue (role_filter ["slave"%string])).
Proof. vm_compute. repeat split; congruence. Qed.

(** C1 (amended): for every backend [b] of the active, non-maintenance
    list, [b] passes the status check of the selection loop if and only if
    the RUNNING bit is set and [b.flags & mask & value] is not zero, where
    (mask, value) is the role filter built from [router_options]. *)
Theorem status_check_any_requested_bit inst opts inst' b :
  configureInstance inst opts = (true, inst') ->
  SERVER_REF_IS_ACTIVE b = true ->
  server_is_in_maint (server b) = false ->
  status_check (session_bitmask inst') (session_bitvalue inst') b = true
  <-> (Z.land (status (server b)) SERVER_RUNNING = SERVER_RUNNING
       /\ Z.land (Z.land (status (server b)) (acc_bitmask (role_filter opts)))
            (acc_bitvalue (role_filter opts)) <> 0).
Proof.
  intros Hc _ _. destruct (configured_session _ _ _ Hc) as (-> & -> & _).
  unfold status_check, server_is_running.
  rewrite andb_true_iff, running_bit, negb_true_iff, Z.eqb_neq. tauto.
Qed.

Lemma status_check_any_requested_bit_witness :
  status_check (session_bitmask slave_instance)
    (session_bitvalue slave_instance) relay_ref = true
  <-> (Z.land (status (server relay_ref)) SERVER_RUNNING = SERVER_RUNNING
       /\ Z.land (Z.land (status (server relay_ref))
                    (acc_bitmask (role_filter ["slave"%string])))
            (acc_bitvalue (role_filter ["slave"%string])) <> 0).
Proof.
  apply (status_check_any_requested_bit empty_instance ["slave"%string]
           slave_instance relay_ref); reflexivity.
Defined.

(** *** The selection loop *)



Lemma indexed_lower {A} (l : list A) k p : In p (indexed k l) -> (k <= fst p)%nat.
Proof.
  revert k. induction l as [| x l IH]; intros k; simpl; [tauto |].
  intros [<- | H]; [simpl; lia |]. apply IH in H. lia.
Qed.

Lemma indexed_unique {A} (l : list A) k p q :
  In p (indexed k l) -> In q (indexed k l) -> fst p = fst q -> p = q.
Proof.
  revert k. induction l as [| x l IH]; intros k; simpl; [tauto |].
  intros [<- | Hp] [<- | Hq] E; auto.
  - apply indexed_lower in Hq. simpl in E. lia.
  - apply indexed_lower in Hp. simpl in E. lia.
  - eapply IH; eauto.
Qed.

Lemma fold_root_master_in l acc m :
  fold_left root_master_step l acc = Some m -> acc = Some m \/ In m l.
Proof.
  revert acc. induction l as [| p l IH]; intros acc; simpl; [auto |].
  intros H. apply IH in H as [H | H]; [| auto].
  unfold root_master_step in H.
  destruct (active p.2 && server_is_master (server p.2)); [| auto].
  destruct acc as [mh |]; [| injection H as <-; auto].
  destruct (weight mh.2 <? weight p.2); [injection H as <-; auto | auto].
Qed.

Lemma get_root_master_in refs m :
  get_root_master refs = Some m -> In m (indexed 0 refs).
Proof.
  intros H. apply fold_root_master_in in H as [H | H]; [discriminate | auto].
Qed.

(** Without the [break] of the master case the loop is a fold of [pick]
    over the eligible servers. *)
Lemma select_loop_weighted bm bv mh l cand :
  (bv =? SERVER_MASTER) = false ->
  select_loop bm bv mh l cand
  = fold_left pick (List.filter (eligible bm bv mh) l) cand.
Proof.
  intros Hbv. revert cand.
  induction l as [| p l IH]; intros cand; simpl; [reflexivity |].
  unfold eligible. rewrite Hbv.
  destruct (SERVER_REF_IS_ACTIVE p.2); simpl; [| apply IH].
  destruct (server_is_in_maint (server p.2)); simpl; [apply IH |].
  destruct (status_check bm bv p.2); simpl; [| apply IH].
  destruct mh as [m |]; simpl.
  - rewrite andb_false_r.
    destruct (_ && _); simpl; apply IH.
  - apply IH.
Qed.

(** With [value == MASTER] the loop stops at the root master. *)
Lemma select_loop_master bm m l cand :
  List.filter (fun p => eligible bm SERVER_MASTER (Some m) p
                        && same_ptr p (Some m)) l <> [] ->
  select_loop bm SERVER_MASTER (Some m) l cand = Some m.
Proof.
  revert cand. induction l as [| p l IH]; intros cand; simpl; [congruence |].
  unfold eligible. change (SERVER_MASTER =? SERVER_MASTER) with true.
  change (Z.land SERVER_MASTER (Z.lor SERVER_SLAVE SERVER_MASTER) =? SERVER_SLAVE)
    with false.
  rewrite !andb_false_r, !andb_true_r. simpl.
  destruct (SERVER_REF_IS_ACTIVE p.2); simpl; [| apply IH].
  destruct (server_is_in_maint (server p.2)); simpl; [apply IH |].
  destruct (status_check bm SERVER_MASTER p.2); simpl; [| apply IH].
  destruct (fst p =? fst m)%nat; simpl; [reflexivity | apply IH].
Qed.



Lemma pick_same (m : ref_ptr) : pick (Some m) m = Some m.
Proof.
  unfold pick.
  repeat match goal with
         | |- context [if ?b then _ else _] => destruct b
         end; reflexivity.
Qed.

Lemma fold_pick_same (m : ref_ptr) (l : list ref_ptr) :
  (forall p, In p l -> p = m) -> fold_left pick l (Some m) = Some m.
Proof.
  induction l as [| x l IH]; intros H; cbn [fold_left]; [reflexivity |].
  rewrite (H x) by (left; reflexivity). rewrite pick_same.
  apply IH. intros p Hp. apply H. right. assumption.
Qed.

(** Whenever candidates remain, the loop returns the fold of [pick] over
    them, starting from the first. *)
Lemma selected_fold inst :
  candidates inst <> [] ->
  exists x rest, candidates inst = x :: rest
                 /\ selected inst = fold_left pick rest (Some x).
Proof.
  unfold candidates, selected, remaining.
  destruct (Z.eqb_spec (session_bitvalue inst) SERVER_MASTER) as [-> | Hne].
  - destruct (get_root_master (dbref inst)) as [m |] eqn:Hm; [| congruence].
    intros Hrem. rewrite (select_loop_master _ _ _ _ Hrem).
    assert (Hall : forall p,
               In p (List.filter
                       (fun p => eligible (session_bitmask inst) SERVER_MASTER (Some m) p
                                 && same_ptr p (Some m)) (indexed 0 (dbref inst))) ->
               p = m).
    { intros p Hp. apply filter_In in Hp as [Hin Hp].
      apply andb_true_iff in Hp as [_ Hp]. simpl in Hp.
      apply Nat.eqb_eq in Hp.
      eapply indexed_unique; eauto using get_root_master_in. }
    destruct (List.filter _ _) as [| x rest]; [congruence |].
    exists x, rest. split; [reflexivity |].
    rewrite (Hall x) by (left; reflexivity).
    symmetry. apply fold_pick_same. intros p Hp. apply Hall. right. assumption.
  - apply Z.eqb_neq in Hne. rewrite select_loop_weighted by assumption.
    intros Hrem. destruct (List.filter _ _) as [| x rest]; [congruence |].
    exists x, rest. split; reflexivity.
Qed.

Lemma newSession_selected env inst c :
  calloc_ok env = true -> dcb_connect_ok env = true ->
  selected inst = Some c ->
  exists ses inst', newSession env inst = (Some ses, inst') /\ backend ses = fst c.
Proof.
  unfold selected, newSession. intros -> -> ->. simpl. eauto.
Qed.



(** *** Servers of weight 0 *)

Lemma pick_zero (c p : ref_ptr) :
  exists r, pick (Some c) p = Some r /\ (r = c \/ r = p)
            /\ (weight c.2 <> 0 \/ weight p.2 <> 0 -> weight r.2 <> 0)
            /\ (weight p.2 = 0 -> r = c).
Proof.
  unfold pick.
  destruct (Z.eqb_spec (weight p.2) 0) as [Hp | Hp]; simpl.
  { exists c. repeat split; auto. intros [H | H]; congruence. }
  destruct (Z.eqb_spec (weight c.2) 0) as [Hc | Hc]; simpl.
  { exists p. repeat split; auto. congruence. }
  destruct (load_ratio p.2 <? load_ratio c.2).
  { exists p. repeat split; auto. congruence. }
  destruct (_ && _); [exists p | exists c]; repeat split; auto; congruence.
Qed.

Lemma fold_pick_zero (l : list ref_ptr) : forall c : ref_ptr,
  exists r, fold_left pick l (Some c) = Some r /\ (r = c \/ In r l)
            /\ (weight c.2 <> 0 \/ (exists p, In p l /\ weight p.2 <> 0) ->
                weight r.2 <> 0)
            /\ ((forall p, In p l -> weight p.2 = 0) -> r = c).
Proof.
  induction l as [| x l IH]; intros c; cbn [fold_left].
  - exists c. repeat split; auto.
    intros [H | (p & [] & _)]. assumption.
  - destruct (pick_zero c x) as (r & -> & Hr & Hnz & Hz).
    destruct (IH r) as (r' & Hf & Hr' & Hnz' & Hz').
    exists r'. split; [exact Hf |]. repeat split.
    + cbn [In]. destruct Hr' as [-> | Hin]; [| auto]. destruct Hr as [-> | ->]; auto.
    + intros [Hc | (p & [<- | Hp] & Hw)]; apply Hnz'; eauto.
    + intros Hall. rewrite Hz'.
      * apply Hz. apply Hall. left. reflexivity.
      * intros p Hp. apply Hall. right. exact Hp.
Qed.

(** C8 (as stated, refuted): both candidates have weight 0 and the second
    has the lower lifetime-session count, yet [newSession] chooses the
    first. *)
Lemma zero_weight_ignores_lifetime_count :
  map fst (candidates zero_weight_pair) = [0%nat; 1%nat]
  /\ (forall p, In p (candidates zero_weight_pair) -> weight p.2 = 0)
  /\ option_map backend (fst (newSession env_ok zero_weight_pair)) = Some 0%nat
  /\ (exists s0 s1, dbref zero_weight_pair = [s0; s1]
                    /\ n_connections (server s1) < n_connections (server s0)).
Proof.
  split; [vm_compute; reflexivity |].
  split; [| split; [vm_compute; reflexivity |]].
  - intros p Hp. vm_compute in Hp. destruct Hp as [<- | [<- | []]]; reflexivity.
  - eexists _, _. split; [vm_compute; reflexivity |]. vm_compute. reflexivity.
Qed.

(** C8 (amended): whenever candidates remain, [newSession] never chooses a
    weight-0 candidate while some candidate has non-zero weight, and when
    every candidate has weight 0 it chooses the first candidate in list
    order. *)
Theorem zero_weight_selection env inst :
  calloc_ok env = true -> dcb_connect_ok env = true ->
  candidates inst <> [] ->
  exists c ses inst',
    newSession env inst = (Some ses, inst')
    /\ backend ses = fst c
    /\ In c (candidates inst)
    /\ ((exists p, In p (candidates inst) /\ weight p.2 <> 0) -> weight c.2 <> 0)
    /\ ((forall p, In p (candidates inst) -> weight p.2 = 0) ->
        head (candidates inst) = Some c).
Proof.
  intros Hcal Hdcb Hrem.
  destruct (selected_fold inst Hrem) as (x & rest & Hc & Hsel).
  rewrite Hc.
  destruct (fold_pick_zero rest x) as (r & Hr & Hin & Hnz & Hz).
  rewrite Hr in Hsel.
  destruct (newSession_selected env inst r Hcal Hdcb Hsel) as (ses & inst' & Hn & Hb).
  exists r, ses, inst'. repeat split; auto.
  - destruct Hin as [-> | Hin]; [left | right]; auto.
  - intros (p & [<- | Hp] & Hw); apply Hnz; eauto.
  - intros Hall. simpl. f_equal. symmetry. apply Hz.
    intros p Hp. apply Hall. right. assumption.
Qed.

Lemma zero_weight_selection_witness :
  exists c ses inst',
    newSession env_ok zero_weight_pair = (Some ses, inst')
    /\ backend ses = fst c
    /\ In c (candidates zero_weight_pair)
    /\ ((exists p, In p (candidates zero_weight_pair) /\ weight p.2 <> 0) ->
        weight c.2 <> 0)
    /\ ((forall p, In p (candidates zero_weight_pair) -> weight p.2 = 0) ->
        head (candidates zero_weight_pair) = Some c).
Proof.
  apply (zero_weight_selection env_ok zero_weight_pair); try reflexivity.
  vm_compute. congruence.
Defined.

(** *** Connection accounting *)

Lemma indexed_lookup {A} (l : list A) k p :
  In p (indexed k l) -> l !! (fst p - k)%nat = Some (snd p).
Proof.
  revert k. induction l as [| x l IH]; intros k; simpl; [tauto |].
  intros [<- | H]; simpl.
  - rewrite Nat.sub_diag. reflexivity.
  - pose proof (indexed_lower _ _ _ H) as Hk. apply IH in H.
    replace (fst p - k)%nat with (S (fst p - S k)) by lia. exact H.
Qed.

Lemma pick_cases cand p : pick cand p = cand \/ pick cand p = Some p.
Proof.
  unfold pick. destruct cand as [c |]; [| auto].
  repeat match goal with
         | |- context [if ?b then _ else _] => destruct b
         end; auto.
Qed.

Lemma select_loop_in bm bv mh l : forall cand c,
  select_loop bm bv mh l cand = Some c ->
  cand = Some c \/ mh = Some c \/ In c l.
Proof.
  induction l as [| p l IH]; intros cand c; simpl; [auto |].
  assert (Hskip : select_loop bm bv mh l cand = Some c ->
                  cand = Some c \/ mh = Some c \/ p = c \/ In c l).
  { intros H. apply IH in H. tauto. }
  assert (Hpick : select_loop bm bv mh l (pick cand p) = Some c ->
                  cand = Some c \/ mh = Some c \/ p = c \/ In c l).
  { intros H. apply IH in H as [H | H]; [| tauto].
    destruct (pick_cases cand p) as [E | E]; rewrite E in H; [auto |].
    injection H as <-. auto. }
  destruct (_ || _); [exact Hskip |].
  destruct (status_check bm bv p.2); [| exact Hskip].
  destruct mh as [m |].
  - destruct (_ && _); [exact Hskip |].
    destruct (_ && _); [auto | exact Hpick].
  - destruct (bv =? SERVER_MASTER); [discriminate | exact Hpick].
Qed.

(** C5: a successful [newSession] adds one to the connection counter of
    the chosen backend and changes nothing else in the backend list;
    [freeSession] subtracts one from the counter of the session's backend
    and changes nothing else, so that creation followed by termination
    leaves the backend list as it was; a [newSession] that fails (no
    memory, no eligible backend, or no backend connection) leaves the
    instance unchanged. *)
Theorem session_connection_accounting env inst :
  match newSession env inst with
  | (Some ses, inst') =>
      (exists ref,
          dbref inst !! backend ses = Some ref
          /\ dbref inst'
             = <[ backend ses := {| server := server ref; weight := weight ref;
                                    connections := connections ref + 1;
                                    active := active ref |} ]> (dbref inst))
      /\ (forall later ref,
             dbref later !! backend ses = Some ref ->
             dbref (freeSession later ses)
             = <[ backend ses := {| server := server ref; weight := weight ref;
                                    connections := connections ref - 1;
                                    active := active ref |} ]> (dbref later))
      /\ dbref (freeSession inst' ses) = dbref inst
  | (None, inst') => inst' = inst
  end.
Proof.
  unfold newSession.
  destruct (calloc_ok env); cbn [negb]; [| reflexivity].
  set (bm := session_bitmask inst). set (bv := session_bitvalue inst).
  set (mh := get_root_master (dbref inst)).
  assert (Hmh : forall m, mh = Some m -> In m (indexed 0 (dbref inst)))
    by (intros m; apply get_root_master_in).
  clearbody bm bv mh.
  set (chosen :=
         match select_loop bm bv mh (indexed 0 (dbref inst)) None with
         | Some c => Some (c, bv)
         | None => match mh with
                   | Some m => Some (m, if negb (Z.land bv SERVER_SLAVE =? 0)
                                        then Z.lor bv SERVER_MASTER else bv)
                   | None => None
                   end
         end).
  assert (Hvalid : forall c bv', chosen = Some (c, bv') ->
                                 dbref inst !! fst c = Some (snd c)).
  { intros c bv' H.
    assert (Hin : In c (indexed 0 (dbref inst))).
    { apply (f_equal (option_map fst)) in H. unfold chosen in H.
      destruct (select_loop bm bv mh (indexed 0 (dbref inst)) None) as [c' |] eqn:Hsel.
      - cbn [option_map fst] in H. injection H as <-.
        apply select_loop_in in Hsel as [Hsel | [Hsel | Hsel]];
          [discriminate | apply Hmh; exact Hsel | exact Hsel].
      - destruct mh as [m |]; [| discriminate].
        cbn [option_map fst] in H. injection H as <-. apply Hmh. reflexivity. }
    apply indexed_lookup in Hin. rewrite Nat.sub_0_r in Hin. exact Hin. }
  clearbody chosen.
  destruct chosen as [[c bv'] |]; [| reflexivity].
  destruct (dcb_connect_ok env); cbn [negb]; [| reflexivity].
  specialize (Hvalid c bv' eq_refl).
  assert (Hfree : forall later ref,
             dbref later !! fst c = Some ref ->
             dbref (freeSession later
                      {| backend := fst c; bitmask := bm; bitvalue := bv' |})
             = <[ fst c := {| server := server ref; weight := weight ref;
                              connections := connections ref - 1;
                              active := active ref |} ]> (dbref later)).
  { intros later ref Hl. unfold freeSession, add_connections. cbn [dbref backend].
    rewrite Hl. reflexivity. }
  cbn [backend dbref].
  split; [| split; [exact Hfree |]].
  - exists c.2. split; [exact Hvalid |].
    unfold add_connections. rewrite Hvalid. reflexivity.
  - erewrite Hfree.
    2:{ cbn [dbref]. unfold add_connections. rewrite Hvalid.
        apply list_lookup_insert_eq. eapply lookup_lt_Some. exact Hvalid. }
    cbn [dbref server weight connections active].
    unfold add_connections. rewrite Hvalid.
    rewrite list_insert_insert_eq.
    cbn [server weight connections active].
    replace (connections c.2 + 1 - 1) with (connections c.2) by lia.
    apply list_insert_id. rewrite Hvalid. destruct c.2; reflexivity.
Qed.

Lemma session_connection_accounting_witness :
  match newSession env_ok (two_slaves 4) with
  | (Some ses, inst') => dbref (freeSession inst' ses) = dbref (two_slaves 4)
  | (None, inst') => inst' = two_slaves 4
  end.
Proof.
  pose proof (session_connection_accounting env_ok (two_slaves 4)) as H.
  destruct (newSession env_ok (two_slaves 4)) as [[ses |] inst'];
    [apply H | exact H].
Defined.

End RouterProofs.

(** ** The monitor *)

Module MonitorProofs.
Import Status Monitor.

(** *** Transition categories *)

(** C3 (as stated, refuted): a running slave found promoted to master has
    a role bit in its previous flags, both flag words contain RUNNING and
    they differ, and yet the category is NEW (a new master). *)
Lemma promotion_is_new_with_previous_role :
  let P := Z.land (mon_prev_status promoted_slave) all_server_bits in
  let C := Z.land (status promoted_slave) all_server_bits in
  P <> C
  /\ Z.land P SERVER_RUNNING <> 0 /\ Z.land C SERVER_RUNNING <> 0
  /\ Z.land P server_type_bits <> 0
  /\ mon_status_changed promoted_slave = true
  /\ event_category P C = NEW_EVENT
  /\ mon_get_event_type promoted_slave = NEW_MASTER_EVENT.
Proof. vm_compute. repeat split; congruence. Qed.

(** C3 (amended): for a monitored server whose masked previous flags P and
    current flags C both contain RUNNING and differ, the category is NEW
    exactly when P has no role bit or the MASTER/SLAVE bits of P and of C
    are both non-empty and differ, and LOSS exactly when P has a role bit
    and the MASTER/SLAVE bits of P or of C are empty or the two are equal;
    the event is named after the role bit of C for NEW and of P for LOSS. *)
Theorem new_and_loss_categories node :
  let P := Z.land (mon_prev_status node) all_server_bits in
  let C := Z.land (status node) all_server_bits in
  let P_ms := Z.land P (Z.lor SERVER_MASTER SERVER_SLAVE) in
  let C_ms := Z.land C (Z.lor SERVER_MASTER SERVER_SLAVE) in
  P <> C -> Z.land P SERVER_RUNNING <> 0 -> Z.land C SERVER_RUNNING <> 0 ->
  (event_category P C = NEW_EVENT
   <-> Z.land P server_type_bits = 0 \/ (P_ms <> 0 /\ C_ms <> 0 /\ P_ms <> C_ms))
  /\ (event_category P C = LOSS_EVENT
      <-> Z.land P server_type_bits <> 0 /\ (P_ms = 0 \/ C_ms = 0 \/ P_ms = C_ms))
  /\ (event_category P C = NEW_EVENT ->
      mon_get_event_type node
      = flavored C NEW_MASTER_EVENT NEW_SLAVE_EVENT NEW_SYNCED_EVENT NEW_NDB_EVENT
          UNDEFINED_EVENT)
  /\ (event_category P C = LOSS_EVENT ->
      mon_get_event_type node
      = flavored P LOST_MASTER_EVENT LOST_SLAVE_EVENT LOST_SYNCED_EVENT LOST_NDB_EVENT
          UNDEFINED_EVENT).
Proof.
  intros P C P_ms C_ms Hne HP HC.
  assert (Hcat : event_category P C
                 = if ((P_ms =? 0) || (C_ms =? 0) || (P_ms =? C_ms))
                      && negb (Z.land P server_type_bits =? 0)
                   then LOSS_EVENT else NEW_EVENT).
  { unfold event_category.
    destruct (Z.eqb_spec (Z.land P SERVER_RUNNING) 0); [contradiction |].
    destruct (Z.eqb_spec (Z.land C SERVER_RUNNING) 0); [contradiction |].
    reflexivity. }
  assert (Hev : mon_get_event_type node
                = event_of_category (event_category P C) P C).
  { unfold mon_get_event_type. fold P C.
    destruct (Z.eqb_spec P C); [contradiction | reflexivity]. }
  rewrite Hev, Hcat.
  destruct (Z.eqb_spec P_ms 0), (Z.eqb_spec C_ms 0), (Z.eqb_spec P_ms C_ms),
    (Z.eqb_spec (Z.land P server_type_bits) 0); simpl;
    repeat split; intros; try reflexivity; try discriminate; try tauto; try lia.
Qed.

Lemma new_and_loss_categories_witness :
  mon_get_event_type promoted_slave
  = flavored (Z.land (status promoted_slave) all_server_bits)
      NEW_MASTER_EVENT NEW_SLAVE_EVENT NEW_SYNCED_EVENT NEW_NDB_EVENT
      UNDEFINED_EVENT.
Proof.
  apply (new_and_loss_categories promoted_slave);
    vm_compute; congruence.
Defined.

(** *** The order of the statements of a tick *)

Lemma status_tick_server p s : status (tick_server p s) = status s.
Proof.
  unfold tick_server.
  repeat match goal with
         | |- context [if ?b then _ else _] => destruct b
         end; reflexivity.
Qed.

Lemma published_tick probes m : published (tick probes m) = published m.
Proof.
  unfold published, tick. cbn [m_servers with_servers].
  generalize (m_servers m). intros l. revert probes.
  induction l as [| s l IH]; intros probes; [reflexivity |].
  rewrite imap_cons. cbn [map]. f_equal.
  - apply status_tick_server.
  - apply (IH (fun i => probes (S i))).
Qed.

Lemma published_detect m : published (detect_handle_state_changes m) = published m.
Proof.
  unfold published, detect_handle_state_changes. cbn [m_servers with_servers].
  rewrite map_map.
  apply map_ext. intros s. destruct (mon_status_changed s); reflexivity.
Qed.

Lemma servers_store e m : m_servers (store_server_journal e m) = m_servers m.
Proof.
  unfold store_server_journal.
  repeat match goal with
         | |- context [if ?b then _ else _] => destruct b
         end; reflexivity.
Qed.

Lemma ticks_store e m : m_ticks (store_server_journal e m) = m_ticks m.
Proof.
  unfold store_server_journal.
  repeat match goal with
         | |- context [if ?b then _ else _] => destruct b
         end; reflexivity.
Qed.

(** C4 (as stated, refuted): in the first tick of a monitor whose only
    server answers the probe, the state after the third statement of
    [run_one_tick] already shows the new tick count 1 while the published
    status of the server is still 0; the tick publishes RUNNING. *)
Lemma tick_counted_before_publication :
  exists s,
    run_one_tick_trace reachable_env one_server_monitor !! 2%nat = Some s
    /\ m_ticks one_server_monitor = 0
    /\ m_ticks s = 1
    /\ m_ticks (run_one_tick reachable_env one_server_monitor) = 1
    /\ published s = [0]
    /\ published (run_one_tick reachable_env one_server_monitor) = [SERVER_RUNNING].
Proof. eexists. repeat split; vm_compute; reflexivity. Qed.

(** C4 (amended): in every tick the counter is incremented after the probe
    phase has staged the pending flags and before [flush_server_status]
    publishes them.  When the counter is incremented the published flags
    are still those left by the admin-request phase; the next statement
    publishes the pending flags of every server out of maintenance without
    touching the counter; the rest of the tick changes neither. *)
Theorem tick_counter_precedes_publication e m :
  exists s1 s2 s3 s4 s5 s6,
    run_one_tick_trace e m = [s1; s2; s3; s4; s5; s6]
    /\ run_one_tick e m = s6
    /\ s1 = monitor_check_maintenance_requests m
    /\ m_ticks s2 = m_ticks m
    /\ m_ticks s3 = u64 (m_ticks m + 1)
    /\ published s3 = published s1
    /\ m_ticks s4 = m_ticks s3
    /\ published s4
       = map (fun pMs => if is_in_maint pMs then status pMs else pending_status pMs)
           (m_servers s3)
    /\ m_ticks s6 = m_ticks s3
    /\ published s6 = published s4.
Proof.
  assert (Hticks : m_ticks (monitor_check_maintenance_requests m) = m_ticks m).
  { unfold monitor_check_maintenance_requests.
    destruct (check_status_flag m); reflexivity. }
  do 6 eexists. split; [reflexivity |]. split; [reflexivity |].
  split; [reflexivity |].
  split; [exact Hticks |].
  split; [cbn [m_ticks with_ticks tick with_servers]; rewrite Hticks; reflexivity |].
  split; [apply (published_tick (probes e)) |].
  split; [reflexivity |].
  split.
  { unfold published, flush_server_status. cbn [m_servers with_servers].
    rewrite map_map. apply map_ext. intros s.
    destruct (is_in_maint s); reflexivity. }
  split.
  - rewrite ticks_store. reflexivity.
  - unfold published. rewrite servers_store. apply published_detect.
Qed.

(** *** Admin requests on a running monitor *)

Lemma other_bit_rejected bit :
  has_other_bit bit ->
  Z.land bit (Z.lnot (Z.lor SERVER_MAINT SERVER_BEING_DRAINED)) <> 0.
Proof.
  intros (i & Hi & Hb & Hk) E.
  assert (H : Z.testbit (Z.land bit (Z.lnot (Z.lor SERVER_MAINT SERVER_BEING_DRAINED))) i
              = true).
  { rewrite Z.land_spec, Z.lnot_spec, Hb, Hk by assumption. reflexivity. }
  rewrite E, Z.bits_0 in H. discriminate.
Qed.

(** C9: on a RUNNING monitor, setting or clearing a status bit other than
    the maintenance and being-drained bits fails with the error "The server
    is monitored, so only the maintenance status can be set/cleared
    manually. Status was not modified." (the quoted text up to the capital
    initial) and leaves the monitor, and with it the status and the request
    slot of the server, unchanged; a maintenance or drain request written
    while the previous request is unread replaces it, with a warning, and
    does not touch the status. *)
Theorem admin_requests_on_running_monitor mon srv msrv bit errmsg_out :
  m_state mon = MONITOR_STATE_RUNNING ->
  m_servers mon !! srv = Some msrv ->
  String.prefix quoted_error (Router.lowercase ERR_CANNOT_MODIFY) = true
  /\ (has_other_bit bit ->
      forall r,
        r = set_server_status mon srv bit (Some errmsg_out)
        \/ r = clear_server_status mon srv bit (Some errmsg_out) ->
        written r = false
        /\ errmsg r = Some ERR_CANNOT_MODIFY
        /\ logged r = [MXS_ERROR ERR_CANNOT_MODIFY]
        /\ monitor_after r = mon)
  /\ (bit = SERVER_MAINT \/ bit = SERVER_BEING_DRAINED ->
      status_request msrv <> NO_CHANGE ->
      forall r request,
        (r = set_server_status mon srv bit (Some errmsg_out)
         /\ request = (if bit =? SERVER_MAINT then MAINT_ON else BEING_DRAINED_ON))
        \/ (r = clear_server_status mon srv bit (Some errmsg_out)
            /\ request = (if bit =? SERVER_MAINT then MAINT_OFF else BEING_DRAINED_OFF)) ->
        written r = true
        /\ logged r = [MXS_WARNING WRN_REQUEST_OVERWRITTEN]
        /\ m_servers (monitor_after r)
           = <[ srv := with_status_request request msrv ]> (m_servers mon)
        /\ published (monitor_after r) = published mon).
Proof.
  intros Hrun Hsrv. split; [vm_compute; reflexivity |]. split.
  - intros Hbit r Hr. apply other_bit_rejected in Hbit.
    apply Z.eqb_neq in Hbit.
    destruct Hr as [-> | ->];
      unfold set_server_status, clear_server_status, change_server_status,
        mon_get_monitored_server;
      rewrite Hsrv, Hrun, Hbit; simpl; auto.
  - intros Hbit Hprev r request Hr.
    assert (Hpub : forall rq,
               map status (<[ srv := with_status_request rq msrv ]> (m_servers mon))
               = map status (m_servers mon)).
    { intros rq. rewrite list_fmap_insert. simpl.
      apply list_insert_id. rewrite list_lookup_fmap, Hsrv. reflexivity. }
    destruct Hr as [[-> ->] | [-> ->]];
      unfold set_server_status, clear_server_status, change_server_status,
        mon_get_monitored_server, published;
      rewrite Hsrv, Hrun;
      destruct Hbit as [-> | ->]; simpl;
      (repeat split; [destruct (status_request msrv); congruence | apply Hpub]).
Qed.

Lemma admin_requests_on_running_monitor_witness :
  written (set_server_status pending_request_monitor 0 SERVER_MASTER
             (Some EmptyString)) = false
  /\ errmsg (set_server_status pending_request_monitor 0 SERVER_MASTER
               (Some EmptyString)) = Some ERR_CANNOT_MODIFY
  /\ logged (set_server_status pending_request_monitor 0 SERVER_MASTER
               (Some EmptyString)) = [MXS_ERROR ERR_CANNOT_MODIFY]
  /\ monitor_after (set_server_status pending_request_monitor 0 SERVER_MASTER
                      (Some EmptyString)) = pending_request_monitor.
Proof.
  refine (proj1 (proj2 (admin_requests_on_running_monitor pending_request_monitor 0
                          (with_status_request MAINT_ON (fresh_server [97]))
                          SERVER_MASTER EmptyString eq_refl eq_refl)) _ _ _).
  - exists 3. vm_compute. repeat split; congruence.
  - left. reflexivity.
Defined.

(** *** The journal round trip *)

Lemma length_set_byteN n : forall v, length (set_byteN v n) = n.
Proof. induction n as [| n IH]; intros v; cbn [set_byteN length]; auto. Qed.

Lemma get_set_byteN n : forall v rest,
  0 <= v < 256 ^ Z.of_nat n -> get_byteN (set_byteN v n ++ rest) n = v.
Proof.
  induction n as [| n IH]; intros v rest Hv.
  - change (256 ^ Z.of_nat 0) with 1 in Hv. cbn [set_byteN get_byteN]. lia.
  - cbn [set_byteN get_byteN app].
    rewrite IH.
    + pose proof (Z.div_mod v 256). lia.
    + rewrite Nat2Z.inj_succ, Z.pow_succ_r in Hv by lia.
      split; [apply Z.div_pos; lia |].
      apply Z.div_lt_upper_bound; lia.
Qed.

Lemma c_str_app nm rest :
  Forall (fun b => 0 < b < 256) nm -> c_str (nm ++ 0 :: rest) = nm.
Proof.
  induction 1 as [| b nm Hb _ IH]; cbn [c_str app].
  - reflexivity.
  - destruct (Z.eqb_spec b 0); [lia |]. rewrite IH. reflexivity.
Qed.

Lemma has_null_terminator_app nm rest k :
  (length nm < k)%nat ->
  has_null_terminator (take k (nm ++ 0 :: rest)) = true.
Proof.
  revert k. induction nm as [| b nm IH]; intros k Hk.
  - destruct k; [lia |]. reflexivity.
  - destruct k; [cbn [length] in Hk; lia |].
    cbn [app take has_null_terminator existsb firstn].
    unfold has_null_terminator in IH. rewrite IH by (cbn [length] in Hk; lia).
    apply orb_true_r.
Qed.

Lemma update_first_absent nm f servers :
  find_first nm 0 servers = None -> update_first nm f servers = servers.
Proof.
  generalize 0%nat. induction servers as [| db l IH]; intros k; cbn [find_first update_first].
  - reflexivity.
  - destruct (bool_decide (name db = nm)); [discriminate |].
    intros H. rewrite (IH _ H). reflexivity.
Qed.


Lemma u32_small x : 0 <= x < 2 ^ 32 -> u32 x = x.
Proof. intros H. unfold u32. apply Z.mod_small. exact H. Qed.

Lemma length_server_record db :
  Z.of_nat (length (server_record db)) = strlen (name db) + 10.
Proof.
  unfold server_record, strlen. rewrite !length_app, length_set_byteN.
  cbn [length]. change (Z.to_nat MMB_LEN_SERVER_STATUS) with 8%nat. lia.
Qed.

Lemma fold_journal_size l : forall acc,
  0 <= acc ->
  acc + Z.of_nat (length (flat_map server_record l)) < 2 ^ 32 ->
  fold_left (fun size db =>
               u32 (size + (MMB_LEN_VALUE_TYPE + strlen (name db) + 1
                            + MMB_LEN_SERVER_STATUS))) l acc
  = acc + Z.of_nat (length (flat_map server_record l)).
Proof.
  induction l as [| db l IH]; intros acc Hacc Hfit;
    cbn [fold_left flat_map] in Hfit |- *.
  - cbn [length]. lia.
  - rewrite length_app, Nat2Z.inj_add in Hfit |- *.
    pose proof (length_server_record db) as Hrec.
    assert (Hlen : 0 <= strlen (name db)) by (unfold strlen; lia).
    change MMB_LEN_VALUE_TYPE with 1. change MMB_LEN_SERVER_STATUS with 8.
    rewrite u32_small by lia. rewrite IH by lia. lia.
Qed.

Lemma journal_size_payload servers master :
  Z.of_nat (length (journal_payload servers master)) + 4 < 2 ^ 32 ->
  journal_size servers master
  = Z.of_nat (length (journal_payload servers master)) + 4.
Proof.
  unfold journal_size, journal_payload, master_record.
  rewrite !length_app, !Nat2Z.inj_add. cbn [length].
  change (MMB_LEN_SCHEMA_VERSION + MMB_LEN_CRC32) with 5.
  intros Hfit.
  destruct (master ≫= (servers !!.)) as [db |].
  - rewrite !length_app, !Nat2Z.inj_add in Hfit |- *. cbn [length] in Hfit |- *.
    rewrite fold_journal_size by lia.
    change MMB_LEN_VALUE_TYPE with 1. unfold strlen.
    rewrite u32_small by lia. lia.
  - cbn [length] in Hfit |- *. rewrite fold_journal_size by lia. lia.
Qed.

(** The layout of the journal: length word, payload, CRC of the payload. *)
Lemma journal_layout monitor :
  Z.of_nat (length (journal_payload (m_servers monitor) (m_master monitor))) + 4
  < 2 ^ 32 ->
  journal_of monitor
  = set_byteN (Z.of_nat (length (journal_payload (m_servers monitor)
                                   (m_master monitor))) + 4) 4
    ++ journal_payload (m_servers monitor) (m_master monitor)
    ++ set_byteN (u32 (crc32 0 (journal_payload (m_servers monitor)
                                  (m_master monitor)))) 4.
Proof.
  intros Hfit. unfold journal_of, store_data.
  rewrite journal_size_payload by assumption.
  fold (journal_payload (m_servers monitor) (m_master monitor)).
  set (payload := journal_payload (m_servers monitor) (m_master monitor)) in *.
  change (Z.to_nat MMB_LEN_BYTES) with 4%nat. change MMB_LEN_CRC32 with 4.
  rewrite drop_app_length' by (symmetry; apply length_set_byteN).
  replace (Z.to_nat (Z.of_nat (length payload) + 4 - 4)) with (length payload) by lia.
  rewrite firstn_all. rewrite <- app_assoc. reflexivity.
Qed.

Lemma process_data_file_step fuel servers master type data1 :
  (4 < length (type :: data1))%nat ->
  has_null_terminator (take (length (type :: data1) - 4) (type :: data1)) = true ->
  process_data_file (S fuel) servers master (type :: data1)
  = if type =? SVT_SERVER then
      match process_server servers data1 with
      | Some (servers', rest) => process_data_file fuel servers' master rest
      | None => None
      end
    else if type =? SVT_MASTER then
      let '(master', rest) := process_master servers master data1 in
      process_data_file fuel servers master' rest
    else Some (servers, master, false).
Proof.
  intros Hlen Hnul. cbn [process_data_file].
  change (Z.to_nat MMB_LEN_CRC32) with 4%nat.
  rewrite (proj2 (Nat.ltb_lt _ _) Hlen), Hnul. reflexivity.
Qed.


Lemma process_server_record rs w rest :
  Forall (fun b => 0 < b < 256) (name w) -> word64 (status w) ->
  process_server rs (name w ++ 0 :: set_byteN (status w) 8 ++ rest)
  = Some (update_first (name w) (restore_status (status w)) rs, rest).
Proof.
  intros Hnm Hst. unfold process_server.
  change (Z.to_nat MMB_LEN_SERVER_STATUS) with 8%nat.
  rewrite c_str_app by assumption.
  replace (drop (S (length (name w))) (name w ++ 0 :: set_byteN (status w) 8 ++ rest))
    with (set_byteN (status w) 8 ++ rest).
  2:{ change (name w ++ 0 :: set_byteN (status w) 8 ++ rest)
        with (name w ++ [0] ++ set_byteN (status w) 8 ++ rest).
      rewrite app_assoc. rewrite drop_app_length'; [reflexivity |].
      rewrite length_app. cbn [length]. lia. }
  rewrite drop_app_length' by (symmetry; apply length_set_byteN).
  destruct (find_first (name w) 0 rs) eqn:Hf.
  - rewrite length_app, length_set_byteN.
    destruct (Nat.ltb_spec (8 + length rest) 8); [lia |].
    rewrite get_set_byteN; [reflexivity |]. exact Hst.
  - rewrite update_first_absent by assumption. reflexivity.
Qed.

Lemma process_server_records ws : forall rs fuel master tail,
  Forall (fun s => Forall (fun b => 0 < b < 256) (name s)) ws ->
  Forall (fun s => word64 (status s)) ws ->
  (4 <= length tail)%nat ->
  (length (flat_map server_record ws ++ tail) <= fuel)%nat ->
  process_data_file fuel rs master (flat_map server_record ws ++ tail)
  = process_data_file (fuel - length ws) (restore_all ws rs) master tail.
Proof.
  induction ws as [| w ws IH]; intros rs fuel master tail Hnm Hst Htail Hfuel.
  - cbn [flat_map app length restore_all fold_left]. rewrite Nat.sub_0_r. reflexivity.
  - apply Forall_cons in Hnm as [Hnm Hnms]. apply Forall_cons in Hst as [Hst Hsts].
    cbn [flat_map] in Hfuel |- *. rewrite <- app_assoc in Hfuel |- *.
    set (more := flat_map server_record ws ++ tail) in *.
    unfold server_record in Hfuel |- *.
    change (Z.to_nat MMB_LEN_SERVER_STATUS) with 8%nat in Hfuel |- *.
    cbn [app] in Hfuel |- *. rewrite <- !app_assoc in Hfuel |- *.
    cbn [app] in Hfuel |- *.
    assert (Hmore : (4 <= length more)%nat)
      by (unfold more; rewrite length_app; lia).
    cbn [length] in Hfuel. rewrite !length_app in Hfuel. cbn [length] in Hfuel.
    rewrite length_app, length_set_byteN in Hfuel.
    destruct fuel as [| fuel]; [lia |].
    rewrite process_data_file_step.
    + change (SVT_SERVER =? SVT_SERVER) with true. cbv iota.
      rewrite process_server_record by assumption.
      subst more. rewrite IH; try assumption; [| lia].
      reflexivity.
    + cbn [length]. rewrite !length_app. cbn [length].
      rewrite length_app, length_set_byteN. lia.
    + cbn [length]. rewrite !length_app. cbn [length].
      rewrite length_app, length_set_byteN.
      match goal with
      | |- has_null_terminator (take ?k _) = true =>
          replace k with (S (length (name w) + 5 + length more)) by lia
      end.
      cbn [take firstn has_null_terminator existsb].
      change (SVT_SERVER =? 0) with false. cbn [orb].
      apply has_null_terminator_app. lia.
Qed.

Lemma restore_all_skip ws : forall r rs,
  ~ In (name r) (map name ws) ->
  restore_all ws (r :: rs) = r :: restore_all ws rs.
Proof.
  unfold restore_all.
  induction ws as [| w ws IH]; intros r rs Hnotin; cbn [fold_left]; [reflexivity |].
  cbn [map In] in Hnotin. cbn [update_first].
  rewrite bool_decide_eq_false_2 by (intros E; apply Hnotin; left; congruence).
  apply IH. intros Hin. apply Hnotin. right. exact Hin.
Qed.

Lemma restore_all_aligned rs ws :
  Forall2 (fun r w => name r = name w /\ Z.lor (status r) (status w) = status w)
    rs ws ->
  NoDup (map name ws) ->
  map name (restore_all ws rs) = map name ws
  /\ map status (restore_all ws rs) = map status ws
  /\ map mon_prev_status (restore_all ws rs) = map status ws.
Proof.
  induction 1 as [| r w rs ws [Hnm Hst] _ IH]; intros Hnd.
  - repeat split.
  - cbn [map] in Hnd. apply NoDup_cons in Hnd as [Hnotin Hnd].
    destruct (IH Hnd) as (IH1 & IH2 & IH3).
    assert (E : restore_all (w :: ws) (r :: rs)
                = restore_status (status w) r :: restore_all ws rs).
    { unfold restore_all at 1. cbn [fold_left update_first].
      rewrite bool_decide_eq_true_2 by assumption.
      apply restore_all_skip. cbn [restore_status name with_mon_prev_status
        set_status monitor_set_pending_status with_status with_pending_status].
      rewrite Hnm. intros Hin. apply Hnotin. apply list_elem_of_In. exact Hin. }
    rewrite E. cbn [map]. rewrite IH1, IH2, IH3.
    repeat split; f_equal; [exact Hnm | exact Hst].
Qed.

Lemma length_server_records ws :
  (length ws <= length (flat_map server_record ws))%nat.
Proof.
  induction ws as [| w ws IH]; cbn [flat_map length]; [lia |].
  rewrite length_app. unfold server_record at 1. cbn [app length]. lia.
Qed.



End MonitorProofs.

(** ** The replication stream processor *)

Module ReplicatorProofs.
Import Replicator.

Local Open Scope string_scope.

(** C7 (as stated, refuted): the fetch fails in the middle of transaction
    1-101-43 and the processor connects again.  The in-flight
    transaction-id and the table map are still there, and a commit event
    received next publishes the stale in-flight id as the cursor. *)
Lemma in_flight_survives_reconnect :
  exists s2 s3,
    after_reconnect (Some (OTHER_EVENT 0)) mid_transaction = Done s2
    /\ m_current_gtid s2 = "1-101-43"
    /\ m_current_gtid s2 <> m_current_gtid (Imp_init example_cnf)
    /\ m_tables s2 !! 7 = m_tables mid_transaction !! 7
    /\ m_tables s2 !! 7 <> m_tables (Imp_init example_cnf) !! 7
    /\ after_reconnect (Some XID_EVENT) mid_transaction = Done s3
    /\ m_gtid s3 = "1-101-43".
Proof.
  eexists _, _. split; [reflexivity |].
  split; [reflexivity |]. split; [discriminate |].
  split; [reflexivity |]. split; [vm_compute; discriminate |].
  split; reflexivity.
Qed.

(** C7 (amended): whenever the event fetch returns no event, the
    processor releases the connection and leaves the committed cursor, the
    in-flight transaction-id and the table map as they are; the next
    successful connect starts from the committed cursor and again changes
    none of the three. *)
Theorem fetch_failure_reconnects_from_cursor Table_open e e' s conn :
  m_running s = true ->
  m_sql s = Some conn ->
  connect_err e' = "" -> query_err e' = None -> replicate_err e' = None ->
  exists s1 s2 conn',
    process_events_step Table_open e None s = Done s1
    /\ m_sql s1 = None
    /\ m_gtid s1 = m_gtid s
    /\ m_current_gtid s1 = m_current_gtid s
    /\ m_tables s1 = m_tables s
    /\ connect e' s1 = (true, s2)
    /\ m_sql s2 = Some conn'
    /\ In ("SET @slave_connect_state='" ++ m_gtid s ++ "'") (queries conn')
    /\ m_gtid s2 = m_gtid s
    /\ m_current_gtid s2 = m_current_gtid s
    /\ m_tables s2 = m_tables s.
Proof.
  intros Hrun Hsql He1 He2 He3.
  unfold process_events_step, connect. rewrite Hrun, Hsql.
  cbn [negb with_sql m_sql m_gtid m_current_gtid m_tables m_cnf].
  rewrite He1, He2, He3. cbn [String.eqb negb].
  do 3 eexists. split; [reflexivity |].
  repeat (split; [reflexivity |]).
  cbn [queries m_gtid m_current_gtid m_tables with_sql In].
  split; [auto 6 | auto].
Qed.

Lemma fetch_failure_reconnects_from_cursor_witness :
  exists s1 s2 conn',
    process_events_step open_always source_up None mid_transaction = Done s1
    /\ m_sql s1 = None
    /\ m_gtid s1 = m_gtid mid_transaction
    /\ m_current_gtid s1 = m_current_gtid mid_transaction
    /\ m_tables s1 = m_tables mid_transaction
    /\ connect source_up s1 = (true, s2)
    /\ m_sql s2 = Some conn'
    /\ In ("SET @slave_connect_state='" ++ m_gtid mid_transaction ++ "'")
         (queries conn')
    /\ m_gtid s2 = m_gtid mid_transaction
    /\ m_current_gtid s2 = m_current_gtid mid_transaction
    /\ m_tables s2 = m_tables mid_transaction.
Proof.
  apply (fetch_failure_reconnects_from_cursor open_always source_up source_up
           mid_transaction {| queries := []; replicating_as := 1234 |});
    reflexivity.
Defined.

(** *** Row events without a table map *)

Lemma unmapped_stays_unmapped Table_open event id s s' :
  event <> TABLE_MAP_EVENT id ->
  m_tables s !! id = None ->
  process_one_event Table_open event s = Done s' ->
  m_tables s' !! id = None.
Proof.
  intros Hev Hid.
  destruct event as [d sv sq | | tid | | tid | tid | tid | ty];
    cbn [process_one_event]; try (intros [= <-]; exact Hid).
  - intros [= <-]. cbn [m_tables with_tables].
    rewrite lookup_insert_ne by congruence. exact Hid.
  - destruct (decide _); [| discriminate]. intros [= <-].
    cbn [m_tables with_tables]. rewrite lookup_fmap, Hid. reflexivity.
  - destruct (m_tables s !! tid) as [[t |] |] eqn:Ht; try discriminate.
    intros [= <-]. cbn [m_tables with_tables].
    rewrite lookup_insert_ne by congruence. exact Hid.
Qed.

(** C10: a WRITE_ROWS_EVENT_V1 is handled without a null dereference when
    the table map holds a table for its id, which is then given the event;
    a stream in which no TABLE_MAP event for the id precedes the row
    event, processed from a state without an entry for the id (the initial
    state in particular), ends in the dereference of a null pointer. *)
Theorem write_rows_needs_table_map Table_open id :
  (forall s t,
      m_tables s !! id = Some (Some t) ->
      process_one_event Table_open (WRITE_ROWS_EVENT_V1 id) s
      = Done (with_tables
                (<[ id := Some (enqueue (WRITE_ROWS_EVENT_V1 id) t) ]> (m_tables s)) s))
  /\ (forall events s,
         m_tables s !! id = None ->
         Forall (fun event => event <> TABLE_MAP_EVENT id) events ->
         process_stream Table_open (events ++ [WRITE_ROWS_EVENT_V1 id]) s
         = NullDereference)
  /\ (forall cnf, m_tables (Imp_init cnf) !! id = None).
Proof.
  split; [| split].
  - intros s t Ht. cbn [process_one_event]. rewrite Ht. reflexivity.
  - intros events. induction events as [| event events IH]; intros s Hid Hev.
    + cbn [app process_stream process_one_event]. rewrite Hid. reflexivity.
    + apply Forall_cons in Hev as [Hne Hev].
      cbn [app process_stream].
      destruct (process_one_event Table_open event s) as [s' |] eqn:Hs';
        [| reflexivity].
      apply IH; [| exact Hev].
      eapply unmapped_stays_unmapped; eauto.
  - intros cnf. apply lookup_empty.
Qed.

Lemma write_rows_needs_table_map_witness :
  process_stream open_always
    ([GTID_EVENT 1 101 43; TABLE_MAP_EVENT 8] ++ [WRITE_ROWS_EVENT_V1 7])
    (Imp_init example_cnf)
  = NullDereference.
Proof.
  apply (proj1 (proj2 (write_rows_needs_table_map open_always 7))).
  - reflexivity.
  - repeat constructor; discriminate.
Defined.

End ReplicatorProofs.

(** * Further properties of the code *)

(** ** The connection router *)

Module RouterMore.
Import Status Router Words RouterProofs.

(** *** get_root_master *)

Lemma fold_root_master_first (l : list ref_ptr) : forall a : ref_ptr,
  exists m, fold_left root_master_step l (Some a) = Some m
    /\ ((m = a /\ forall p, In p l -> electable p = true -> weight p.2 <= weight a.2)
        \/ (exists l1 l2, l = l1 ++ m :: l2
              /\ electable m = true
              /\ weight a.2 < weight m.2
              /\ (forall p, In p l1 -> electable p = true -> weight p.2 < weight m.2)
              /\ (forall p, In p l2 -> electable p = true -> weight p.2 <= weight m.2))).
Proof.
  induction l as [| x l IH]; intros a; cbn [fold_left].
  - exists a. split; [reflexivity |]. left. split; [reflexivity |]. intros p [].
  - unfold root_master_step at 2. fold (electable x).
    destruct (electable x) eqn:Hx.
    + destruct (Z.ltb_spec (weight a.2) (weight x.2)) as [Hlt | Hge].
      * destruct (IH x) as (m & Hf & [[-> Hall] | (l1 & l2 & -> & Hm & Hw & H1 & H2)]).
        -- exists x. split; [exact Hf |]. right. exists [], l.
           repeat split; auto. intros p [].
        -- exists m. split; [exact Hf |]. right. exists (x :: l1), l2.
           repeat split; auto; [lia |].
           intros p [<- | Hp] Hel; [lia | auto].
      * destruct (IH a) as (m & Hf & [[-> Hall] | (l1 & l2 & -> & Hm & Hw & H1 & H2)]).
        -- exists a. split; [exact Hf |]. left. split; [reflexivity |].
           intros p [<- | Hp] Hel; [lia | auto].
        -- exists m. split; [exact Hf |]. right. exists (x :: l1), l2.
           repeat split; auto.
           intros p [<- | Hp] Hel; [lia | auto].
    + destruct (IH a) as (m & Hf & [[-> Hall] | (l1 & l2 & -> & Hm & Hw & H1 & H2)]).
      * exists a. split; [exact Hf |]. left. split; [reflexivity |].
        intros p [<- | Hp] Hel; [congruence | auto].
      * exists m. split; [exact Hf |]. right. exists (x :: l1), l2.
        repeat split; auto.
        intros p [<- | Hp] Hel; [congruence | auto].
Qed.

Lemma fold_root_master_none (l : list ref_ptr) :
  (forall p, In p l -> electable p = false) ->
  fold_left root_master_step l None = None.
Proof.
  induction l as [| x l IH]; intros H; cbn [fold_left]; [reflexivity |].
  unfold root_master_step at 2. fold (electable x).
  rewrite (H x) by (left; reflexivity).
  apply IH. intros p Hp. apply H. right. exact Hp.
Qed.

(** [get_root_master] returns the first of the active master servers of
    highest weight, and nothing exactly when no active master exists. *)
Theorem get_root_master_first_heaviest refs :
  match get_root_master refs with
  | Some m =>
      exists l1 l2,
        indexed 0 refs = l1 ++ m :: l2
        /\ electable m = true
        /\ (forall p, In p l1 -> electable p = true -> weight p.2 < weight m.2)
        /\ (forall p, In p l2 -> electable p = true -> weight p.2 <= weight m.2)
  | None => forall p, In p (indexed 0 refs) -> electable p = false
  end.
Proof.
  unfold get_root_master.
  induction (indexed 0 refs) as [| x l IH]; cbn [fold_left].
  - intros p [].
  - unfold root_master_step at 2. fold (electable x).
    destruct (electable x) eqn:Hx.
    + destruct (fold_root_master_first l x)
        as (m & -> & [[-> Hall] | (l1 & l2 & -> & Hm & Hw & H1 & H2)]).
      * exists [], l. repeat split; auto. intros p [].
      * exists (x :: l1), l2. repeat split; auto.
        intros p [<- | Hp] Hel; [lia | auto].
    + destruct (fold_left root_master_step l None) as [m |].
      * destruct IH as (l1 & l2 & -> & Hm & H1 & H2).
        exists (x :: l1), l2. repeat split; auto.
        intros p [<- | Hp] Hel; [congruence | auto].
      * intros p [<- | Hp]; [exact Hx | auto].
Qed.

(** *** configureInstance *)

Lemma configure_option_ok a opt :
  acc_ok (configure_option a opt) = acc_ok a && supported_option opt.
Proof.
  unfold configure_option, supported_option. cbn [existsb].
  repeat match goal with
         | |- context [if ?c then _ else _] => destruct c
         end; cbn [acc_ok orb]; rewrite ?andb_true_r, ?andb_false_r; reflexivity.
Qed.

Lemma fold_configure_ok opts : forall a,
  acc_ok (fold_left configure_option opts a) = acc_ok a && forallb supported_option opts.
Proof.
  induction opts as [| opt opts IH]; intros a; cbn [fold_left forallb].
  - rewrite andb_true_r. reflexivity.
  - rewrite IH, configure_option_ok, andb_assoc. reflexivity.
Qed.

Lemma role_filter_ok opts :
  acc_ok (role_filter opts) = forallb supported_option opts.
Proof.
  unfold role_filter.
  match goal with |- context [if ?c then _ else _] => destruct c end;
    cbn [acc_ok]; rewrite fold_configure_ok; reflexivity.
Qed.

(** [configureInstance] succeeds exactly when every token of
    [router_options] is one of master, slave, running, synced, ndb in any
    letter case; when it fails the instance keeps the filter it had. *)
Theorem configureInstance_accepts_supported inst opts :
  fst (configureInstance inst opts) = forallb supported_option opts
  /\ (fst (configureInstance inst opts) = false ->
      snd (configureInstance inst opts) = inst)
  /\ dbref (snd (configureInstance inst opts)) = dbref inst.
Proof.
  unfold configureInstance. rewrite role_filter_ok.
  destruct (forallb supported_option opts); cbn [fst snd dbref]; auto.
  repeat split. discriminate.
Qed.

Lemma lor_swap a b c : Z.lor (Z.lor a b) c = Z.lor (Z.lor a c) b.
Proof. rewrite <- !Z.lor_assoc. f_equal. apply Z.lor_comm. Qed.

Lemma configure_option_comm a x y :
  configure_option (configure_option a x) y
  = configure_option (configure_option a y) x.
Proof.
  unfold configure_option.
  repeat match goal with
         | |- context [if ?c then _ else _] => destruct c
         end;
    cbn [acc_bitmask acc_bitvalue acc_ok];
    f_equal; auto using lor_swap.
Qed.

Lemma fold_configure_perm opts opts' :
  Permutation opts opts' ->
  forall a, fold_left configure_option opts a = fold_left configure_option opts' a.
Proof.
  induction 1 as [| x l l' _ IH | x y l | l l' l'' _ IH1 _ IH2];
    intros a; cbn [fold_left].
  - reflexivity.
  - apply IH.
  - rewrite configure_option_comm. reflexivity.
  - rewrite IH1. apply IH2.
Qed.

(** The filter does not depend on the order in which the options are
    given. *)
Theorem configureInstance_order_independent inst opts opts' :
  Permutation opts opts' ->
  configureInstance inst opts = configureInstance inst opts'.
Proof.
  intros Hp. unfold configureInstance, role_filter.
  rewrite (fold_configure_perm _ _ Hp). reflexivity.
Qed.

Lemma configureInstance_order_independent_witness :
  configureInstance empty_instance ["master"; "SLAVE"]%string
  = configureInstance empty_instance ["SLAVE"; "master"]%string.
Proof.
  apply (configureInstance_order_independent empty_instance).
  apply perm_swap.
Defined.

(** *** What newSession chooses *)

Lemma master_is_running_out_of_maint st :
  status_is_master st = true ->
  status_is_running st = true /\ status_is_in_maint st = false
  /\ Z.land st SERVER_MASTER <> 0.
Proof.
  unfold status_is_master, status_is_running, status_is_in_maint.
  intros H. apply Z.eqb_eq in H.
  assert (Hbit : forall i, 0 <= i ->
             Z.testbit st i
             && Z.testbit (Z.lor (Z.lor SERVER_RUNNING SERVER_MASTER) SERVER_MAINT) i
             = Z.testbit (Z.lor SERVER_RUNNING SERVER_MASTER) i).
  { intros i Hi. rewrite <- Z.land_spec, H. reflexivity. }
  pose proof (Hbit 0 ltac:(lia)) as H0.
  pose proof (Hbit 1 ltac:(lia)) as H1.
  pose proof (Hbit 3 ltac:(lia)) as H3.
  change (Z.testbit (Z.lor (Z.lor SERVER_RUNNING SERVER_MASTER) SERVER_MAINT) 0)
    with true in H0.
  change (Z.testbit (Z.lor SERVER_RUNNING SERVER_MASTER) 0) with true in H0.
  change (Z.testbit (Z.lor (Z.lor SERVER_RUNNING SERVER_MASTER) SERVER_MAINT) 1)
    with true in H1.
  change (Z.testbit (Z.lor SERVER_RUNNING SERVER_MASTER) 1) with false in H1.
  change (Z.testbit (Z.lor (Z.lor SERVER_RUNNING SERVER_MASTER) SERVER_MAINT) 3)
    with true in H3.
  change (Z.testbit (Z.lor SERVER_RUNNING SERVER_MASTER) 3) with true in H3.
  rewrite andb_true_r in H0, H1, H3.
  assert (Hne : forall k, 0 <= k -> Z.testbit st k = true ->
                          Z.land st (Z.shiftl 1 k) <> 0).
  { intros k Hk Ht E.
    assert (Hb : Z.testbit (Z.land st (Z.shiftl 1 k)) k = true).
    { rewrite Z.land_spec, Ht, Z.shiftl_spec, Z.sub_diag by lia. reflexivity. }
    rewrite E, Z.bits_0 in Hb. discriminate. }
  assert (Heq : forall k, 0 <= k -> Z.testbit st k = false ->
                          Z.land st (Z.shiftl 1 k) = 0).
  { intros k Hk Ht. apply Z.bits_inj'. intros i Hi.
    rewrite Z.land_spec, Z.bits_0.
    destruct (Z.eq_dec i k) as [-> | Hik]; [rewrite Ht; reflexivity |].
    rewrite Z.shiftl_spec by lia.
    destruct (Z_lt_le_dec i k).
    - rewrite (Z.testbit_neg_r 1) by lia. apply andb_false_r.
    - rewrite (Z.bits_above_log2 1 (i - k));
        [apply andb_false_r | lia | change (Z.log2 1) with 0; lia]. }
  split; [| split].
  - apply negb_true_iff, Z.eqb_neq. apply (Hne 0); [lia | exact H0].
  - apply negb_false_iff, Z.eqb_eq. apply (Heq 1); [lia | exact H1].
  - apply (Hne 3); [lia | exact H3].
Qed.

Lemma fold_pick_in (l : list ref_ptr) : forall cand c,
  fold_left pick l cand = Some c -> cand = Some c \/ In c l.
Proof.
  induction l as [| x l IH]; intros cand c; cbn [fold_left]; [auto |].
  intros H. apply IH in H as [H | H]; [| right; right; exact H].
  destruct (pick_cases cand x) as [E | E]; rewrite E in H; [auto |].
  injection H as <-. right. left. reflexivity.
Qed.

Lemma select_loop_passes bm bv mh l c :
  (bv =? SERVER_MASTER) = false ->
  select_loop bm bv mh l None = Some c ->
  In c l /\ eligible bm bv mh c = true.
Proof.
  intros Hbv. rewrite select_loop_weighted by assumption.
  intros H. apply fold_pick_in in H as [H | H]; [discriminate |].
  apply filter_In in H. exact H.
Qed.

Lemma select_loop_master_none bm l : forall cand,
  cand = None -> select_loop bm SERVER_MASTER None l cand = None.
Proof.
  induction l as [| p l IH]; intros cand ->; cbn [select_loop]; [reflexivity |].
  change (SERVER_MASTER =? SERVER_MASTER) with true. cbv iota.
  repeat match goal with
         | |- context [if ?c then _ else _] => destruct c
         end; auto.
Qed.

(** With [router_options=master] and no root master, [newSession] fails
    and changes nothing, whatever servers there are. *)
Theorem master_session_needs_root_master env inst :
  session_bitvalue inst = SERVER_MASTER ->
  get_root_master (dbref inst) = None ->
  newSession env inst = (None, inst).
Proof.
  intros Hbv Hmh. unfold newSession. rewrite Hbv, Hmh.
  rewrite select_loop_master_none by reflexivity.
  destruct (calloc_ok env); reflexivity.
Qed.

Lemma master_session_needs_root_master_witness :
  newSession env_ok
    (snd (configureInstance
            {| dbref := [ {| server := slave_server; weight := 1;
                             connections := 0; active := true |} ];
               bitmask_and_bitvalue := 0; n_sessions := 0 |}
            ["master"%string]))
  = (None,
     snd (configureInstance
            {| dbref := [ {| server := slave_server; weight := 1;
                             connections := 0; active := true |} ];
               bitmask_and_bitvalue := 0; n_sessions := 0 |}
            ["master"%string])).
Proof.
  apply master_session_needs_root_master; reflexivity.
Defined.

Lemma passed_cons bm bv mh x l c : passed bm bv mh l c -> passed bm bv mh (x :: l) c.
Proof. intros (p & Hin & H). exists p. split; [right; exact Hin | exact H]. Qed.

Lemma select_loop_sound bm bv mh l : forall cand c,
  select_loop bm bv mh l cand = Some c ->
  cand = Some c \/ passed bm bv mh l c.
Proof.
  induction l as [| p l IH]; intros cand c; cbn [select_loop]; [auto |].
  assert (Hskip : select_loop bm bv mh l cand = Some c ->
                  cand = Some c \/ passed bm bv mh (p :: l) c).
  { intros H. apply IH in H as [H | H]; auto using passed_cons. }
  destruct (SERVER_REF_IS_ACTIVE p.2) eqn:Hact; cbn [negb orb]; [| exact Hskip].
  destruct (server_is_in_maint (server p.2)) eqn:Hmaint; [exact Hskip |].
  destruct (status_check bm bv p.2) eqn:Hchk; [| exact Hskip].
  assert (Hpick : select_loop bm bv mh l (pick cand p) = Some c ->
                  cand = Some c \/ passed bm bv mh (p :: l) c).
  { intros H. apply IH in H as [H | H]; auto using passed_cons.
    destruct (pick_cases cand p) as [E | E]; rewrite E in H; [auto |].
    injection H as <-. right. exists p. split; [left; reflexivity | auto]. }
  destruct mh as [m |].
  - destruct (_ && _); [exact Hskip |].
    destruct (same_ptr p (Some m) && (bv =? SERVER_MASTER)) eqn:Hbrk;
      [| exact Hpick].
    intros [= <-]. right. exists p. split; [left; reflexivity |].
    apply andb_true_iff in Hbrk as [Hsame _]. cbn [same_ptr] in Hsame.
    apply Nat.eqb_eq in Hsame. auto 6.
  - destruct (bv =? SERVER_MASTER); [discriminate | exact Hpick].
Qed.

(** On the list of an instance the server that passed is the server
    returned. *)
Lemma passed_indexed bm bv refs c :
  passed bm bv (get_root_master refs) (indexed 0 refs) c ->
  refs !! fst c = Some (snd c)
  /\ SERVER_REF_IS_ACTIVE c.2 = true
  /\ server_is_in_maint (server c.2) = false
  /\ status_check bm bv c.2 = true.
Proof.
  intros (p & Hin & Hp & H).
  assert (E : p = c).
  { destruct Hp as [Hp | [Hmh Hfst]]; [exact Hp |].
    eapply indexed_unique; eauto using get_root_master_in. }
  subst p. apply indexed_lookup in Hin. rewrite Nat.sub_0_r in Hin. auto.
Qed.

Lemma pair_some_inj {A B} (a a' : A) (b b' : B) :
  (Some a, b) = (Some a', b') -> a = a' /\ b = b'.
Proof. intros [= -> ->]. auto. Qed.

(** How a successful [newSession] arrives at its session: through the loop
    or, when the loop finds nothing, through the root master. *)
Lemma newSession_choice env inst ses inst' :
  newSession env inst = (Some ses, inst') ->
  ((exists c, selected inst = Some c /\ backend ses = fst c
              /\ bitvalue ses = session_bitvalue inst)
   \/ (selected inst = None
       /\ exists m, get_root_master (dbref inst) = Some m /\ backend ses = fst m
                    /\ bitvalue ses
                       = if negb (Z.land (session_bitvalue inst) SERVER_SLAVE =? 0)
                         then Z.lor (session_bitvalue inst) SERVER_MASTER
                         else session_bitvalue inst))
  /\ bitmask ses = session_bitmask inst
  /\ dbref inst' = add_connections (backend ses) 1 (dbref inst).
Proof.
  unfold newSession, selected.
  destruct (calloc_ok env); cbn [negb]; [| discriminate].
  destruct (select_loop _ _ _ _ None) as [c |].
  - destruct (dcb_connect_ok env); cbn [negb]; [| discriminate].
    intros H. apply pair_some_inj in H as [<- <-].
    cbn [backend bitmask bitvalue dbref].
    split; [left; eauto | auto].
  - destruct (get_root_master (dbref inst)) as [m |]; [| discriminate].
    destruct (dcb_connect_ok env); cbn [negb]; [| discriminate].
    intros H. apply pair_some_inj in H as [<- <-].
    cbn [backend bitmask bitvalue dbref].
    split; [right; eauto | auto].
Qed.

Lemma fold_root_master_electable (l : list ref_ptr) : forall acc m,
  fold_left root_master_step l acc = Some m ->
  acc = Some m \/ electable m = true.
Proof.
  induction l as [| x l IH]; intros acc m H; cbn [fold_left] in H; [auto |].
  apply IH in H as [H | H]; [| auto].
  unfold root_master_step in H. fold (electable x) in H.
  destruct (electable x) eqn:Hx; [| auto].
  destruct acc as [mh |].
  - destruct (weight mh.2 <? weight x.2); [| auto].
    injection H as <-. auto.
  - injection H as <-. auto.
Qed.

Lemma root_master_usable refs m :
  get_root_master refs = Some m ->
  refs !! fst m = Some (snd m)
  /\ active m.2 = true
  /\ server_is_master (server m.2) = true.
Proof.
  intros H. pose proof (get_root_master_in _ _ H) as Hin.
  apply indexed_lookup in Hin. rewrite Nat.sub_0_r in Hin.
  pose proof (fold_root_master_electable _ _ _ H) as [Hel | Hel]; [discriminate |].
  unfold electable in Hel. apply andb_true_iff in Hel. tauto.
Qed.

(** The backend that [newSession] binds a session to is an active
    reference to a running server that is not in maintenance. *)
Theorem chosen_backend_is_usable env inst ses inst' :
  newSession env inst = (Some ses, inst') ->
  exists ref,
    dbref inst !! backend ses = Some ref
    /\ active ref = true
    /\ server_is_running (server ref) = true
    /\ server_is_in_maint (server ref) = false.
Proof.
  intros H. apply newSession_choice in H as ([(c & Hsel & -> & _) | (_ & m & Hm & -> & _)] & _).
  - unfold selected in Hsel.
    apply select_loop_sound in Hsel as [Hc | Hc]; [discriminate |].
    apply passed_indexed in Hc as (Hl & Hact & Hmaint & Hchk).
    exists c.2. unfold SERVER_REF_IS_ACTIVE in Hact.
    unfold status_check in Hchk.
    apply andb_true_iff in Hact as [Ha _]. apply andb_true_iff in Hchk as [Hr _].
    auto.
  - destruct (root_master_usable _ _ Hm) as (Hl & Ha & Hmst).
    apply master_is_running_out_of_maint in Hmst as (Hr & Hmt & _).
    exists m.2. auto.
Qed.

Lemma chosen_backend_is_usable_witness :
  exists ref,
    dbref (two_slaves 4) !! 1%nat = Some ref
    /\ active ref = true
    /\ server_is_running (server ref) = true
    /\ server_is_in_maint (server ref) = false.
Proof.
  apply (chosen_backend_is_usable env_ok (two_slaves 4)
           {| backend := 1; bitmask := session_bitmask (two_slaves 4);
              bitvalue := session_bitvalue (two_slaves 4) |}
           (snd (newSession env_ok (two_slaves 4)))).
  vm_compute. reflexivity.
Defined.

(** *** Validity of a session right after its creation *)

Lemma land_bit_nonzero x k :
  0 <= k -> Z.testbit x k = true -> Z.land x (Z.shiftl 1 k) <> 0.
Proof.
  intros Hk Ht E.
  assert (Hb : Z.testbit (Z.land x (Z.shiftl 1 k)) k = true).
  { rewrite Z.land_spec, Ht, Z.shiftl_spec, Z.sub_diag by lia. reflexivity. }
  rewrite E, Z.bits_0 in Hb. discriminate.
Qed.

Lemma land_bit_zero x k :
  0 <= k -> Z.testbit x k = false -> Z.land x (Z.shiftl 1 k) = 0.
Proof.
  intros Hk Ht. apply Z.bits_inj'. intros i Hi.
  rewrite Z.land_spec, Z.bits_0.
  destruct (Z.eq_dec i k) as [-> | Hik]; [rewrite Ht; reflexivity |].
  rewrite Z.shiftl_spec by lia.
  destruct (Z_lt_le_dec i k).
  - rewrite (Z.testbit_neg_r 1) by lia. apply andb_false_r.
  - rewrite (Z.bits_above_log2 1 (i - k));
      [apply andb_false_r | lia | change (Z.log2 1) with 0; lia].
Qed.

Lemma land_bit_testbit x k :
  0 <= k -> Z.land x (Z.shiftl 1 k) <> 0 -> Z.testbit x k = true.
Proof.
  intros Hk H. destruct (Z.testbit x k) eqn:Ht; [reflexivity |].
  exfalso. apply H. apply land_bit_zero; assumption.
Qed.

Lemma fold_root_master_rel l l' : forall k acc acc',
  Forall2 same_election l l' ->
  match acc, acc' with
  | Some a, Some a' => fst a = fst a' /\ weight a.2 = weight a'.2
  | None, None => True
  | _, _ => False
  end ->
  option_map fst (fold_left root_master_step (indexed k l) acc)
  = option_map fst (fold_left root_master_step (indexed k l') acc').
Proof.
  intros k acc acc' HF. revert k acc acc'.
  induction HF as [| x y l l' (Ha & Hs & Hw) _ IH]; intros k acc acc' Hacc;
    cbn [indexed fold_left].
  - destruct acc as [a |], acc' as [a' |]; try contradiction; cbn [option_map].
    + f_equal. tauto.
    + reflexivity.
  - apply IH. unfold root_master_step. cbn [snd].
    rewrite Ha, Hs.
    destruct (active y && server_is_master (server y)); [| exact Hacc].
    destruct acc as [a |], acc' as [a' |]; try contradiction; cbn [fst snd].
    + destruct Hacc as [Hi Hwa]. rewrite Hwa, Hw.
      destruct (weight a'.2 <? weight y); cbn [fst snd]; auto.
    + auto.
Qed.

Lemma get_root_master_add_connections i n refs :
  option_map fst (get_root_master (add_connections i n refs))
  = option_map fst (get_root_master refs).
Proof.
  unfold get_root_master. apply fold_root_master_rel; [| exact I].
  unfold add_connections. destruct (refs !! i) as [ref |] eqn:Hi.
  - rewrite <- (list_insert_id refs i ref Hi) at 2.
    apply Forall2_insert.
    + apply Forall2_same_length_lookup_2; [reflexivity |].
      intros j a b Ha Hb. rewrite Ha in Hb. injection Hb as <-.
      repeat split.
    + repeat split.
  - apply Forall2_same_length_lookup_2; [reflexivity |].
    intros j a b Ha Hb. rewrite Ha in Hb. injection Hb as <-. repeat split.
Qed.

Lemma lookup_add_connections i n refs ref :
  refs !! i = Some ref ->
  add_connections i n refs !! i
  = Some {| server := server ref; weight := weight ref;
            connections := connections ref + n; active := active ref |}.
Proof.
  intros H. unfold add_connections. rewrite H.
  apply list_lookup_insert_eq. eapply lookup_lt_Some. exact H.
Qed.


(** A session that [newSession] bound to a server found by its loop is
    valid as soon as it exists, provided that with [router_options=master]
    the server found is the root master. *)
Theorem loop_session_is_valid env inst ses inst' c :
  newSession env inst = (Some ses, inst') ->
  selected inst = Some c ->
  (session_bitvalue inst = SERVER_MASTER ->
   get_root_master (dbref inst) = Some c) ->
  connection_is_valid inst' ses = true.
Proof.
  intros Hnew Hsel Hroot.
  apply newSession_choice in Hnew
    as ([(c' & Hsel' & Hb & Hv) | (Hnone & _)] & Hm & Hrefs); [| congruence].
  rewrite Hsel in Hsel'. injection Hsel' as <-.
  unfold selected in Hsel.
  apply select_loop_sound in Hsel as [Hsel | Hsel]; [discriminate |].
  apply passed_indexed in Hsel as (Hl & _ & _ & Hchk).
  unfold connection_is_valid.
  rewrite Hrefs, Hb, (lookup_add_connections _ _ _ _ Hl), Hm, Hv.
  cbn [server active]. unfold status_check in Hchk. rewrite Hchk.
  destruct (Z.eqb_spec (session_bitvalue inst) SERVER_MASTER) as [E | E];
    [| reflexivity].
  destruct (active c.2); [| reflexivity]. cbn [andb].
  pose proof (get_root_master_add_connections (fst c) 1 (dbref inst)) as Hgrm.
  rewrite (Hroot E) in Hgrm. cbn [option_map] in Hgrm.
  destruct (get_root_master (add_connections (fst c) 1 (dbref inst))) as [m |];
    [| discriminate].
  cbn [option_map] in Hgrm. injection Hgrm as Hgrm.
  cbn [same_ptr fst]. rewrite Hgrm. apply Nat.eqb_refl.
Qed.

Lemma loop_session_is_valid_witness :
  connection_is_valid (snd (newSession env_ok (two_slaves 4)))
    {| backend := 1; bitmask := session_bitmask (two_slaves 4);
       bitvalue := session_bitvalue (two_slaves 4) |}
  = true.
Proof.
  apply (loop_session_is_valid env_ok (two_slaves 4) _ _
           (1%nat, {| server := slave_server; weight := 1;
                      connections := 4; active := true |})).
  - vm_compute. reflexivity.
  - vm_compute. reflexivity.
  - vm_compute. discriminate.
Defined.

(** When the loop finds no server and the session asks for slaves, the
    session is bound to the root master, its value gains the MASTER bit,
    and it is valid; the mask of a configured filter that asks for slaves
    contains the MASTER bit. *)
Theorem slave_session_falls_back_to_master env inst m :
  calloc_ok env = true -> dcb_connect_ok env = true ->
  selected inst = None ->
  get_root_master (dbref inst) = Some m ->
  Z.land (session_bitvalue inst) SERVER_SLAVE <> 0 ->
  Z.land (session_bitmask inst) SERVER_MASTER <> 0 ->
  exists ses inst',
    newSession env inst = (Some ses, inst')
    /\ backend ses = fst m
    /\ bitvalue ses = Z.lor (session_bitvalue inst) SERVER_MASTER
    /\ connection_is_valid inst' ses = true.
Proof.
  intros Hcal Hdcb Hsel Hmh Hslave Hmask.
  destruct (root_master_usable _ _ Hmh) as (Hl & Ha & Hmst).
  apply master_is_running_out_of_maint in Hmst as (Hr & _ & Hbit).
  unfold newSession. unfold selected in Hsel.
  rewrite Hcal, Hsel, Hmh, Hdcb. cbn [negb].
  apply Z.eqb_neq in Hslave. rewrite Hslave. cbn [negb fst].
  do 2 eexists. split; [reflexivity |]. split; [reflexivity |].
  split; [reflexivity |].
  unfold connection_is_valid. cbn [dbref backend bitmask bitvalue].
  rewrite (lookup_add_connections _ _ _ _ Hl). cbn [server active].
  unfold server_is_running. rewrite Hr. cbn [andb].
  apply Z.eqb_neq in Hslave.
  assert (Hnz : Z.land (Z.land (status (server m.2)) (session_bitmask inst))
                  (Z.lor (session_bitvalue inst) SERVER_MASTER) <> 0).
  { intros E.
    assert (Hb : Z.testbit (Z.land (Z.land (status (server m.2)) (session_bitmask inst))
                              (Z.lor (session_bitvalue inst) SERVER_MASTER)) 3 = true).
    { rewrite !Z.land_spec, Z.lor_spec.
      rewrite (land_bit_testbit _ 3 ltac:(lia) Hbit).
      rewrite (land_bit_testbit _ 3 ltac:(lia) Hmask).
      change (Z.testbit SERVER_MASTER 3) with true.
      rewrite orb_true_r. reflexivity. }
    rewrite E, Z.bits_0 in Hb. discriminate. }
  apply Z.eqb_neq in Hnz. rewrite Hnz. cbn [negb].
  assert (Hne : Z.lor (session_bitvalue inst) SERVER_MASTER <> SERVER_MASTER).
  { intros E.
    assert (Hb : Z.testbit (Z.lor (session_bitvalue inst) SERVER_MASTER) 4 = true).
    { rewrite Z.lor_spec, (land_bit_testbit _ 4 ltac:(lia) Hslave). reflexivity. }
    rewrite E in Hb. discriminate. }
  apply Z.eqb_neq in Hne. rewrite Hne. reflexivity.
Qed.

Lemma slave_session_falls_back_to_master_witness :
  exists ses inst',
    newSession env_ok (sole_master ["slave"%string]) = (Some ses, inst')
    /\ backend ses = 0%nat
    /\ bitvalue ses
       = Z.lor (session_bitvalue (sole_master ["slave"%string])) SERVER_MASTER
    /\ connection_is_valid inst' ses = true.
Proof.
  apply (slave_session_falls_back_to_master env_ok (sole_master ["slave"%string])
           (0%nat, {| server := master_server; weight := 1;
                      connections := 0; active := true |}));
    try reflexivity; vm_compute; discriminate.
Defined.

Lemma select_loop_some_stays bm bv m l : forall c,
  select_loop bm bv (Some m) l (Some c) <> None.
Proof.
  induction l as [| p l IH]; intros c; cbn [select_loop]; [discriminate |].
  destruct (pick_cases (Some c) p) as [E | E].
  - repeat match goal with
           | |- context [if ?b then _ else _] => destruct b
           end; try discriminate; try apply IH; rewrite E; apply IH.
  - repeat match goal with
           | |- context [if ?b then _ else _] => destruct b
           end; try discriminate; try apply IH; rewrite E; apply IH.
Qed.

Lemma select_loop_none_rejects bm bv m l :
  select_loop bm bv (Some m) l None = None ->
  forall p, In p l ->
    SERVER_REF_IS_ACTIVE p.2 = true ->
    server_is_in_maint (server p.2) = false ->
    status_check bm bv p.2 = true ->
    same_ptr p (Some m)
    && (Z.land bv (Z.lor SERVER_SLAVE SERVER_MASTER) =? SERVER_SLAVE) = true.
Proof.
  induction l as [| x l IH]; intros H p Hin; [destruct Hin |].
  cbn [select_loop] in H.
  destruct Hin as [<- | Hin].
  - intros Ha Hm Hc. rewrite Ha, Hm, Hc in H. cbn [negb orb] in H.
    destruct (same_ptr x (Some m)
              && (Z.land bv (Z.lor SERVER_SLAVE SERVER_MASTER) =? SERVER_SLAVE));
      [reflexivity |].
    destruct (same_ptr x (Some m) && (bv =? SERVER_MASTER)); [discriminate |].
    cbn [pick] in H. exfalso. exact (select_loop_some_stays _ _ _ _ _ H).
  - apply IH; [| exact Hin].
    destruct (negb (SERVER_REF_IS_ACTIVE x.2) || server_is_in_maint (server x.2));
      [exact H |].
    destruct (status_check bm bv x.2); [| exact H].
    destruct (same_ptr x (Some m)
              && (Z.land bv (Z.lor SERVER_SLAVE SERVER_MASTER) =? SERVER_SLAVE));
      [exact H |].
    destruct (same_ptr x (Some m) && (bv =? SERVER_MASTER)); [discriminate |].
    cbn [pick] in H. exfalso. exact (select_loop_some_stays _ _ _ _ _ H).
Qed.

(** When the loop finds no server and the session does not ask for
    slaves (synced, ndb and the like), [newSession] still binds the session
    to the root master, but without changing the value: if the root master
    is a server in use, the session is invalid from the start, so that the
    first packet routed is dropped. *)
Theorem fallback_without_slave_is_invalid env inst m :
  calloc_ok env = true -> dcb_connect_ok env = true ->
  selected inst = None ->
  get_root_master (dbref inst) = Some m ->
  Z.land (session_bitvalue inst) SERVER_SLAVE = 0 ->
  is_active (server m.2) = true ->
  exists ses inst',
    newSession env inst = (Some ses, inst')
    /\ backend ses = fst m
    /\ bitvalue ses = session_bitvalue inst
    /\ connection_is_valid inst' ses = false.
Proof.
  intros Hcal Hdcb Hsel Hmh Hslave Hact.
  destruct (root_master_usable _ _ Hmh) as (Hl & Ha & Hmst).
  apply master_is_running_out_of_maint in Hmst as (Hr & Hmaint & _).
  assert (Hchk : status_check (session_bitmask inst) (session_bitvalue inst) m.2
                 = false).
  { destruct (status_check _ _ m.2) eqn:Hchk; [| reflexivity]. exfalso.
    unfold selected in Hsel. rewrite Hmh in Hsel.
    pose proof (select_loop_none_rejects _ _ _ _ Hsel m
                  (get_root_master_in _ _ Hmh)) as Hrej.
    unfold SERVER_REF_IS_ACTIVE in Hrej. rewrite Ha, Hact in Hrej.
    specialize (Hrej eq_refl Hmaint Hchk).
    apply andb_true_iff in Hrej as [_ Hrej]. apply Z.eqb_eq in Hrej.
    assert (E : Z.land (Z.land (session_bitvalue inst)
                          (Z.lor SERVER_SLAVE SERVER_MASTER)) SERVER_SLAVE
                = Z.land SERVER_SLAVE SERVER_SLAVE)
      by (rewrite Hrej; reflexivity).
    rewrite <- Z.land_assoc in E.
    change (Z.land (Z.lor SERVER_SLAVE SERVER_MASTER) SERVER_SLAVE)
      with SERVER_SLAVE in E.
    rewrite Hslave in E. discriminate. }
  unfold newSession. unfold selected in Hsel.
  rewrite Hcal, Hsel, Hmh, Hdcb. cbn [negb].
  rewrite Hslave. cbn [negb Z.eqb fst].
  do 2 eexists. split; [reflexivity |]. split; [reflexivity |].
  split; [reflexivity |].
  unfold connection_is_valid. cbn [dbref backend bitmask bitvalue].
  rewrite (lookup_add_connections _ _ _ _ Hl). cbn [server active].
  unfold status_check in Hchk. rewrite Hchk. reflexivity.
Qed.

Lemma fallback_without_slave_is_invalid_witness :
  exists ses inst',
    newSession env_ok (sole_master ["synced"%string]) = (Some ses, inst')
    /\ backend ses = 0%nat
    /\ bitvalue ses = session_bitvalue (sole_master ["synced"%string])
    /\ connection_is_valid inst' ses = false.
Proof.
  apply (fallback_without_slave_is_invalid env_ok (sole_master ["synced"%string])
           (0%nat, {| server := master_server; weight := 1;
                      connections := 0; active := true |}));
    reflexivity.
Defined.

(** *** routeQuery and closeSession *)


(** [closeSession] hands the backend DCB out for closing once: a second
    call closes nothing, and a packet routed after it is dropped because
    the session is closed. *)
Theorem closeSession_once inst rs ref :
  dbref inst !! backend (rses rs) = Some ref ->
  (rses_closed rs = false -> snd (closeSession rs) = backend_dcb rs)
  /\ snd (closeSession (fst (closeSession rs))) = None
  /\ fst (closeSession (fst (closeSession rs))) = fst (closeSession rs)
  /\ routeQuery inst (fst (closeSession rs))
     = Dropped (Some "Session is closed."%string).
Proof.
  intros Href. unfold closeSession, routeQuery.
  destruct (rses_closed rs) eqn:Hc; cbn [fst snd rses_closed rses backend_dcb];
    rewrite ?Hc, Href; cbn [fst snd]; repeat split; discriminate.
Qed.

Lemma closeSession_once_witness :
  routeQuery (sole_master [])
    (fst (closeSession
            {| rses := {| backend := 0; bitmask := 1; bitvalue := 1 |};
               rses_closed := false; backend_dcb := Some 7%nat |}))
  = Dropped (Some "Session is closed."%string).
Proof.
  apply (closeSession_once (sole_master [])
           {| rses := {| backend := 0; bitmask := 1; bitvalue := 1 |};
              rses_closed := false; backend_dcb := Some 7%nat |}
           {| server := master_server; weight := 1; connections := 0;
              active := true |}).
  reflexivity.
Defined.

End RouterMore.

(** ** The monitor *)

Module MonitorMore.
Import Status Monitor Words MonitorProofs.

(** *** State changes and their events *)

Lemma land_lor_zero x a b :
  Z.land x (Z.lor a b) = 0 <-> Z.land x a = 0 /\ Z.land x b = 0.
Proof. rewrite Z.land_lor_distr_r. apply Z.lor_eq_0_iff. Qed.

Lemma no_type_bits x :
  Z.land x server_type_bits = 0 <->
  has_bit x SERVER_MASTER = false /\ has_bit x SERVER_SLAVE = false
  /\ has_bit x SERVER_JOINED = false /\ has_bit x SERVER_NDB = false.
Proof.
  unfold server_type_bits, has_bit. rewrite !land_lor_zero.
  rewrite !negb_false_iff, !Z.eqb_eq. tauto.
Qed.

Lemma masked_idem x : Z.land (Z.land x all_server_bits) all_server_bits
                      = Z.land x all_server_bits.
Proof. rewrite <- Z.land_assoc, Z.land_diag. reflexivity. Qed.

(** A flag word within [all_server_bits] is made of its RUNNING, MAINT and
    type bits. *)
Lemma masked_parts x :
  Z.land x all_server_bits
  = Z.lor (Z.lor (Z.land x SERVER_RUNNING) (Z.land x SERVER_MAINT))
      (Z.land x server_type_bits).
Proof.
  change all_server_bits
    with (Z.lor (Z.lor SERVER_RUNNING SERVER_MAINT) server_type_bits).
  rewrite !Z.land_lor_distr_r. reflexivity.
Qed.

Lemma running_bit_value x : Z.land x SERVER_RUNNING <> 0 -> Z.land x SERVER_RUNNING = 1.
Proof.
  change SERVER_RUNNING with 1. destruct (land_bit0 x); congruence.
Qed.

Lemma flavored_defined x a b c d :
  Z.land x server_type_bits <> 0 ->
  a <> UNDEFINED_EVENT -> b <> UNDEFINED_EVENT ->
  c <> UNDEFINED_EVENT -> d <> UNDEFINED_EVENT ->
  flavored x a b c d UNDEFINED_EVENT <> UNDEFINED_EVENT.
Proof.
  intros Hx Ha Hb Hc Hd. unfold flavored.
  destruct (has_bit x SERVER_MASTER) eqn:H1; [exact Ha |].
  destruct (has_bit x SERVER_SLAVE) eqn:H2; [exact Hb |].
  destruct (has_bit x SERVER_JOINED) eqn:H3; [exact Hc |].
  destruct (has_bit x SERVER_NDB) eqn:H4; [exact Hd |].
  exfalso. apply Hx. apply no_type_bits. auto.
Qed.

(** Whenever [mon_status_changed] reports a change, [mon_get_event_type]
    finds an event for it: the assertion [rval != UNDEFINED_EVENT] holds at
    the call in [detect_handle_state_changes]. *)
Theorem status_change_has_event node :
  mon_status_changed node = true ->
  mon_get_event_type node <> UNDEFINED_EVENT.
Proof.
  unfold mon_status_changed, mon_get_event_type.
  set (P := Z.land (mon_prev_status node) all_server_bits).
  set (C := Z.land (status node) all_server_bits).
  destruct (negb (mon_prev_status node =? 2 ^ 64 - 1)); [| discriminate].
  rewrite !andb_true_iff, negb_true_iff, !Z.eqb_eq, Z.eqb_neq.
  intros [[Hne Hmaint] Hrun].
  destruct (Z.eqb_spec P C) as [E | _]; [contradiction |].
  rewrite Z.land_lor_distr_l in Hmaint, Hrun.
  apply Z.lor_eq_0_iff in Hmaint as [HPm HCm].
  unfold event_category.
  destruct (Z.eqb_spec (Z.land P SERVER_RUNNING) 0) as [HPr | HPr].
  - rewrite HPr, Z.lor_0_l in Hrun. rewrite Hrun.
    change (negb (SERVER_RUNNING =? 0)) with true. cbv iota.
    cbn [event_of_category].
    repeat match goal with
           | |- context [if ?b then _ else _] => destruct b
           end; discriminate.
  - destruct (Z.eqb_spec (Z.land C SERVER_RUNNING) 0) as [HCr | HCr].
    + cbn [event_of_category].
      repeat match goal with
             | |- context [if ?b then _ else _] => destruct b
             end; discriminate.
    + destruct (Z.eqb_spec (Z.land P server_type_bits) 0) as [HPt | HPt].
      * rewrite andb_false_r. cbn [event_of_category].
        apply (flavored_defined C); try discriminate.
        intros HCt. apply Hne.
        unfold P, C. rewrite <- (masked_idem (mon_prev_status node)).
        rewrite <- (masked_idem (status node)). fold P C.
        rewrite (masked_parts P), (masked_parts C).
        rewrite HPm, HCm, HPt, HCt.
        rewrite (running_bit_value P HPr), (running_bit_value C HCr). reflexivity.
      * rewrite andb_true_r.
        destruct ((Z.land P (Z.lor SERVER_MASTER SERVER_SLAVE) =? 0)
                  || (Z.land C (Z.lor SERVER_MASTER SERVER_SLAVE) =? 0)
                  || (Z.land P (Z.lor SERVER_MASTER SERVER_SLAVE)
                      =? Z.land C (Z.lor SERVER_MASTER SERVER_SLAVE))) eqn:Hc.
        -- cbn [event_of_category]. apply (flavored_defined P); try discriminate.
           exact HPt.
        -- cbn [event_of_category]. apply (flavored_defined C); try discriminate.
           rewrite !orb_false_iff, !Z.eqb_neq in Hc. destruct Hc as [[_ Hc] _].
           intros HCt. apply Hc.
           apply no_type_bits in HCt as (H1 & H2 & _).
           apply land_lor_zero. unfold has_bit in H1, H2.
           rewrite negb_false_iff, Z.eqb_eq in H1, H2. auto.
Qed.

Lemma status_change_has_event_witness :
  mon_get_event_type promoted_slave <> UNDEFINED_EVENT.
Proof. apply status_change_has_event. reflexivity. Defined.

Lemma masked_bit x bit :
  Z.land all_server_bits bit = bit ->
  Z.land (Z.land x all_server_bits) bit = Z.land x bit.
Proof. intros H. rewrite <- Z.land_assoc, H. reflexivity. Qed.

Lemma status_unchanged_in_maint node :
  is_in_maint node = true -> mon_status_changed node = false.
Proof.
  unfold mon_status_changed, is_in_maint, status_is_in_maint. intros H.
  rewrite negb_true_iff, Z.eqb_neq in H.
  destruct (mon_prev_status node =? 2 ^ 64 - 1); [reflexivity |]. cbn [negb].
  rewrite Z.land_lor_distr_l, !(masked_bit _ SERVER_MAINT eq_refl).
  destruct (Z.eqb_spec (Z.lor (Z.land (mon_prev_status node) SERVER_MAINT)
                          (Z.land (status node) SERVER_MAINT)) 0) as [E | _].
  - apply Z.lor_eq_0_iff in E. tauto.
  - rewrite andb_false_r. reflexivity.
Qed.

(** [mon_status_changed] reports nothing for a server that goes into or
    comes out of maintenance, for one whose previous status was never set,
    for one that was down and is down, and when the monitored bits are the
    same. *)
Theorem quiet_status_changes node :
  is_in_maint node = true
  \/ Z.land (mon_prev_status node) SERVER_MAINT <> 0
  \/ mon_prev_status node = 2 ^ 64 - 1
  \/ (Z.land (mon_prev_status node) SERVER_RUNNING = 0 /\ is_down node = true)
  \/ Z.land (mon_prev_status node) all_server_bits
     = Z.land (status node) all_server_bits ->
  mon_status_changed node = false.
Proof.
  unfold mon_status_changed, is_in_maint, is_down, status_is_in_maint, status_is_down.
  intros H.
  destruct (Z.eqb_spec (mon_prev_status node) (2 ^ 64 - 1)) as [E | Hset];
    [reflexivity |].
  cbn [negb].
  rewrite !Z.land_lor_distr_l.
  rewrite !(masked_bit _ SERVER_MAINT eq_refl), !(masked_bit _ SERVER_RUNNING eq_refl).
  destruct H as [H | [H | [H | [[H1 H2] | H]]]].
  - rewrite negb_true_iff, Z.eqb_neq in H.
    destruct (Z.eqb_spec (Z.lor (Z.land (mon_prev_status node) SERVER_MAINT)
                            (Z.land (status node) SERVER_MAINT)) 0) as [E | _].
    + apply Z.lor_eq_0_iff in E. tauto.
    + rewrite andb_false_r. reflexivity.
  - destruct (Z.eqb_spec (Z.lor (Z.land (mon_prev_status node) SERVER_MAINT)
                            (Z.land (status node) SERVER_MAINT)) 0) as [E | _].
    + apply Z.lor_eq_0_iff in E. tauto.
    + rewrite andb_false_r. reflexivity.
  - contradiction.
  - apply Z.eqb_eq in H2. rewrite H1, H2.
    change (Z.lor 0 0 =? SERVER_RUNNING) with false. apply andb_false_r.
  - rewrite H, Z.eqb_refl. reflexivity.
Qed.

Lemma quiet_status_changes_witness :
  mon_status_changed (set_status SERVER_MAINT promoted_slave) = false.
Proof. apply quiet_status_changes. left. reflexivity. Defined.

(** *** Admin requests and the start of a tick *)

Lemma check_requests_servers m :
  check_status_flag m = STATUS_FLAG_CHECK ->
  m_servers (monitor_check_maintenance_requests m)
  = map apply_status_request (m_servers m).
Proof. unfold monitor_check_maintenance_requests. intros ->. reflexivity. Qed.

Lemma apply_status_request_slot s : status_request (apply_status_request s) = NO_CHANGE.
Proof. unfold apply_status_request. destruct (status_request s); reflexivity. Qed.

Lemma apply_status_request_idle s :
  status_request s = NO_CHANGE -> apply_status_request s = s.
Proof.
  unfold apply_status_request. intros H. rewrite H.
  destruct s. cbn [status_request] in H. subst. reflexivity.
Qed.

(** At the start of a tick with the check flag raised every request slot
    is emptied and the flag lowered; doing it again changes nothing. *)
Theorem requests_drained m :
  check_status_flag m = STATUS_FLAG_CHECK ->
  Forall (fun s => status_request s = NO_CHANGE)
    (m_servers (monitor_check_maintenance_requests m))
  /\ check_status_flag (monitor_check_maintenance_requests m) = STATUS_FLAG_NOCHECK
  /\ monitor_check_maintenance_requests (monitor_check_maintenance_requests m)
     = monitor_check_maintenance_requests m.
Proof.
  intros Hflag. split; [| split].
  - rewrite check_requests_servers by assumption.
    induction (m_servers m) as [| s l IH]; cbn [map]; constructor;
      [apply apply_status_request_slot | exact IH].
  - unfold monitor_check_maintenance_requests. rewrite Hflag. reflexivity.
  - assert (H1 : check_status_flag (monitor_check_maintenance_requests m)
                 = STATUS_FLAG_NOCHECK)
      by (unfold monitor_check_maintenance_requests; rewrite Hflag; reflexivity).
    generalize dependent (monitor_check_maintenance_requests m). intros m1 H1.
    unfold monitor_check_maintenance_requests. rewrite H1.
    destruct m1. cbn [check_status_flag] in H1. subst. reflexivity.
Qed.

Lemma requests_drained_witness :
  Forall (fun s => status_request s = NO_CHANGE)
    (m_servers (monitor_check_maintenance_requests pending_request_monitor))
  /\ check_status_flag (monitor_check_maintenance_requests pending_request_monitor)
     = STATUS_FLAG_NOCHECK
  /\ monitor_check_maintenance_requests
       (monitor_check_maintenance_requests pending_request_monitor)
     = monitor_check_maintenance_requests pending_request_monitor.
Proof. apply requests_drained. reflexivity. Defined.

(** *** Servers in maintenance during a tick *)

Lemma lookup_check_requests m i s :
  m_servers m !! i = Some s ->
  m_servers (monitor_check_maintenance_requests m) !! i
  = Some (match check_status_flag m with
          | STATUS_FLAG_CHECK => apply_status_request s
          | STATUS_FLAG_NOCHECK => s
          end).
Proof.
  intros H. unfold monitor_check_maintenance_requests.
  destruct (check_status_flag m); cbn [m_servers with_servers with_check_status_flag].
  - exact H.
  - change (map apply_status_request (m_servers m))
      with (apply_status_request <$> m_servers m).
    rewrite list_lookup_fmap, H. reflexivity.
Qed.

Lemma run_one_tick_split e m :
  run_one_tick e m = after_requests e (monitor_check_maintenance_requests m).
Proof. reflexivity. Qed.

Lemma lookup_tick probes m i s :
  m_servers m !! i = Some s ->
  m_servers (tick probes m) !! i = Some (tick_server (probes i) s).
Proof.
  intros H. unfold tick. cbn [m_servers with_servers].
  rewrite list_lookup_imap, H. reflexivity.
Qed.

Lemma lookup_flush m i s :
  m_servers m !! i = Some s ->
  m_servers (flush_server_status m) !! i
  = Some (if negb (is_in_maint s) then with_status (pending_status s) s else s).
Proof.
  intros H. unfold flush_server_status. cbn [m_servers with_servers].
  match goal with
  | |- map ?f ?l !! _ = _ => change (map f l) with (f <$> l)
  end.
  rewrite list_lookup_fmap, H. reflexivity.
Qed.

Lemma lookup_detect m i s :
  m_servers m !! i = Some s ->
  m_servers (detect_handle_state_changes m) !! i
  = Some (if mon_status_changed s
          then with_last_event (mon_get_event_type s) s else s).
Proof.
  intros H. unfold detect_handle_state_changes. cbn [m_servers with_servers].
  match goal with
  | |- map ?f ?l !! _ = _ => change (map f l) with (f <$> l)
  end.
  rewrite list_lookup_fmap, H. reflexivity.
Qed.

Lemma after_requests_keeps_maintenance e m i s :
  m_servers m !! i = Some s -> is_in_maint s = true ->
  m_servers (after_requests e m) !! i = Some s.
Proof.
  intros H Hmaint. unfold after_requests. rewrite servers_store.
  assert (H1 : m_servers (tick (probes e) m) !! i = Some s).
  { rewrite (lookup_tick _ _ _ _ H). unfold tick_server. rewrite Hmaint.
    reflexivity. }
  assert (H2 : m_servers
                 (flush_server_status
                    (with_ticks (u64 (m_ticks (tick (probes e) m) + 1))
                       (tick (probes e) m))) !! i = Some s).
  { rewrite (lookup_flush _ i s); [rewrite Hmaint; reflexivity | exact H1]. }
  rewrite (lookup_detect _ i s H2).
  rewrite status_unchanged_in_maint by exact Hmaint. reflexivity.
Qed.

(** A server in maintenance with no admin request pending comes out of a
    tick exactly as it went in: it is not probed, its status is not
    published and no event is recorded for it. *)
Theorem tick_keeps_maintenance e m i s :
  m_servers m !! i = Some s ->
  is_in_maint s = true ->
  status_request s = NO_CHANGE ->
  m_servers (run_one_tick e m) !! i = Some s.
Proof.
  intros H Hmaint Hreq. rewrite run_one_tick_split.
  apply after_requests_keeps_maintenance; [| exact Hmaint].
  rewrite (lookup_check_requests _ _ _ H).
  rewrite apply_status_request_idle by assumption.
  destruct (check_status_flag m); reflexivity.
Qed.

Lemma tick_keeps_maintenance_witness :
  m_servers (run_one_tick reachable_env
               (with_servers [set_status SERVER_MAINT (fresh_server [97])]
                  one_server_monitor)) !! 0%nat
  = Some (set_status SERVER_MAINT (fresh_server [97])).
Proof. apply tick_keeps_maintenance; reflexivity. Defined.

Lemma maint_bit_set x : status_is_in_maint (Z.lor x SERVER_MAINT) = true.
Proof.
  unfold status_is_in_maint. apply negb_true_iff, Z.eqb_neq.
  apply (RouterMore.land_bit_nonzero _ 1); [lia |].
  rewrite Z.lor_spec. apply orb_true_r.
Qed.

(** A MAINT request written by the admin on a running monitor makes the
    next call of [call_run_one_tick] run a tick whatever the interval, and
    that tick leaves the server with the MAINT bit added to the status it
    had and with an empty request slot.  A request to clear MAINT written
    before that tick replaces the first one: only the second is applied. *)
Theorem maintenance_request_takes_effect e mon srv msrv now called ival :
  m_state mon = MONITOR_STATE_RUNNING ->
  m_servers mon !! srv = Some msrv ->
  let mon1 := monitor_after (set_server_status mon srv SERVER_MAINT None) in
  let mon2 := monitor_after (clear_server_status mon1 srv SERVER_MAINT None) in
  tick_due now {| m_monitor := mon1; m_loop_called := called; interval := ival |}
  = true
  /\ m_servers (run_one_tick e mon1) !! srv
     = Some (set_status SERVER_MAINT (with_status_request NO_CHANGE msrv))
  /\ m_servers (monitor_check_maintenance_requests mon2) !! srv
     = Some (clear_status SERVER_MAINT (with_status_request NO_CHANGE msrv)).
Proof.
  intros Hrun Hsrv mon1 mon2.
  assert (Hlt : (srv < length (m_servers mon))%nat)
    by (eapply lookup_lt_Some; exact Hsrv).
  assert (H1 : mon1 = with_check_status_flag STATUS_FLAG_CHECK
                        (with_servers
                           (<[ srv := with_status_request MAINT_ON msrv ]>
                              (m_servers mon)) mon)).
  { unfold mon1, set_server_status, change_server_status, mon_get_monitored_server.
    rewrite Hsrv, Hrun. reflexivity. }
  assert (Hl1 : m_servers mon1 !! srv = Some (with_status_request MAINT_ON msrv)).
  { rewrite H1. cbn [m_servers with_servers with_check_status_flag].
    apply list_lookup_insert_eq. exact Hlt. }
  assert (H2 : mon2 = with_check_status_flag STATUS_FLAG_CHECK
                        (with_servers
                           (<[ srv := with_status_request MAINT_OFF
                                        (with_status_request MAINT_ON msrv) ]>
                              (m_servers mon1)) mon1)).
  { unfold mon2, clear_server_status, change_server_status, mon_get_monitored_server.
    rewrite Hl1. rewrite H1 at 1. cbn [m_state with_servers with_check_status_flag].
    rewrite Hrun. reflexivity. }
  split; [| split].
  - unfold tick_due. cbn [m_monitor]. rewrite H1.
    cbn [check_status_flag with_check_status_flag]. rewrite orb_true_r. reflexivity.
  - rewrite run_one_tick_split.
    apply after_requests_keeps_maintenance.
    + rewrite (lookup_check_requests _ _ _ Hl1). rewrite H1.
      cbn [check_status_flag with_check_status_flag]. reflexivity.
    + apply maint_bit_set.
  - erewrite lookup_check_requests.
    2:{ rewrite H2. cbn [m_servers with_servers with_check_status_flag].
        apply list_lookup_insert_eq. rewrite H1.
        cbn [m_servers with_servers with_check_status_flag].
        rewrite length_insert. exact Hlt. }
    rewrite H2. cbn [check_status_flag with_check_status_flag]. reflexivity.
Qed.

Lemma maintenance_request_takes_effect_witness :
  m_servers (run_one_tick reachable_env
               (monitor_after (set_server_status one_server_monitor 0
                                 SERVER_MAINT None))) !! 0%nat
  = Some (set_status SERVER_MAINT (with_status_request NO_CHANGE (fresh_server [97]))).
Proof.
  apply (maintenance_request_takes_effect reachable_env one_server_monitor 0
           (fresh_server [97]) 0 0 0); reflexivity.
Defined.

(** *** A probe that fails *)

(** The server record after the loop body of [tick] when the probe fails. *)
Lemma tick_server_failed p s :
  is_in_maint s = false ->
  connection_ok p = false ->
  tick_server p s
  = with_mon_err_count (if is_down s then mon_err_count s + 1 else 0)
      (with_pending_status
         (if access_denied p
          then Z.lor (Z.land (status s) SERVER_WAS_MASTER) SERVER_AUTH_ERROR
          else Z.land (status s) SERVER_WAS_MASTER)
         (with_mon_prev_status (status s) s)).
Proof.
  intros Hmaint Hfail. unfold tick_server. rewrite Hmaint, Hfail.
  unfold monitor_clear_pending_status, monitor_set_pending_status.
  cbn [pending_status with_pending_status with_mon_prev_status].
  change (u64 (Z.lnot (u64 (Z.lnot SERVER_WAS_MASTER)))) with SERVER_WAS_MASTER.
  assert (E : Z.land (Z.land (status s) SERVER_WAS_MASTER)
                (u64 (Z.lnot SERVER_AUTH_ERROR))
              = Z.land (status s) SERVER_WAS_MASTER).
  { rewrite <- Z.land_assoc. reflexivity. }
  rewrite E. unfold is_down.
  destruct (access_denied p);
    cbn [status with_pending_status with_mon_prev_status];
    destruct (status_is_down (status s)); reflexivity.
Qed.

(** When the probe of a server out of maintenance fails, the pending
    status keeps of the old status only the WAS_MASTER bit, with
    AUTH_ERROR added exactly when access was denied; the published status
    is not touched, the previous status becomes the published one, and the
    error count grows for a server published as down and restarts
    otherwise. *)
Theorem failed_probe_clears_roles p s :
  is_in_maint s = false ->
  connection_ok p = false ->
  pending_status (tick_server p s)
  = (if access_denied p
     then Z.lor (Z.land (status s) SERVER_WAS_MASTER) SERVER_AUTH_ERROR
     else Z.land (status s) SERVER_WAS_MASTER)
  /\ mon_prev_status (tick_server p s) = status s
  /\ status (tick_server p s) = status s
  /\ mon_err_count (tick_server p s)
     = (if is_down s then mon_err_count s + 1 else 0).
Proof.
  intros Hmaint Hfail. rewrite (tick_server_failed p s Hmaint Hfail).
  cbn [pending_status mon_prev_status status mon_err_count with_mon_err_count
       with_pending_status with_mon_prev_status].
  repeat split.
Qed.

Lemma failed_probe_clears_roles_witness :
  pending_status
    (tick_server {| connection_ok := false; access_denied := true;
                    discover := fun st => st |} promoted_slave)
  = (if access_denied {| connection_ok := false; access_denied := true;
                         discover := fun st => st |}
     then Z.lor (Z.land (status promoted_slave) SERVER_WAS_MASTER) SERVER_AUTH_ERROR
     else Z.land (status promoted_slave) SERVER_WAS_MASTER).
Proof. apply failed_probe_clears_roles; reflexivity. Defined.

Lemma hangup_member m i s :
  m_servers m !! i = Some s ->
  mon_status_changed s = true ->
  is_usable s = false ->
  In i (mon_hangup_failed_servers m).
Proof.
  intros Hl Hch Hus. unfold mon_hangup_failed_servers.
  apply in_map_iff. exists (i, s). split; [reflexivity |].
  apply list_elem_of_In, list_elem_of_filter. split.
  - cbn [snd]. rewrite Hch, Hus. reflexivity.
  - apply (elem_of_lookup_imap_2 (fun i ptr => (i, ptr))). exact Hl.
Qed.

(** A running server out of maintenance whose probe fails ends the tick
    published as down, with the DOWN event of the role it had, and among
    the servers whose client connections are hung up. *)
Theorem failed_probe_reports_down e m i s :
  m_servers m !! i = Some s ->
  status_request s = NO_CHANGE ->
  is_in_maint s = false ->
  Z.land (status s) SERVER_RUNNING <> 0 ->
  connection_ok (probes e i) = false ->
  exists s',
    m_servers (run_one_tick e m) !! i = Some s'
    /\ is_down s' = true
    /\ status s' = (if access_denied (probes e i)
                    then Z.lor (Z.land (status s) SERVER_WAS_MASTER) SERVER_AUTH_ERROR
                    else Z.land (status s) SERVER_WAS_MASTER)
    /\ last_event s'
       = flavored (status s) MASTER_DOWN_EVENT SLAVE_DOWN_EVENT SYNCED_DOWN_EVENT
           NDB_DOWN_EVENT SERVER_DOWN_EVENT
    /\ In i (mon_hangup_failed_servers (run_one_tick e m)).
Proof.
  intros Hl Hreq Hmaint Hrun Hfail.
  pose proof (tick_server_failed (probes e i) s Hmaint Hfail) as Ht.
  set (t := tick_server (probes e i) s) in *.
  assert (Hpend : pending_status t
                  = (if access_denied (probes e i)
                     then Z.lor (Z.land (status s) SERVER_WAS_MASTER) SERVER_AUTH_ERROR
                     else Z.land (status s) SERVER_WAS_MASTER))
    by (rewrite Ht; reflexivity).
  assert (Hprev : mon_prev_status t = status s) by (rewrite Ht; reflexivity).
  assert (Hst : status t = status s) by (rewrite Ht; reflexivity).
  clear Ht.
  set (new := if access_denied (probes e i)
              then Z.lor (Z.land (status s) SERVER_WAS_MASTER) SERVER_AUTH_ERROR
              else Z.land (status s) SERVER_WAS_MASTER) in *.
  set (f := with_status new t).
  assert (Hmaint' : Z.land (status s) SERVER_MAINT = 0).
  { unfold is_in_maint, status_is_in_maint in Hmaint.
    apply negb_false_iff, Z.eqb_eq in Hmaint. exact Hmaint. }
  assert (Hnew : forall bits,
             Z.land SERVER_WAS_MASTER bits = 0 -> Z.land SERVER_AUTH_ERROR bits = 0 ->
             Z.land new bits = 0).
  { intros bits H1 H2. unfold new. destruct (access_denied (probes e i)).
    - rewrite Z.land_lor_distr_l, <- Z.land_assoc, H1, H2, Z.land_0_r. reflexivity.
    - rewrite <- Z.land_assoc, H1, Z.land_0_r. reflexivity. }
  assert (HC : Z.land (status f) all_server_bits = 0) by (apply Hnew; reflexivity).
  assert (HPr : Z.land (Z.land (mon_prev_status f) all_server_bits) SERVER_RUNNING
                = SERVER_RUNNING).
  { cbn [f mon_prev_status with_status]. rewrite Hprev.
    rewrite (masked_bit _ SERVER_RUNNING eq_refl).
    apply running_bit_value. exact Hrun. }
  assert (HPm : Z.land (Z.land (mon_prev_status f) all_server_bits) SERVER_MAINT = 0).
  { cbn [f mon_prev_status with_status]. rewrite Hprev.
    rewrite (masked_bit _ SERVER_MAINT eq_refl). exact Hmaint'. }
  assert (HPne : Z.land (mon_prev_status f) all_server_bits <> 0).
  { intros E. rewrite E in HPr. discriminate. }
  assert (Hchanged : mon_status_changed f = true).
  { unfold mon_status_changed. rewrite HC, Z.lor_0_r, HPr, HPm.
    cbn [f mon_prev_status with_status]. rewrite Hprev.
    destruct (Z.eqb_spec (status s) (2 ^ 64 - 1)) as [E | _].
    { rewrite E in Hmaint'. discriminate. }
    cbn [negb andb].
    destruct (Z.eqb_spec (Z.land (status s) all_server_bits) 0) as [E | _].
    { exfalso. apply HPne. cbn [f mon_prev_status with_status].
      rewrite Hprev. exact E. }
    reflexivity. }
  assert (Hevent : mon_get_event_type f
                   = flavored (status s) MASTER_DOWN_EVENT SLAVE_DOWN_EVENT
                       SYNCED_DOWN_EVENT NDB_DOWN_EVENT SERVER_DOWN_EVENT).
  { unfold mon_get_event_type. rewrite HC.
    destruct (Z.eqb_spec (Z.land (mon_prev_status f) all_server_bits) 0)
      as [E | _]; [contradiction |].
    unfold event_category. rewrite HPr.
    change (SERVER_RUNNING =? 0) with false.
    change (Z.land 0 SERVER_RUNNING =? 0) with true. cbv iota.
    cbn [event_of_category f mon_prev_status with_status]. rewrite Hprev.
    unfold flavored, has_bit.
    rewrite !(masked_bit (status s) _ eq_refl). reflexivity. }
  assert (Hdown : is_down f = true).
  { unfold is_down, status_is_down. cbn [f status with_status].
    rewrite (Hnew SERVER_RUNNING) by reflexivity. reflexivity. }
  assert (Hfinal : m_servers (run_one_tick e m) !! i
                   = Some (with_last_event (mon_get_event_type f) f)).
  { rewrite run_one_tick_split. unfold after_requests. rewrite servers_store.
    assert (H0 : m_servers (monitor_check_maintenance_requests m) !! i = Some s).
    { rewrite (lookup_check_requests _ _ _ Hl).
      rewrite apply_status_request_idle by assumption.
      destruct (check_status_flag m); reflexivity. }
    pose proof (lookup_tick (probes e) _ _ _ H0) as H1. fold t in H1.
    set (m1 := tick (probes e) (monitor_check_maintenance_requests m)) in *.
    assert (H2 : m_servers (flush_server_status
                              (with_ticks (u64 (m_ticks m1 + 1)) m1)) !! i
                 = Some f).
    { rewrite (lookup_flush _ i t) by exact H1.
      unfold is_in_maint. rewrite Hst. fold (is_in_maint s). rewrite Hmaint.
      cbn [negb]. unfold f. rewrite Hpend. reflexivity. }
    rewrite (lookup_detect _ i f H2), Hchanged. reflexivity. }
  exists (with_last_event (mon_get_event_type f) f).
  split; [exact Hfinal |]. split; [exact Hdown |].
  split; [reflexivity |]. split; [exact Hevent |].
  apply (hangup_member _ _ _ Hfinal).
  - exact Hchanged.
  - unfold is_usable. cbn [status with_last_event f with_status].
    rewrite (Hnew (Z.lor SERVER_RUNNING SERVER_MAINT)) by reflexivity. reflexivity.
Qed.

Lemma failed_probe_reports_down_witness :
  exists s',
    m_servers
      (run_one_tick
         {| probes := fun _ => {| connection_ok := false; access_denied := false;
                                  discover := fun st => st |};
            journal := journal reachable_env |}
         (with_servers [promoted_slave] one_server_monitor)) !! 0%nat = Some s'
    /\ is_down s' = true
    /\ status s' = Z.land (status promoted_slave) SERVER_WAS_MASTER
    /\ last_event s'
       = flavored (status promoted_slave) MASTER_DOWN_EVENT SLAVE_DOWN_EVENT
           SYNCED_DOWN_EVENT NDB_DOWN_EVENT SERVER_DOWN_EVENT
    /\ In 0%nat
         (mon_hangup_failed_servers
            (run_one_tick
               {| probes := fun _ => {| connection_ok := false; access_denied := false;
                                        discover := fun st => st |};
                  journal := journal reachable_env |}
               (with_servers [promoted_slave] one_server_monitor))).
Proof.
  apply (failed_probe_reports_down
           {| probes := fun _ => {| connection_ok := false; access_denied := false;
                                    discover := fun st => st |};
              journal := journal reachable_env |}
           (with_servers [promoted_slave] one_server_monitor) 0 promoted_slave);
    try reflexivity.
  vm_compute. discriminate.
Defined.

(** *** The delay between two wake-ups *)

(** Whatever the clock says and whether or not a tick runs, the next call
    of [call_run_one_tick] is scheduled no sooner than one millisecond and
    no later than [base_interval_ms] after this one, and the configured
    interval is never changed. *)
Theorem call_run_one_tick_delay e now now_after w :
  0 < snd (call_run_one_tick e now now_after w) <= base_interval_ms
  /\ interval (fst (call_run_one_tick e now now_after w)) = interval w.
Proof.
  unfold call_run_one_tick.
  destruct (tick_due now w); cbn [fst snd interval m_loop_called];
    match goal with
    | |- context [(?x <=? 0) || (base_interval_ms <=? ?x)] =>
        destruct (Z.leb_spec x 0); cbn [orb];
        [| destruct (Z.leb_spec base_interval_ms x)]
    end; unfold base_interval_ms in *; cbn [fst snd interval]; lia.
Qed.

(** *** Writing the journal *)

(** The buffer filled by [store_data] is exactly the [size + MMB_LEN_BYTES]
    bytes allocated for it, as the assertion at its end demands. *)
Theorem store_data_fills_buffer monitor :
  Z.of_nat (length (journal_payload (m_servers monitor) (m_master monitor))) + 4
  < 2 ^ 32 ->
  Z.of_nat (length (store_data (m_servers monitor) (m_master monitor)
                      (journal_size (m_servers monitor) (m_master monitor))))
  = journal_size (m_servers monitor) (m_master monitor) + MMB_LEN_BYTES.
Proof.
  intros Hfit.
  pose proof (MonitorProofs.journal_layout monitor Hfit) as Hlay.
  unfold journal_of in Hlay. rewrite Hlay.
  rewrite MonitorProofs.journal_size_payload by assumption.
  rewrite !length_app, !MonitorProofs.length_set_byteN.
  change MMB_LEN_BYTES with 4. lia.
Qed.

Lemma store_data_fills_buffer_witness :
  Z.of_nat (length (store_data (m_servers master_and_slave) (m_master master_and_slave)
                      (journal_size (m_servers master_and_slave)
                         (m_master master_and_slave))))
  = journal_size (m_servers master_and_slave) (m_master master_and_slave)
    + MMB_LEN_BYTES.
Proof.
  apply (store_data_fills_buffer master_and_slave). vm_compute. reflexivity.
Defined.

(** [store_server_journal] never touches the servers or the master
    pointer, writes nothing when the digest of the data is the one it
    remembers, remembers the digest of what it wrote when the write works,
    and called again right away changes nothing. *)
Theorem store_server_journal_settles e m :
  m_servers (store_server_journal e m) = m_servers m
  /\ m_master (store_server_journal e m) = m_master m
  /\ store_server_journal e (store_server_journal e m) = store_server_journal e m
  /\ (journal_io_ok e = false -> store_server_journal e m = m)
  /\ (journal_io_ok e = true ->
      m_journal_hash (store_server_journal e m)
      = SHA1 e (take (Z.to_nat (journal_size (m_servers m) (m_master m)))
                  (store_data (m_servers m) (m_master m)
                     (journal_size (m_servers m) (m_master m))))).
Proof.
  set (size := journal_size (m_servers m) (m_master m)).
  set (data := store_data (m_servers m) (m_master m) size).
  set (h := SHA1 e (take (Z.to_nat size) data)).
  assert (Hdef : forall m',
             m_servers m' = m_servers m -> m_master m' = m_master m ->
             store_server_journal e m'
             = if bool_decide (m_journal_hash m' = h) then m'
               else if journal_io_ok e then with_journal h (Some data) m' else m').
  { intros m' Hs Hm. unfold store_server_journal. rewrite Hs, Hm. reflexivity. }
  rewrite (Hdef m eq_refl eq_refl).
  destruct (bool_decide_reflect (m_journal_hash m = h)) as [Heq | Hne].
  - rewrite (Hdef m eq_refl eq_refl), bool_decide_eq_true_2 by exact Heq.
    auto.
  - destruct (journal_io_ok e) eqn:Hio.
    + rewrite (Hdef (with_journal h (Some data) m) eq_refl eq_refl).
      rewrite bool_decide_eq_true_2 by reflexivity.
      split; [reflexivity |]. split; [reflexivity |]. split; [reflexivity |].
      split; [discriminate | reflexivity].
    + rewrite (Hdef m eq_refl eq_refl), bool_decide_eq_false_2 by exact Hne.
      split; [reflexivity |]. split; [reflexivity |]. split; [reflexivity |].
      split; [reflexivity | discriminate].
Qed.

(** *** Reading a damaged journal *)

(** A journal file whose checksum word is not the CRC of its payload is
    ignored, whatever the payload holds: the servers and the master pointer
    stay as they are and nothing is reported as loaded. *)
Theorem journal_with_wrong_checksum_ignored reader master payload crc :
  Z.of_nat (length payload) + 4 < 2 ^ 32 ->
  0 <= crc < 2 ^ 32 ->
  crc <> u32 (crc32 0 payload) ->
  journal_file reader
  = Some (set_byteN (Z.of_nat (length payload) + 4) 4 ++ payload ++ set_byteN crc 4) ->
  load_server_journal reader master = Some (m_servers reader, master, false).
Proof.
  intros Hfit Hcrc Hne Hfile.
  unfold load_server_journal. rewrite Hfile.
  change (Z.to_nat MMB_LEN_BYTES) with 4%nat.
  change (Z.to_nat MMB_LEN_CRC32) with 4%nat.
  rewrite !length_app, !MonitorProofs.length_set_byteN.
  match goal with
  | |- context [(?a <? ?b)%nat] => destruct (Nat.ltb_spec a b); [lia |]
  end.
  rewrite MonitorProofs.get_set_byteN
    by (change (256 ^ Z.of_nat 4) with (2 ^ 32); lia).
  replace (Z.to_nat (Z.of_nat (length payload) + 4)) with (length payload + 4)%nat
    by lia.
  rewrite drop_app_length' by (symmetry; apply MonitorProofs.length_set_byteN).
  rewrite firstn_all2 by (rewrite length_app, MonitorProofs.length_set_byteN; lia).
  rewrite length_app, MonitorProofs.length_set_byteN.
  match goal with
  | |- context [(?a <? ?b)%nat] => destruct (Nat.ltb_spec a b); [lia |]
  end.
  match goal with
  | |- context [(?a <? ?b)%nat] => destruct (Nat.ltb_spec a b); [lia |]
  end.
  replace (length payload + 4 - 4)%nat with (length payload) by lia.
  assert (Hcheck : check_crc32 (take (length payload) (payload ++ set_byteN crc 4))
                     (drop (length payload) (payload ++ set_byteN crc 4)) = false).
  { unfold check_crc32. rewrite take_app_length, drop_app_length.
    rewrite <- (app_nil_r (set_byteN crc 4)).
    rewrite MonitorProofs.get_set_byteN
      by (change (256 ^ Z.of_nat 4) with (2 ^ 32); lia).
    apply Z.eqb_neq. congruence. }
  destruct (payload ++ set_byteN crc 4) as [| version records] eqn:Hdata.
  - apply (f_equal length) in Hdata.
    rewrite length_app, MonitorProofs.length_set_byteN in Hdata.
    cbn [length] in Hdata. lia.
  - destruct (version =? MMB_SCHEMA_VERSION); [| reflexivity].
    rewrite Hcheck. reflexivity.
Qed.

Lemma journal_with_wrong_checksum_ignored_witness :
  load_server_journal
    (with_journal [] (Some (set_byteN 5 4 ++ [MMB_SCHEMA_VERSION] ++ set_byteN 0 4))
       one_server_monitor)
    (Some None)
  = Some (m_servers one_server_monitor, Some None, false).
Proof.
  apply (journal_with_wrong_checksum_ignored
           (with_journal [] (Some (set_byteN 5 4 ++ [MMB_SCHEMA_VERSION] ++ set_byteN 0 4))
              one_server_monitor)
           (Some None) [MMB_SCHEMA_VERSION] 0).
  - cbn. lia.
  - lia.
  - vm_compute. discriminate.
  - reflexivity.
Defined.

(** A file with the current schema version and the right checksum passes
    the checks of [load_server_journal]; its records are then processed. *)
Lemma load_checked_journal reader master records :
  Z.of_nat (length records) + 5 < 2 ^ 32 ->
  journal_file reader
  = Some (set_byteN (Z.of_nat (length records) + 5) 4
          ++ (MMB_SCHEMA_VERSION :: records)
          ++ set_byteN (u32 (crc32 0 (MMB_SCHEMA_VERSION :: records))) 4) ->
  load_server_journal reader master
  = process_data_file (length records + 4) (m_servers reader) master
      (records ++ set_byteN (u32 (crc32 0 (MMB_SCHEMA_VERSION :: records))) 4).
Proof.
  intros Hfit Hfile.
  set (payload := MMB_SCHEMA_VERSION :: records) in *.
  set (crc := u32 (crc32 0 payload)) in *.
  assert (Hlen : length payload = S (length records)) by reflexivity.
  assert (Hcrc : 0 <= crc < 256 ^ Z.of_nat 4).
  { unfold crc, u32. change (256 ^ Z.of_nat 4) with (2 ^ 32).
    apply Z.mod_pos_bound. reflexivity. }
  unfold load_server_journal. rewrite Hfile.
  change (Z.to_nat MMB_LEN_BYTES) with 4%nat.
  change (Z.to_nat MMB_LEN_CRC32) with 4%nat.
  rewrite !length_app, !MonitorProofs.length_set_byteN.
  match goal with
  | |- context [(?a <? ?b)%nat] => destruct (Nat.ltb_spec a b); [lia |]
  end.
  rewrite MonitorProofs.get_set_byteN
    by (change (256 ^ Z.of_nat 4) with (2 ^ 32); lia).
  replace (Z.to_nat (Z.of_nat (length records) + 5)) with (length payload + 4)%nat
    by lia.
  rewrite drop_app_length' by (symmetry; apply MonitorProofs.length_set_byteN).
  rewrite firstn_all2 by (rewrite length_app, MonitorProofs.length_set_byteN; lia).
  rewrite length_app, MonitorProofs.length_set_byteN.
  match goal with
  | |- context [(?a <? ?b)%nat] => destruct (Nat.ltb_spec a b); [lia |]
  end.
  match goal with
  | |- context [(?a <? ?b)%nat] => destruct (Nat.ltb_spec a b); [lia |]
  end.
  replace (length payload + 4 - 4)%nat with (length payload) by lia.
  unfold check_crc32.
  rewrite take_app_length, drop_app_length.
  assert (Hget : get_byteN (set_byteN crc 4) 4 = crc).
  { rewrite <- (app_nil_r (set_byteN crc 4)).
    apply MonitorProofs.get_set_byteN. exact Hcrc. }
  rewrite Hget. fold crc. rewrite Z.eqb_refl.
  unfold payload at 1. cbn [app].
  change (MMB_SCHEMA_VERSION =? MMB_SCHEMA_VERSION) with true. cbv iota.
  rewrite length_app, MonitorProofs.length_set_byteN. reflexivity.
Qed.

(** Reading a journal is not all-or-nothing: when a record of unknown type
    follows the server records of a file that passes the version and CRC
    checks, the journal is reported as not loaded, yet the servers named by
    the records before it already carry the stored status, also as their
    previous status. *)
Theorem unknown_record_keeps_earlier_updates reader master ws t rest records :
  records = flat_map server_record ws ++ t :: rest ->
  NoDup (map name ws) ->
  Forall (fun s => Forall (fun b => 0 < b < 256) (name s)) ws ->
  Forall (fun s => word64 (status s)) ws ->
  Forall2 (fun r w => name r = name w /\ Z.lor (status r) (status w) = status w)
    (m_servers reader) ws ->
  t <> SVT_SERVER -> t <> SVT_MASTER ->
  Z.of_nat (length records) + 5 < 2 ^ 32 ->
  journal_file reader
  = Some (set_byteN (Z.of_nat (length records) + 5) 4
          ++ (MMB_SCHEMA_VERSION :: records)
          ++ set_byteN (u32 (crc32 0 (MMB_SCHEMA_VERSION :: records))) 4) ->
  exists servers',
    load_server_journal reader master = Some (servers', master, false)
    /\ map name servers' = map name ws
    /\ map status servers' = map status ws
    /\ map mon_prev_status servers' = map status ws.
Proof.
  intros Hrec Hnd Hnm Hst HF Ht1 Ht2 Hfit Hfile.
  destruct (MonitorProofs.restore_all_aligned _ _ HF Hnd) as (Hn' & Hs' & Hp').
  exists (restore_all ws (m_servers reader)).
  split; [| auto].
  rewrite (load_checked_journal _ _ _ Hfit Hfile).
  set (crc := u32 (crc32 0 (MMB_SCHEMA_VERSION :: records))).
  clearbody crc. subst records.
  rewrite <- app_assoc. cbn [app].
  pose proof (MonitorProofs.length_server_records ws) as Hlen.
  rewrite MonitorProofs.process_server_records; try assumption.
  2:{ cbn [length]. rewrite length_app, MonitorProofs.length_set_byteN. lia. }
  2:{ rewrite !length_app. cbn [length].
      rewrite length_app, MonitorProofs.length_set_byteN. lia. }
  rewrite length_app. cbn [length].
  match goal with
  | |- process_data_file ?n _ _ _ = _ =>
      destruct n as [| fuel] eqn:Hfuel; [lia |]
  end.
  cbn [process_data_file].
  change (Z.to_nat MMB_LEN_CRC32) with 4%nat.
  match goal with
  | |- context [(?a <? ?b)%nat] =>
      destruct (Nat.ltb_spec a b);
      [| cbn [length] in *; rewrite length_app, MonitorProofs.length_set_byteN in *; lia]
  end.
  match goal with
  | |- context [negb ?b] => destruct b
  end; cbn [negb]; [| reflexivity].
  destruct (Z.eqb_spec t SVT_SERVER); [contradiction |].
  destruct (Z.eqb_spec t SVT_MASTER); [contradiction |].
  reflexivity.
Qed.

Lemma unknown_record_keeps_earlier_updates_witness :
  exists servers',
    load_server_journal
      (with_journal []
         (Some (set_byteN
                  (Z.of_nat (length (flat_map server_record (m_servers master_and_slave)
                                     ++ [9; 0])) + 5) 4
                ++ (MMB_SCHEMA_VERSION
                    :: flat_map server_record (m_servers master_and_slave) ++ [9; 0])
                ++ set_byteN
                     (u32 (crc32 0
                             (MMB_SCHEMA_VERSION
                              :: flat_map server_record (m_servers master_and_slave)
                                 ++ [9; 0]))) 4))
         restarted)
      (Some None)
    = Some (servers', Some None, false)
    /\ map name servers' = map name (m_servers master_and_slave)
    /\ map status servers' = map status (m_servers master_and_slave)
    /\ map mon_prev_status servers' = map status (m_servers master_and_slave).
Proof.
  apply (unknown_record_keeps_earlier_updates _ (Some None)
           (m_servers master_and_slave) 9 [0]
           (flat_map server_record (m_servers master_and_slave) ++ [9; 0])).
  - reflexivity.
  - apply (bool_decide_unpack _). vm_compute. exact I.
  - repeat constructor.
  - repeat constructor; discriminate.
  - repeat constructor.
  - discriminate.
  - discriminate.
  - vm_compute. reflexivity.
  - reflexivity.
Defined.

End MonitorMore.

(** ** The replication stream processor *)

Module ReplicatorMore.
Import Replicator.

Local Open Scope string_scope.

(** Inverts a successful [process_one_event]: one goal for each kind of
    event that can be processed, with the state afterwards substituted. *)
Ltac done_event event s H :=
  destruct event as [?d ?sv ?sq | | ?tid | | ?tid | ?tid | ?tid | ?ty];
  cbn [process_one_event] in H;
  [ | | | destruct (decide _) in H; [| discriminate H]
    | match type of H with
      | context [m_tables s !! ?k] =>
          destruct (m_tables s !! k) as [[?t |] |] eqn:?Hentry;
          try discriminate H
      end
    | | | ];
  injection H as <-.

Lemma process_stream_app Table_open front back : forall s,
  process_stream Table_open (front ++ back) s
  = match process_stream Table_open front s with
    | Done s1 => process_stream Table_open back s1
    | NullDereference => NullDereference
    end.
Proof.
  induction front as [| event front IH]; intros s; cbn [app process_stream].
  - reflexivity.
  - destruct (process_one_event Table_open event s); [apply IH | reflexivity].
Qed.

(** *** What event processing leaves alone *)

(** Processing events never touches the connection, the error message,
    the running flag or the configuration, however long the stream. *)
Theorem events_leave_connection_alone Table_open events : forall s s',
  process_stream Table_open events s = Done s' ->
  m_sql s' = m_sql s /\ m_error s' = m_error s
  /\ m_running s' = m_running s /\ m_cnf s' = m_cnf s.
Proof.
  induction events as [| event events IH]; intros s s' H; cbn [process_stream] in H.
  - injection H as <-. auto.
  - destruct (process_one_event Table_open event s) as [s1 |] eqn:H1;
      [| discriminate].
    destruct (IH _ _ H) as (-> & -> & -> & ->).
    clear H IH. done_event event s H1; auto.
Qed.

Lemma events_leave_connection_alone_witness :
  exists s',
    process_stream open_always [GTID_EVENT 1 101 44; TABLE_MAP_EVENT 7; XID_EVENT]
      mid_transaction = Done s'
    /\ m_sql s' = m_sql mid_transaction /\ m_error s' = m_error mid_transaction
    /\ m_running s' = m_running mid_transaction /\ m_cnf s' = m_cnf mid_transaction.
Proof.
  eexists. split; [reflexivity |].
  apply (events_leave_connection_alone open_always
           [GTID_EVENT 1 101 44; TABLE_MAP_EVENT 7; XID_EVENT] mid_transaction).
  reflexivity.
Defined.

(** *** The committed cursor *)

Lemma event_moves_cursor Table_open event s s' :
  process_one_event Table_open event s = Done s' ->
  (m_gtid s' = m_gtid s \/ (event = XID_EVENT /\ m_gtid s' = m_current_gtid s))
  /\ (m_current_gtid s' = m_current_gtid s
      \/ exists d sv n, event = GTID_EVENT d sv n
                        /\ m_current_gtid s' = to_gtid_string d sv n).
Proof.
  intros H. done_event event s H;
    cbn [m_gtid m_current_gtid with_current_gtid with_gtid with_tables]; eauto 8.
Qed.

(** The committed cursor after a stream is the one before it, the id that
    was in flight before it, or the id of a GTID event of the stream: no
    other value is ever stored. *)
Theorem committed_cursor_origin Table_open events : forall s s',
  process_stream Table_open events s = Done s' ->
  m_gtid s' = m_gtid s
  \/ m_gtid s' = m_current_gtid s
  \/ exists d sv n, In (GTID_EVENT d sv n) events
                    /\ m_gtid s' = to_gtid_string d sv n.
Proof.
  assert (Hcur : forall events s s',
             process_stream Table_open events s = Done s' ->
             m_current_gtid s' = m_current_gtid s
             \/ exists d sv n, In (GTID_EVENT d sv n) events
                               /\ m_current_gtid s' = to_gtid_string d sv n).
  { induction events0 as [| event events0 IH]; intros s s' H;
      cbn [process_stream] in H.
    - injection H as <-. auto.
    - destruct (process_one_event Table_open event s) as [s1 |] eqn:H1;
        [| discriminate].
      destruct (event_moves_cursor _ _ _ _ H1) as [_ Hc].
      destruct (IH _ _ H) as [E | (d & sv & n & Hin & E)].
      + rewrite E. destruct Hc as [Hc | (d & sv & n & -> & Hc)]; [auto |].
        right. exists d, sv, n. split; [left; reflexivity | exact Hc].
      + right. exists d, sv, n. split; [right; exact Hin | exact E]. }
  induction events as [| event events IH]; intros s s' H; cbn [process_stream] in H.
  - injection H as <-. auto.
  - destruct (process_one_event Table_open event s) as [s1 |] eqn:H1;
      [| discriminate].
    destruct (event_moves_cursor _ _ _ _ H1) as [Hg Hc].
    destruct (IH _ _ H) as [E | [E | (d & sv & n & Hin & E)]].
    + rewrite E. destruct Hg as [Hg | [_ Hg]]; auto.
    + rewrite E. destruct Hc as [Hc | (d & sv & n & -> & Hc)]; [auto |].
      right. right. exists d, sv, n. split; [left; reflexivity | exact Hc].
    + right. right. exists d, sv, n. split; [right; exact Hin | exact E].
Qed.

Lemma committed_cursor_origin_witness :
  exists s',
    process_stream open_always [GTID_EVENT 1 101 44; TABLE_MAP_EVENT 7; XID_EVENT]
      mid_transaction = Done s'
    /\ (m_gtid s' = m_gtid mid_transaction
        \/ m_gtid s' = m_current_gtid mid_transaction
        \/ exists d sv n,
             In (GTID_EVENT d sv n)
               [GTID_EVENT 1 101 44; TABLE_MAP_EVENT 7; XID_EVENT]
             /\ m_gtid s' = to_gtid_string d sv n).
Proof.
  eexists. split; [reflexivity |].
  apply (committed_cursor_origin open_always
           [GTID_EVENT 1 101 44; TABLE_MAP_EVENT 7; XID_EVENT] mid_transaction).
  reflexivity.
Defined.

Lemma in_flight_kept Table_open events : forall s s',
  Forall (fun event => forall d sv n, event <> GTID_EVENT d sv n) events ->
  process_stream Table_open events s = Done s' ->
  m_current_gtid s' = m_current_gtid s.
Proof.
  induction events as [| event events IH]; intros s s' Hno H;
    cbn [process_stream] in H.
  - injection H as <-. reflexivity.
  - apply Forall_cons in Hno as [Hev Hno].
    destruct (process_one_event Table_open event s) as [s1 |] eqn:H1;
      [| discriminate].
    rewrite (IH _ _ Hno H).
    destruct (event_moves_cursor _ _ _ _ H1) as [_ [E | (d & sv & n & E & _)]];
      [exact E | exfalso; exact (Hev _ _ _ E)].
Qed.

(** The cursor moves at commit events only: a stream without an XID event
    leaves it where it was, and a transaction that runs from its GTID event
    to its XID event without another GTID event in between leaves it on
    the id of that transaction. *)
Theorem cursor_moves_at_commit Table_open :
  (forall events s s',
      Forall (fun event => event <> XID_EVENT) events ->
      process_stream Table_open events s = Done s' ->
      m_gtid s' = m_gtid s)
  /\ (forall d sv n body s s',
         Forall (fun event => forall d' sv' n', event <> GTID_EVENT d' sv' n') body ->
         process_stream Table_open (GTID_EVENT d sv n :: body ++ [XID_EVENT]) s
         = Done s' ->
         m_gtid s' = to_gtid_string d sv n).
Proof.
  split.
  - induction events as [| event events IH]; intros s s' Hno H;
      cbn [process_stream] in H.
    + injection H as <-. reflexivity.
    + apply Forall_cons in Hno as [Hev Hno].
      destruct (process_one_event Table_open event s) as [s1 |] eqn:H1;
        [| discriminate].
      rewrite (IH _ _ Hno H).
      destruct (event_moves_cursor _ _ _ _ H1) as [[E | [E _]] _];
        [exact E | contradiction].
  - intros d sv n body s s' Hno H.
    cbn [process_stream process_one_event] in H.
    rewrite process_stream_app in H.
    destruct (process_stream Table_open body _) as [s1 |] eqn:H1; [| discriminate].
    apply in_flight_kept in H1; [| exact Hno].
    cbn [process_stream process_one_event] in H. injection H as <-.
    cbn [m_gtid with_gtid]. rewrite H1. reflexivity.
Qed.

Lemma cursor_moves_at_commit_witness :
  exists s',
    process_stream open_always
      (GTID_EVENT 1 101 44 :: [TABLE_MAP_EVENT 7; WRITE_ROWS_EVENT_V1 7] ++ [XID_EVENT])
      mid_transaction = Done s'
    /\ m_gtid s' = to_gtid_string 1 101 44.
Proof.
  eexists. split; [reflexivity |].
  apply (proj2 (cursor_moves_at_commit open_always) 1 101 44
           [TABLE_MAP_EVENT 7; WRITE_ROWS_EVENT_V1 7] mid_transaction).
  - repeat constructor; discriminate.
  - reflexivity.
Defined.

(** *** Connecting *)

(** [connect] reports success exactly when it leaves a connection behind,
    and never changes the cursor, the in-flight id or the table map. *)
Theorem connect_result_matches_connection e s :
  fst (connect e s) = match m_sql (snd (connect e s)) with
                      | Some _ => true
                      | None => false
                      end
  /\ m_gtid (snd (connect e s)) = m_gtid s
  /\ m_current_gtid (snd (connect e s)) = m_current_gtid s
  /\ m_tables (snd (connect e s)) = m_tables s.
Proof.
  unfold connect. destruct (m_sql s) eqn:Hsql.
  - cbn [fst snd]. rewrite Hsql. auto.
  - destruct (negb (connect_err e =? "")); [cbn; auto |].
    destruct (query_err e); [cbn; auto |].
    destruct (replicate_err e); cbn; auto.
Qed.

(** A failed [connect] started without a connection, leaves none behind
    and records a non-empty error message. *)
Theorem failed_connect_records_error e s :
  fst (connect e s) = false ->
  m_sql s = None
  /\ m_sql (snd (connect e s)) = None
  /\ m_error (snd (connect e s)) <> "".
Proof.
  unfold connect. destruct (m_sql s) eqn:Hsql; [discriminate |].
  destruct (connect_err e =? "") eqn:Herr; cbn [negb].
  - destruct (query_err e); [intros _; cbn; repeat split; discriminate |].
    destruct (replicate_err e); [intros _; cbn; repeat split; discriminate |].
    discriminate.
  - intros _. cbn. repeat split.
    intros E. rewrite E in Herr. discriminate.
Qed.

Lemma failed_connect_records_error_witness :
  m_sql (Imp_init example_cnf) = None
  /\ m_sql (snd (connect {| connect_err := ""; query_err := Some "gone";
                            replicate_err := None |} (Imp_init example_cnf))) = None
  /\ m_error (snd (connect {| connect_err := ""; query_err := Some "gone";
                              replicate_err := None |} (Imp_init example_cnf))) <> "".
Proof.
  apply (failed_connect_records_error
           {| connect_err := ""; query_err := Some "gone"; replicate_err := None |}
           (Imp_init example_cnf)).
  reflexivity.
Defined.

(** Once [connect] has succeeded, calling it again does nothing, whatever
    the source server would answer; and a successful [connect] leaves the
    message of an earlier failure in place. *)
Theorem connected_again_is_noop e e' s :
  fst (connect e s) = true ->
  connect e' (snd (connect e s)) = (true, snd (connect e s))
  /\ m_error (snd (connect e s)) = m_error s.
Proof.
  intros Hok.
  assert (Hres : exists conn, m_sql (snd (connect e s)) = Some conn).
  { revert Hok. unfold connect. destruct (m_sql s) as [conn |] eqn:Hsql.
    - intros _. exists conn. exact Hsql.
    - destruct (negb (connect_err e =? "")); [discriminate |].
      destruct (query_err e); [discriminate |].
      destruct (replicate_err e); [discriminate |].
      intros _. eexists. reflexivity. }
  destruct Hres as [conn Hsql].
  split.
  - unfold connect at 1. rewrite Hsql. reflexivity.
  - revert Hok. clear. unfold connect. destruct (m_sql s); [reflexivity |].
    destruct (negb (connect_err e =? "")); [discriminate |].
    destruct (query_err e); [discriminate |].
    destruct (replicate_err e); [discriminate | reflexivity].
Qed.

Lemma connected_again_is_noop_witness :
  connect {| connect_err := "down"; query_err := None; replicate_err := None |}
    (snd (connect source_up (Imp_init example_cnf)))
  = (true, snd (connect source_up (Imp_init example_cnf)))
  /\ m_error (snd (connect source_up (Imp_init example_cnf)))
     = m_error (Imp_init example_cnf).
Proof.
  apply (connected_again_is_noop source_up
           {| connect_err := "down"; query_err := None; replicate_err := None |}
           (Imp_init example_cnf)).
  reflexivity.
Defined.

(** *** A table that could not be opened *)

Lemma null_table_stays Table_open event id s s' :
  event <> TABLE_MAP_EVENT id ->
  m_tables s !! id = Some None ->
  process_one_event Table_open event s = Done s' ->
  m_tables s' !! id = Some None.
Proof.
  intros Hev Hid H. done_event event s H; cbn [m_tables with_tables with_gtid
    with_current_gtid]; try exact Hid.
  - rewrite lookup_insert_ne by congruence. exact Hid.
  - rewrite lookup_fmap, Hid. reflexivity.
  - rewrite lookup_insert_ne by congruence. exact Hid.
Qed.

Lemma null_table_stream Table_open id events : forall s,
  m_tables s !! id = Some None ->
  Forall (fun event => event <> TABLE_MAP_EVENT id) events ->
  match process_stream Table_open events s with
  | Done s' => m_tables s' !! id = Some None
  | NullDereference => True
  end.
Proof.
  induction events as [| event events IH]; intros s Hid Hno; cbn [process_stream].
  - exact Hid.
  - apply Forall_cons in Hno as [Hev Hno].
    destruct (process_one_event Table_open event s) as [s1 |] eqn:H1; [| exact I].
    apply IH; [| exact Hno]. eapply null_table_stays; eauto.
Qed.

(** When [Table::open] returns a null pointer for a table map event, the
    null entry stays in the table map until the table is mapped again: the
    next query event, or the next row-insert event for that table, ends in
    the dereference of a null pointer. *)
Theorem failed_table_open_is_fatal Table_open id events final s :
  Table_open (m_cnf s) (TABLE_MAP_EVENT id) = None ->
  Forall (fun event => event <> TABLE_MAP_EVENT id) events ->
  final = QUERY_EVENT \/ final = WRITE_ROWS_EVENT_V1 id ->
  process_stream Table_open (TABLE_MAP_EVENT id :: events ++ [final]) s
  = NullDereference.
Proof.
  intros Hopen Hno Hfinal.
  cbn [process_stream process_one_event]. rewrite Hopen, process_stream_app.
  pose proof (null_table_stream Table_open id events
                (with_tables (<[ id := None ]> (m_tables s)) s)) as Hnull.
  destruct (process_stream Table_open events _) as [s1 |]; [| reflexivity].
  assert (Hid : m_tables s1 !! id = Some None).
  { apply Hnull; [| exact Hno]. cbn [m_tables with_tables]. apply lookup_insert_eq. }
  cbn [process_stream].
  destruct Hfinal as [-> | ->]; cbn [process_one_event].
  - destruct (decide _) as [Hall | _]; [| reflexivity].
    destruct (Hall id None Hid) as [t Ht]. discriminate.
  - rewrite Hid. reflexivity.
Qed.

Lemma failed_table_open_is_fatal_witness :
  process_stream (fun _ _ => None)
    (TABLE_MAP_EVENT 7 :: [GTID_EVENT 1 101 44; DELETE_ROWS_EVENT_V1 7] ++ [QUERY_EVENT])
    (Imp_init example_cnf)
  = NullDereference.
Proof.
  apply (failed_table_open_is_fatal (fun _ _ => None) 7
           [GTID_EVENT 1 101 44; DELETE_ROWS_EVENT_V1 7] QUERY_EVENT
           (Imp_init example_cnf)).
  - reflexivity.
  - repeat constructor; discriminate.
  - left. reflexivity.
Defined.

End ReplicatorMore.
